(** * IEEE Hackathon backend: registration and evaluation handlers

    A shallow embedding of the two transactional request handlers of the
    Express/Prisma backend,

      - [registerTeam]      (src/handlers/participant.handler.ts, and the
                             file-upload variant of the same handler), and
      - [submitEvaluation]  (src/handlers/evaluator.handler.ts),

    together with the part of the relational store (prisma migration
    20260201193134_init) that these handlers read and write, and, around
    them,

      - the criteria handlers and [getEvaluationsBySubmission] of
        src/handlers/evaluator.handler.ts,
      - [authMiddleware] (middleware/auth.middleware.ts) in front of the
        evaluator router (src/routes/evaluator.routes.ts), and
      - [createOrUpdateSubmission], [getSubmission], [getTeamById] and
        [getMyTeam] of src/handlers/participant.handler.ts.

    Modelling conventions.
      - Request bodies are well typed: enumerations are enumerations, a
        property that may be missing is an [option], and only
        [isIeeeMember], which the code compares loosely, is an arbitrary
        JSON value.
      - A JavaScript number is an IEEE-754 binary64 value.  The scoring
        code is written once over a record of arithmetic operations and
        read both in the arithmetic of the code ([js]) and in exact
        rational arithmetic ([exact]).  [weightage] is an INTEGER column
        and is an integer ([Z]).
      - Keys that arrive in a request (submission id, criteria id, the
        evaluator's user id) are strings.  Primary keys that the store
        generates for rows created by the handlers are naturals drawn from
        a counter kept in the store; only their freshness matters.
        Strings are compared exactly.  The key that the client generates
        for a new criterion or submission is an input of the handler.
      - [createdAt]/[updatedAt] columns are left out.
      - A query that passes no [orderBy] returns its rows in an order of
        the engine's choosing, which the handlers that list rows take as
        a parameter ([arranges]).
      - The store refuses a value that does not fit its column.  The
        criteria handlers and the submission upsert are modelled with
        that refusal; the registration transaction is modelled on values
        that fit, and the statements that give its answer for every
        request of a kind are for requests that fit
        ([fitsRegistration]).
      - [prisma.$transaction] runs a computation in an error monad over the
        store; when the computation throws, the store it started from is
        kept. *)

From Stdlib Require Import List String ZArith QArith Bool Arith Lia.
From Stdlib Require Import Permutation.
From Stdlib Require PrimFloat Uint63.
Import ListNotations.

Close Scope Q_scope.
Local Open Scope string_scope.
Local Open Scope list_scope.

(** ** JavaScript values and truthiness *)

(** The values a JSON body can put in a loosely typed field. *)
Inductive JsValue :=
| JsUndefined
| JsNull
| JsBool (b : bool)
| JsNumber (n : Z)
| JsString (s : string).

(** [!!v] *)
Definition truthy (v : JsValue) : bool :=
  match v with
  | JsUndefined | JsNull => false
  | JsBool b => b
  | JsNumber n => negb (n =? 0)%Z
  | JsString s => negb (s =? "")
  end.

(** [v === "Yes"] *)
Definition isYes (v : JsValue) : bool :=
  match v with
  | JsString s => s =? "Yes"
  | _ => false
  end.

(** [v === true] *)
Definition isTrue (v : JsValue) : bool :=
  match v with
  | JsBool true => true
  | _ => false
  end.

(** [!!s] for an optional string property ([undefined] or a string). *)
Definition truthyStr (s : option string) : bool :=
  match s with
  | Some s => negb (s =? "")
  | None => false
  end.

(** ** Numbers *)

(** A JavaScript number is an IEEE-754 binary64 value; the [DOUBLE]
    columns of the store hold the same values. *)
Definition number : Type := PrimFloat.float.

(** The number that an integer becomes in JavaScript (exact below 2^53,
    which covers the [INTEGER] column [weightage] and its sums). *)
Definition numberOfZ (z : Z) : number :=
  match z with
  | Zneg p => PrimFloat.opp (PrimFloat.of_uint63 (Uint63.of_Z (Zpos p)))
  | _ => PrimFloat.of_uint63 (Uint63.of_Z z)
  end.

Module Arithmetic.
(** The operations that the scoring code uses, so that the same code can
    be read in the arithmetic of JavaScript and in exact arithmetic. *)
Record t := mk
  { num : Type;
    zero : num;
    add : num -> num -> num;
    mul : num -> num -> num;
    div : num -> num -> num;
    ofZ : Z -> num }.
End Arithmetic.

(** The arithmetic of the code: binary64, rounding to nearest even. *)
Definition js : Arithmetic.t :=
  Arithmetic.mk number (numberOfZ 0) PrimFloat.add PrimFloat.mul PrimFloat.div
                numberOfZ.

(** Exact rational arithmetic. *)
Definition exact : Arithmetic.t :=
  Arithmetic.mk Q 0%Q Qplus Qmult Qdiv inject_Z.

(** ** Scoring: the total computed by [submitEvaluation] *)

Module EvaluationCriteria.
Record t := mk
  { id : string;
    criteria : string;
    weightage : Z;
    description : string }.
End EvaluationCriteria.

(** A pair of a criterion id and a raw score. *)
Record ScoreOf (num : Type) := mkScore
  { criteriaId : string;
    score : num }.

Arguments mkScore {num} _ _.
Arguments criteriaId {num} _.
Arguments score {num} _.

(** One element of [req.body.scores]. *)
Definition ScoreInput : Type := ScoreOf number.

Module Scoring.
Import EvaluationCriteria.

(** [criteria.find((c) => c.id === score.criteriaId)] *)
Definition findCriteria (cs : list EvaluationCriteria.t) (cid : string)
  : option EvaluationCriteria.t :=
  find (fun c => id c =? cid) cs.

(** A pair is matched when its criterion id is the id of a known
    criterion. *)
Definition known {num} (cs : list EvaluationCriteria.t) (s : ScoreOf num)
  : bool :=
  existsb (fun c => id c =? criteriaId s) cs.

Definition weightOf {num} (cs : list EvaluationCriteria.t) (s : ScoreOf num)
  : Z :=
  match findCriteria cs (criteriaId s) with
  | Some c => weightage c
  | None => 0%Z
  end.

Definition matched {num} (cs : list EvaluationCriteria.t)
           (scores : list (ScoreOf num)) : list (ScoreOf num) :=
  filter (known cs) scores.

Definition Zsum (l : list Z) : Z := fold_right Z.add 0%Z l.

(** totalWeight = sum of weight_i over the matched pairs *)
Definition totalWeight {num} (cs : list EvaluationCriteria.t)
           (scores : list (ScoreOf num)) : Z :=
  Zsum (map (weightOf cs) (matched cs scores)).

Definition nonnegWeights (cs : list EvaluationCriteria.t) : Prop :=
  Forall (fun c => (0 <= weightage c)%Z) cs.

Section WithArithmetic.

Variable A : Arithmetic.t.

Local Abbreviation num := (Arithmetic.num A).
Notation "x + y" := (Arithmetic.add A x y).
Notation "x * y" := (Arithmetic.mul A x y).
Notation "x / y" := (Arithmetic.div A x y).
Notation "'#' z" := (Arithmetic.ofZ A z) (at level 5).

(** The body of the [for (const score of scores)] loop, on the pair
    [(totalScore, totalWeightage)]. *)
Definition scoreStep (cs : list EvaluationCriteria.t)
           (acc : num * Z) (s : ScoreOf num) : num * Z :=
  match findCriteria cs (criteriaId s) with
  | Some c =>
      (fst acc + (score s * #(weightage c)) / #100,
       (snd acc + weightage c)%Z)
  | None => acc
  end.

Definition accumulate (cs : list EvaluationCriteria.t)
           (scores : list (ScoreOf num)) : num * Z :=
  fold_left (scoreStep cs) scores (Arithmetic.zero A, 0%Z).

(** [if (totalWeightage > 0 && totalWeightage !== 100)
       totalScore = (totalScore * 100) / totalWeightage] *)
Definition normalize (acc : num * Z) : num :=
  let (totalScore, totalWeightage) := acc in
  if (0 <? totalWeightage)%Z && negb (totalWeightage =? 100)%Z
  then (totalScore * #100) / #totalWeightage
  else totalScore.

Definition computeTotalScore (cs : list EvaluationCriteria.t)
           (scores : list (ScoreOf num)) : num :=
  normalize (accumulate cs scores).

(** *** The normalizer as the specification words it *)

(** rawScore_i * weight_i / 100 *)
Definition weighted (cs : list EvaluationCriteria.t) (s : ScoreOf num) : num :=
  (score s * #(weightOf cs s)) / #100.

(** A sum taken from left to right, starting from [0]. *)
Definition sumInOrder (l : list num) : num :=
  fold_left (Arithmetic.add A) l (Arithmetic.zero A).

(** weightedSum = sum of rawScore_i * weight_i / 100 over matched pairs *)
Definition weightedSum (cs : list EvaluationCriteria.t)
           (scores : list (ScoreOf num)) : num :=
  sumInOrder (map (weighted cs) (matched cs scores)).

(** total as the specification states it: untouched at 0 and at 100,
    rescaled otherwise. *)
Definition specTotal (cs : list EvaluationCriteria.t)
           (scores : list (ScoreOf num)) : num :=
  if (totalWeight cs scores =? 0)%Z || (totalWeight cs scores =? 100)%Z
  then weightedSum cs scores
  else (weightedSum cs scores * #100) / #(totalWeight cs scores).

(** total as the guard in the code has it: untouched whenever the matched
    weights do not sum to a positive number, and at 100. *)
Definition guardedTotal (cs : list EvaluationCriteria.t)
           (scores : list (ScoreOf num)) : num :=
  if (totalWeight cs scores <=? 0)%Z || (totalWeight cs scores =? 100)%Z
  then weightedSum cs scores
  else (weightedSum cs scores * #100) / #(totalWeight cs scores).

End WithArithmetic.

(** The sum of a list of rationals. *)
Definition Qsum (l : list Q) : Q := fold_right Qplus 0%Q l.

End Scoring.

(** ** The relational store *)

Inductive Gender := Male | Female | Other.
Inductive MemberRole := TeamLeader | TeamMember | SchoolStudent.
Inductive UserRole := admin | coordinator | evaluator | participant | head.

Module Team.
Record t := mk
  { id : nat;
    teamName : string;
    theme : string }.
End Team.

Module TeamMemberRow.
Record t := mk
  { fullName : string;
    email : string;
    gender : Gender;
    role : MemberRole;
    isIeeeMember : bool;
    ieeeNumber : option string;
    schoolStandard : option string;
    schoolIdPdf : option string;
    teamId : nat }.
End TeamMemberRow.

Module FacultyMentor.
Record t := mk
  { name : string;
    email : string;
    facultyId : string;
    teamId : nat }.
End FacultyMentor.

Module CommunityRepresentative.
Record t := mk
  { name : string;
    email : string;
    affiliation : string;
    teamId : nat }.
End CommunityRepresentative.

Module User.
Record t := mk
  { id : nat;
    name : string;
    email : string;
    password : string;
    role : UserRole;
    teamId : option nat }.
End User.

Module Evaluation.
Record t := mk
  { id : nat;
    submissionId : string;
    evaluatorId : string;
    totalScore : number;
    comments : option string }.
End Evaluation.

Module EvaluationScore.
Record t := mk
  { evaluationId : nat;
    criteriaId : string;
    score : number }.
End EvaluationScore.

(** The tables the two handlers touch.  Of [Submission] only the primary
    keys are read (through the foreign key of [Evaluation]). *)
Record Store := mkStore
  { teams : list Team.t;
    teamMembers : list TeamMemberRow.t;
    facultyMentors : list FacultyMentor.t;
    communityRepresentatives : list CommunityRepresentative.t;
    users : list User.t;
    submissions : list string;
    evaluationCriteria : list EvaluationCriteria.t;
    evaluations : list Evaluation.t;
    evaluationScores : list EvaluationScore.t;
    nextId : nat }.

Definition withTeamAggregate (db : Store) (t : Team.t)
           (ms : list TeamMemberRow.t) (fm : FacultyMentor.t)
           (cr : CommunityRepresentative.t) : Store :=
  mkStore (teams db ++ [t]) (teamMembers db ++ ms)
          (facultyMentors db ++ [fm]) (communityRepresentatives db ++ [cr])
          (users db) (submissions db) (evaluationCriteria db)
          (evaluations db) (evaluationScores db) (nextId db).

Definition withTeamAndMembers (db : Store) (t : Team.t)
           (ms : list TeamMemberRow.t) : Store :=
  mkStore (teams db ++ [t]) (teamMembers db ++ ms)
          (facultyMentors db) (communityRepresentatives db)
          (users db) (submissions db) (evaluationCriteria db)
          (evaluations db) (evaluationScores db) (nextId db).

Definition withUsers (db : Store) (us : list User.t) : Store :=
  mkStore (teams db) (teamMembers db) (facultyMentors db)
          (communityRepresentatives db) us (submissions db)
          (evaluationCriteria db) (evaluations db) (evaluationScores db)
          (nextId db).

Definition withEvaluations (db : Store) (es : list Evaluation.t) : Store :=
  mkStore (teams db) (teamMembers db) (facultyMentors db)
          (communityRepresentatives db) (users db) (submissions db)
          (evaluationCriteria db) es (evaluationScores db) (nextId db).

Definition withEvaluationScores (db : Store) (rs : list EvaluationScore.t)
  : Store :=
  mkStore (teams db) (teamMembers db) (facultyMentors db)
          (communityRepresentatives db) (users db) (submissions db)
          (evaluationCriteria db) (evaluations db) rs (nextId db).

Definition withNextId (db : Store) (n : nat) : Store :=
  mkStore (teams db) (teamMembers db) (facultyMentors db)
          (communityRepresentatives db) (users db) (submissions db)
          (evaluationCriteria db) (evaluations db) (evaluationScores db) n.

(** ** Transactions *)

(** What a rejected promise carries: a Prisma known-request error with its
    [code], or any other [Error]. *)
Inductive JsError :=
| PrismaError (code : string)
| OtherError.

(** [error.code === c] *)
Definition hasCode (e : JsError) (c : string) : bool :=
  match e with
  | PrismaError code => code =? c
  | OtherError => false
  end.

(** A computation inside [prisma.$transaction(async (tx) => ...)]. *)
Definition Tx (A : Type) : Type := Store -> JsError + (A * Store).

Definition ret {A} (a : A) : Tx A := fun db => inr (a, db).

Definition throw {A} (e : JsError) : Tx A := fun _ => inl e.

Definition bind {A B} (m : Tx A) (k : A -> Tx B) : Tx B :=
  fun db =>
    match m db with
    | inl e => inl e
    | inr (a, db') => k a db'
    end.

Declare Scope tx_scope.
Delimit Scope tx_scope with tx.
Notation "x <- m ;; k" := (bind m (fun x => k))
  (at level 100, m at next level, right associativity) : tx_scope.
Notation "m ;;; k" := (bind m (fun _ => k))
  (at level 100, right associativity) : tx_scope.

Definition get : Tx Store := fun db => inr (db, db).
Definition put (db : Store) : Tx unit := fun _ => inr (tt, db).

(** The store hands out a fresh primary key. *)
Definition freshId : Tx nat :=
  fun db => inr (nextId db, withNextId db (S (nextId db))).

(** [prisma.$transaction]: the outcome of the computation and the store
    afterwards.  The writes of a computation that returns are committed;
    when it throws they are rolled back, and the store is the one the
    transaction started from. *)
Definition transaction {A} (body : Tx A) (db : Store)
  : (JsError + A) * Store :=
  match body db with
  | inr (a, db') => (inr a, db')
  | inl e => (inl e, db)
  end.

(** ** HTTP responses *)

Inductive HttpStatus :=
| OK | CREATED | BAD_REQUEST | UNAUTHORIZED | NOT_FOUND | CONFLICT
| INTERNAL_SERVER_ERROR.

Inductive ResponseData :=
| TeamData (teamId : nat) (teamName : string)
| EvaluationData (evaluation : Evaluation.t).

(** [sendSuccess(res, data, message, status)] and
    [sendError(res, message, status)]. *)
Inductive Response :=
| Success (data : ResponseData) (message : string) (status : HttpStatus)
| Failure (message : string) (status : HttpStatus).

Definition isSuccess (r : Response) : bool :=
  match r with
  | Success _ _ _ => true
  | Failure _ _ => false
  end.

(** ** [submitEvaluation] *)

Module EvaluationRequest.
(** [req.user] as set by the authentication middleware, and the fields
    the handler destructures from [req.body].  [submissionId] and
    [comments] are [None] when the property is absent; [scores] is
    [None] when it is absent or not an array. *)
Record t := mk
  { user : option string;
    submissionId : option string;
    scores : option (list ScoreInput);
    comments : option string }.
End EvaluationRequest.

Section EvaluationStore.

Local Open Scope tx_scope.

Definition sameKey (sid eid : string) (e : Evaluation.t) : bool :=
  (Evaluation.submissionId e =? sid) && (Evaluation.evaluatorId e =? eid).

(** [tx.evaluation.findUnique({ where: { submissionId_evaluatorId } })] *)
Definition evaluation_findUnique (sid eid : string)
  : Tx (option Evaluation.t) :=
  fun db => inr (find (sameKey sid eid) (evaluations db), db).

(** [tx.evaluationScore.deleteMany({ where: { evaluationId } })] *)
Definition evaluationScore_deleteMany (evalId : nat) : Tx unit :=
  fun db =>
    inr (tt, withEvaluationScores db
               (filter (fun r =>
                          negb (EvaluationScore.evaluationId r =? evalId)%nat)
                       (evaluationScores db))).

(** The row after [update({ data: { totalScore, comments } })]: a
    [comments] that is [undefined] leaves the column as it is. *)
Definition updated (total : number) (comments : option string)
           (e : Evaluation.t) : Evaluation.t :=
  Evaluation.mk (Evaluation.id e) (Evaluation.submissionId e)
                (Evaluation.evaluatorId e) total
                (match comments with
                 | Some c => Some c
                 | None => Evaluation.comments e
                 end).

(** [tx.evaluation.update({ where: { id }, data })]; P2025 when no row
    has the id. *)
Definition evaluation_update (evalId : nat) (total : number)
           (comments : option string) : Tx Evaluation.t :=
  fun db =>
    match find (fun e => (Evaluation.id e =? evalId)%nat) (evaluations db) with
    | None => inl (PrismaError "P2025")
    | Some e =>
        inr (updated total comments e,
             withEvaluations db
               (map (fun e' => if (Evaluation.id e' =? evalId)%nat
                               then updated total comments e' else e')
                    (evaluations db)))
    end.

(** [tx.evaluation.create({ data })]: the foreign key on [submissionId]
    (P2003) and the unique index on [(submissionId, evaluatorId)]
    (P2002) are checked by the store. *)
Definition evaluation_create (sid eid : string) (total : number)
           (comments : option string) : Tx Evaluation.t :=
  db <- get ;;
  if negb (existsb (String.eqb sid) (submissions db))
  then throw (PrismaError "P2003")
  else if existsb (sameKey sid eid) (evaluations db)
  then throw (PrismaError "P2002")
  else
    i <- freshId ;;
    db' <- get ;;
    let e := Evaluation.mk i sid eid total comments in
    put (withEvaluations db' (evaluations db' ++ [e])) ;;;
    ret e.

Definition sameScoreKey (r r' : EvaluationScore.t) : bool :=
  (EvaluationScore.evaluationId r =? EvaluationScore.evaluationId r')%nat
  && (EvaluationScore.criteriaId r =? EvaluationScore.criteriaId r').

(** Insertion of one [EvaluationScore] row: both foreign keys (P2003),
    then the unique index on [(evaluationId, criteriaId)] (P2002). *)
Definition evaluationScore_insert (r : EvaluationScore.t) : Tx unit :=
  db <- get ;;
  if negb (existsb (fun e => (Evaluation.id e
                              =? EvaluationScore.evaluationId r)%nat)
                   (evaluations db))
  then throw (PrismaError "P2003")
  else if negb (existsb (fun c => EvaluationCriteria.id c
                                  =? EvaluationScore.criteriaId r)
                        (evaluationCriteria db))
  then throw (PrismaError "P2003")
  else if existsb (sameScoreKey r) (evaluationScores db)
  then throw (PrismaError "P2002")
  else put (withEvaluationScores db (evaluationScores db ++ [r])).

(** [tx.evaluationScore.createMany({ data })], without [skipDuplicates]:
    a single statement, so one offending row fails all of them. *)
Fixpoint evaluationScore_createMany (rows : list EvaluationScore.t)
  : Tx unit :=
  match rows with
  | [] => ret tt
  | r :: rows' =>
      evaluationScore_insert r ;;; evaluationScore_createMany rows'
  end.

(** [scores.map((score) => ({ evaluationId, criteriaId, score }))] *)
Definition scoreRows (evalId : nat) (scores : list ScoreInput)
  : list EvaluationScore.t :=
  map (fun s => EvaluationScore.mk evalId (criteriaId s) (score s)) scores.

(** The callback handed to [prisma.$transaction]. *)
Definition evaluationTx (sid uid : string) (totalScore : number)
           (comments : option string) (scores : list ScoreInput)
  : Tx Evaluation.t :=
  existingEvaluation <- evaluation_findUnique sid uid ;;
  evaluationRecord <-
    match existingEvaluation with
    | Some existing =>
        evaluationScore_deleteMany (Evaluation.id existing) ;;;
        evaluation_update (Evaluation.id existing) totalScore comments
    | None =>
        evaluation_create sid uid totalScore comments
    end ;;
  evaluationScore_createMany
    (scoreRows (Evaluation.id evaluationRecord) scores) ;;;
  ret evaluationRecord.

Definition submitEvaluation (db : Store) (req : EvaluationRequest.t)
  : Store * Response :=
  match EvaluationRequest.user req with
  | None => (db, Failure "User not authenticated" UNAUTHORIZED)
  | Some userId =>
      match EvaluationRequest.submissionId req,
            EvaluationRequest.scores req with
      | Some sid, Some scores =>
          if sid =? "" then (db, Failure "Invalid evaluation data" BAD_REQUEST)
          else
            let criteria := evaluationCriteria db in
            let totalScore := Scoring.computeTotalScore js criteria scores in
            match transaction
                    (evaluationTx sid userId totalScore
                                  (EvaluationRequest.comments req) scores)
                    db with
            | (inr evaluation, db') =>
                (db', Success (EvaluationData evaluation)
                              "Evaluation submitted successfully" OK)
            | (inl _, db') =>
                (db', Failure "Failed to submit evaluation"
                              INTERNAL_SERVER_ERROR)
            end
      | _, _ => (db, Failure "Invalid evaluation data" BAD_REQUEST)
      end
  end.

End EvaluationStore.

(** ** Derived notions used to state the properties *)

(** When does the store accept a batch of score rows. *)
Fixpoint insertable (es : list Evaluation.t) (cs : list EvaluationCriteria.t)
         (existing rows : list EvaluationScore.t) : bool :=
  match rows with
  | [] => true
  | r :: rows' =>
      existsb (fun e => (Evaluation.id e
                         =? EvaluationScore.evaluationId r)%nat) es
      && existsb (fun c => EvaluationCriteria.id c
                           =? EvaluationScore.criteriaId r) cs
      && negb (existsb (sameScoreKey r) existing)
      && insertable es cs (existing ++ [r]) rows'
  end.

Definition firstWithId (i : nat) (es : list Evaluation.t)
  : option Evaluation.t :=
  find (fun e => (Evaluation.id e =? i)%nat) es.

Definition updateAll (i : nat) (total : number) (comments : option string)
           (es : list Evaluation.t) : list Evaluation.t :=
  map (fun e' => if (Evaluation.id e' =? i)%nat
                 then updated total comments e' else e') es.

Definition removeScoresOf (i : nat) (rs : list EvaluationScore.t)
  : list EvaluationScore.t :=
  filter (fun r => negb (EvaluationScore.evaluationId r =? i)%nat) rs.

(** The store after the update path of the transaction. *)
Definition afterUpdate (db : Store) (i : nat) (total : number)
           (comments : option string) (scores : list ScoreInput) : Store :=
  withEvaluationScores
    (withEvaluations db (updateAll i total comments (evaluations db)))
    (removeScoresOf i (evaluationScores db) ++ scoreRows i scores).

(** The store after the create path of the transaction. *)
Definition afterCreate (db : Store) (e : Evaluation.t)
           (scores : list ScoreInput) : Store :=
  withEvaluationScores
    (withEvaluations (withNextId db (S (nextId db))) (evaluations db ++ [e]))
    (evaluationScores db ++ scoreRows (Evaluation.id e) scores).

(** ** Consistency of the evaluation tables *)

Definition evalKey (e : Evaluation.t) : string * string :=
  (Evaluation.submissionId e, Evaluation.evaluatorId e).

(** The constraints of the schema on [Evaluation] and [EvaluationScore]
    that the handler relies on: the primary key, the unique index on
    [(submissionId, evaluatorId)], the foreign key from a score row to its
    evaluation, and the fact that the key generator never hands out a key
    in use. *)
Record consistent (db : Store) : Prop := mkConsistent
  { ids_below :
      Forall (fun e => Evaluation.id e < nextId db) (evaluations db);
    ids_nodup : NoDup (map Evaluation.id (evaluations db));
    keys_nodup : NoDup (map evalKey (evaluations db));
    scores_fk :
      Forall (fun r => In (EvaluationScore.evaluationId r)
                          (map Evaluation.id (evaluations db)))
             (evaluationScores db) }.

(** The rows an observer counts. *)
Definition evaluationsFor (db : Store) (sid uid : string)
  : list Evaluation.t :=
  filter (sameKey sid uid) (evaluations db).

Definition scoresOf (db : Store) (i : nat) : list EvaluationScore.t :=
  filter (fun r => (EvaluationScore.evaluationId r =? i)%nat)
         (evaluationScores db).

Definition submitted : string := "Evaluation submitted successfully".

(** ** [registerTeam] *)

Module TeamMemberInput.
(** One element of [body.members].  [isIeeeMember] is whatever the JSON
    body holds; the optional string properties are [None] when absent.
    [schoolIdPdf] is read by the file-upload variant only. *)
Record t := mk
  { fullName : string;
    email : string;
    gender : Gender;
    role : MemberRole;
    isIeeeMember : JsValue;
    ieeeNumber : option string;
    schoolStandard : option string;
    schoolIdPdf : option string }.
End TeamMemberInput.

Module MentorInput.
Record t := mk
  { name : string;
    email : string;
    facultyId : string }.
End MentorInput.

Module RepresentativeInput.
Record t := mk
  { name : string;
    email : string;
    affiliation : string }.
End RepresentativeInput.

Module RegisterTeamInput.
Record t := mk
  { teamName : string;
    theme : string;
    members : list TeamMemberInput.t;
    facultyMentor : MentorInput.t;
    communityRepresentative : RepresentativeInput.t }.
End RegisterTeamInput.

(** The rejections of the roster checks, named by the rule they report. *)
Inductive Violation :=
| WRONG_ROSTER_SIZE
| LEADER_COUNT_INVALID
| LEADER_NOT_IEEE_MEMBER
| SCHOOL_STUDENT_COUNT_INVALID
| SCHOOL_STUDENT_MISSING_FIELDS
| SCHOOL_STUDENT_MISSING_PDF
| NO_FEMALE_MEMBER.

Definition isLeader (m : TeamMemberInput.t) : bool :=
  match TeamMemberInput.role m with TeamLeader => true | _ => false end.

Definition isSchoolStudent (m : TeamMemberInput.t) : bool :=
  match TeamMemberInput.role m with SchoolStudent => true | _ => false end.

Definition isFemale (m : TeamMemberInput.t) : bool :=
  match TeamMemberInput.gender m with Female => true | _ => false end.

(** [!member.isIeeeMember || !member.ieeeNumber] *)
Definition lacksIeee (m : TeamMemberInput.t) : bool :=
  negb (truthy (TeamMemberInput.isIeeeMember m))
  || negb (truthyStr (TeamMemberInput.ieeeNumber m)).

(** [!member.schoolStandard] *)
Definition lacksStandard (m : TeamMemberInput.t) : bool :=
  negb (truthyStr (TeamMemberInput.schoolStandard m)).

(** The three counters of the validation loop. *)
Record Counts := mkCounts
  { teamLeaderCount : nat;
    schoolStudentCount : nat;
    femaleCount : nat }.

Definition noCounts : Counts := mkCounts 0 0 0.

(** The [for (const member of body.members)] loop of the primary handler:
    it returns from the handler at the first member that fails its own
    check, and otherwise carries the counters on. *)
Fixpoint scanMembers (ms : list TeamMemberInput.t) (c : Counts)
  : Violation + Counts :=
  match ms with
  | [] => inr c
  | member :: rest =>
      let tl := if isLeader member then S (teamLeaderCount c)
                else teamLeaderCount c in
      if isLeader member && lacksIeee member
      then inl LEADER_NOT_IEEE_MEMBER
      else
        let ss := if isSchoolStudent member then S (schoolStudentCount c)
                  else schoolStudentCount c in
        if isSchoolStudent member && lacksStandard member
        then inl SCHOOL_STUDENT_MISSING_FIELDS
        else
          let fc := if isFemale member then S (femaleCount c)
                    else femaleCount c in
          scanMembers rest (mkCounts tl ss fc)
  end.

(** The roster checks of the primary handler, in the order the handler
    runs them; [None] when the roster passes. *)
Definition validateRoster (ms : list TeamMemberInput.t) : option Violation :=
  if negb (List.length ms =? 6)%nat then Some WRONG_ROSTER_SIZE
  else
    match scanMembers ms noCounts with
    | inl v => Some v
    | inr c =>
        if negb (teamLeaderCount c =? 1)%nat then Some LEADER_COUNT_INVALID
        else if (schoolStudentCount c =? 0)%nat
        then Some SCHOOL_STUDENT_COUNT_INVALID
        else if (femaleCount c =? 0)%nat then Some NO_FEMALE_MEMBER
        else None
    end.

(** The [sendError] call of each rejection in the primary handler. *)
Definition rejection (v : Violation) : Response :=
  match v with
  | WRONG_ROSTER_SIZE =>
      Failure "Team must have exactly 6 members" BAD_REQUEST
  | LEADER_COUNT_INVALID =>
      Failure "Team must have exactly one Team Leader" BAD_REQUEST
  | LEADER_NOT_IEEE_MEMBER =>
      Failure "Team Leader must be an IEEE member with valid membership number"
              BAD_REQUEST
  | SCHOOL_STUDENT_COUNT_INVALID =>
      Failure "Team must have at least one School Student (6th-9th standard)"
              BAD_REQUEST
  | SCHOOL_STUDENT_MISSING_FIELDS =>
      Failure "School Student must have a valid school standard (6th-9th)"
              BAD_REQUEST
  | SCHOOL_STUDENT_MISSING_PDF =>
      Failure "School ID PDF is required for School Student" BAD_REQUEST
  | NO_FEMALE_MEMBER =>
      Failure "Team must have at least one female member" BAD_REQUEST
  end.

Definition teamNameTaken : Response :=
  Failure "Team name already exists" CONFLICT.

Definition registrationFailed : Response :=
  Failure "Failed to register team" INTERNAL_SERVER_ERROR.

Definition registered (t : Team.t) : Response :=
  Success (TeamData (Team.id t) (Team.teamName t))
          "Team registered successfully" CREATED.

(** The initial password of every leader account. *)
Definition defaultPassword : string := "qwert123".

(** The element of [members: { create: body.members.map(...) }]. *)
Definition memberRow (teamId : nat) (m : TeamMemberInput.t)
  : TeamMemberRow.t :=
  TeamMemberRow.mk (TeamMemberInput.fullName m) (TeamMemberInput.email m)
                   (TeamMemberInput.gender m) (TeamMemberInput.role m)
                   (isYes (TeamMemberInput.isIeeeMember m))
                   (TeamMemberInput.ieeeNumber m)
                   (TeamMemberInput.schoolStandard m)
                   None teamId.

Definition mentorRow (teamId : nat) (f : MentorInput.t) : FacultyMentor.t :=
  FacultyMentor.mk (MentorInput.name f) (MentorInput.email f)
                   (MentorInput.facultyId f) teamId.

Definition representativeRow (teamId : nat) (r : RepresentativeInput.t)
  : CommunityRepresentative.t :=
  CommunityRepresentative.mk (RepresentativeInput.name r)
                             (RepresentativeInput.email r)
                             (RepresentativeInput.affiliation r) teamId.

Definition nameHeld (db : Store) (name : string) : bool :=
  existsb (fun t => Team.teamName t =? name) (teams db).

(** [prisma.team.findUnique({ where: { teamName } })] *)
Definition team_findUnique (db : Store) (name : string) : option Team.t :=
  find (fun t => Team.teamName t =? name) (teams db).

(** The rows of [Team] that carry a name. *)
Definition teamsNamed (db : Store) (name : string) : list Team.t :=
  filter (fun t => Team.teamName t =? name) (teams db).

(** *** The roster checks of the file-upload variant *)

(** What [Promise.all(uploadPromises)] settles to: a rejection, or the
    secure URL of every uploaded [schoolIdPdf_<i>] field, keyed by [i]. *)
Inductive UploadOutcome :=
| UploadFailed
| Uploaded (cloudinaryUrls : list (nat * string)).

(** [cloudinaryUrls[`schoolIdPdf_${i}`]] *)
Definition pdfUrlOf (urls : list (nat * string)) (i : nat) : option string :=
  match find (fun p => (fst p =? i)%nat) urls with
  | Some p => Some (snd p)
  | None => None
  end.

(** [member.schoolIdPdf = pdfUrl] *)
Definition withSchoolIdPdf (m : TeamMemberInput.t) (url : option string)
  : TeamMemberInput.t :=
  TeamMemberInput.mk (TeamMemberInput.fullName m) (TeamMemberInput.email m)
                     (TeamMemberInput.gender m) (TeamMemberInput.role m)
                     (TeamMemberInput.isIeeeMember m)
                     (TeamMemberInput.ieeeNumber m)
                     (TeamMemberInput.schoolStandard m) url.

(** The [for (let i = 0; i < body.members.length; i++)] loop of the
    variant; it also returns the members as the loop leaves them. *)
Fixpoint scanMembersUpload (urls : list (nat * string)) (i : nat)
         (ms : list TeamMemberInput.t) (c : Counts)
  : Violation + (Counts * list TeamMemberInput.t) :=
  match ms with
  | [] => inr (c, [])
  | member :: rest =>
      let tl := if isLeader member then S (teamLeaderCount c)
                else teamLeaderCount c in
      if isLeader member && lacksIeee member
      then inl LEADER_NOT_IEEE_MEMBER
      else
        let ss := if isSchoolStudent member then S (schoolStudentCount c)
                  else schoolStudentCount c in
        if isSchoolStudent member && lacksStandard member
        then inl SCHOOL_STUDENT_MISSING_FIELDS
        else if isSchoolStudent member && negb (truthyStr (pdfUrlOf urls i))
        then inl SCHOOL_STUDENT_MISSING_PDF
        else
          let member' := if isSchoolStudent member
                         then withSchoolIdPdf member (pdfUrlOf urls i)
                         else member in
          let fc := if isFemale member then S (femaleCount c)
                    else femaleCount c in
          match scanMembersUpload urls (S i) rest (mkCounts tl ss fc) with
          | inl v => inl v
          | inr (c', rest') => inr (c', member' :: rest')
          end
  end.

(** The [sendError] call of each rejection in the variant. *)
Definition rejectionUpload (v : Violation) : Response :=
  match v with
  | SCHOOL_STUDENT_COUNT_INVALID =>
      Failure "Team must have exactly one School Student" BAD_REQUEST
  | SCHOOL_STUDENT_MISSING_FIELDS =>
      Failure "School Student must have a valid school standard (7th-9th)"
              BAD_REQUEST
  | _ => rejection v
  end.

Definition uploadFailed : Response :=
  Failure "Failed to upload files" INTERNAL_SERVER_ERROR.

(** Everything the variant does before it looks the team name up: the
    size check, the uploads, the loop and the three counter checks. *)
Definition checkRosterUpload (uploads : UploadOutcome)
           (ms : list TeamMemberInput.t)
  : Response + list TeamMemberInput.t :=
  if negb (List.length ms =? 6)%nat
  then inl (rejectionUpload WRONG_ROSTER_SIZE)
  else
    match uploads with
    | UploadFailed => inl uploadFailed
    | Uploaded urls =>
        match scanMembersUpload urls 0 ms noCounts with
        | inl v => inl (rejectionUpload v)
        | inr (c, ms') =>
            if negb (teamLeaderCount c =? 1)%nat
            then inl (rejectionUpload LEADER_COUNT_INVALID)
            else if negb (schoolStudentCount c =? 1)%nat
            then inl (rejectionUpload SCHOOL_STUDENT_COUNT_INVALID)
            else if (femaleCount c =? 0)%nat
            then inl (rejectionUpload NO_FEMALE_MEMBER)
            else inr ms'
        end
    end.

(** [s || null] *)
Definition orNull (s : option string) : option string :=
  match s with
  | Some s => if s =? "" then None else Some s
  | None => None
  end.

(** The element of [membersToCreate] in the variant. *)
Definition memberRowUpload (teamId : nat) (m : TeamMemberInput.t)
  : TeamMemberRow.t :=
  TeamMemberRow.mk (TeamMemberInput.fullName m) (TeamMemberInput.email m)
                   (TeamMemberInput.gender m) (TeamMemberInput.role m)
                   (isYes (TeamMemberInput.isIeeeMember m)
                    || isTrue (TeamMemberInput.isIeeeMember m))
                   (orNull (TeamMemberInput.ieeeNumber m))
                   (orNull (TeamMemberInput.schoolStandard m))
                   (orNull (TeamMemberInput.schoolIdPdf m))
                   teamId.

Section Registration.

(** [hashPassword] of utils/password; [None] when the promise rejects. *)
Variable hashPassword : string -> option string.

Local Open Scope tx_scope.

Definition hashPasswordTx (plain : string) : Tx string :=
  fun db =>
    match hashPassword plain with
    | Some h => inr (h, db)
    | None => inl OtherError
    end.

(** [tx.team.create] with the nested creates of the primary handler: the
    team, its member rows, the mentor and the representative in one
    statement.  The unique index on [teamName] is checked by the store
    (P2002).  The strings of the request are taken to fit their columns
    ([fitsRegistration]). *)
Definition team_create (body : RegisterTeamInput.t) : Tx Team.t :=
  db <- get ;;
  if nameHeld db (RegisterTeamInput.teamName body)
  then throw (PrismaError "P2002")
  else
    i <- freshId ;;
    db' <- get ;;
    let t := Team.mk i (RegisterTeamInput.teamName body)
                     (RegisterTeamInput.theme body) in
    put (withTeamAggregate db' t
           (map (memberRow i) (RegisterTeamInput.members body))
           (mentorRow i (RegisterTeamInput.facultyMentor body))
           (representativeRow i (RegisterTeamInput.communityRepresentative body))) ;;;
    ret t.

(** [tx.user.create]; the unique index on [email] is checked by the store
    (P2002). *)
Definition user_create (name email password : string) (role : UserRole)
           (teamId : option nat) : Tx User.t :=
  db <- get ;;
  if existsb (fun u => User.email u =? email) (users db)
  then throw (PrismaError "P2002")
  else
    i <- freshId ;;
    db' <- get ;;
    let u := User.mk i name email password role teamId in
    put (withUsers db' (users db' ++ [u])) ;;;
    ret u.

(** [body.members.find((m) => m.role === 'TeamLeader')] *)
Definition findLeader (ms : list TeamMemberInput.t)
  : option TeamMemberInput.t :=
  find isLeader ms.

(** The callback handed to [prisma.$transaction] by the primary handler. *)
Definition registerTx (body : RegisterTeamInput.t) : Tx Team.t :=
  newTeam <- team_create body ;;
  match findLeader (RegisterTeamInput.members body) with
  | Some teamLeader =>
      hashedPassword <- hashPasswordTx defaultPassword ;;
      user_create (TeamMemberInput.fullName teamLeader)
                  (TeamMemberInput.email teamLeader)
                  hashedPassword participant (Some (Team.id newTeam)) ;;;
      ret newTeam
  | None => ret newTeam
  end.

(** The [catch] block of the primary handler. *)
Definition caught (e : JsError) : Response :=
  if hasCode e "P2002" then teamNameTaken else registrationFailed.

(** The primary handler.  The name lookup and the transaction are two
    separate round trips to the store: [dbCheck] is the store the lookup
    reads, [dbTx] the store the transaction starts from, which differ
    when another request commits in between. *)
Definition registerTeamAt (dbCheck dbTx : Store) (body : RegisterTeamInput.t)
  : Store * Response :=
  match validateRoster (RegisterTeamInput.members body) with
  | Some v => (dbTx, rejection v)
  | None =>
      match team_findUnique dbCheck (RegisterTeamInput.teamName body) with
      | Some _ => (dbTx, teamNameTaken)
      | None =>
          match transaction (registerTx body) dbTx with
          | (inr team, db') => (db', registered team)
          | (inl e, db') => (db', caught e)
          end
      end
  end.

(** The handler with no other request in between. *)
Definition registerTeam (db : Store) (body : RegisterTeamInput.t)
  : Store * Response :=
  registerTeamAt db db body.

(** *** The file-upload variant of the handler *)

(** [tx.team.create] of the variant: the team and its member rows only;
    as in [team_create], the strings are taken to fit their columns. *)
Definition team_createUpload (body : RegisterTeamInput.t)
           (ms : list TeamMemberInput.t) : Tx Team.t :=
  db <- get ;;
  if nameHeld db (RegisterTeamInput.teamName body)
  then throw (PrismaError "P2002")
  else
    i <- freshId ;;
    db' <- get ;;
    let t := Team.mk i (RegisterTeamInput.teamName body)
                     (RegisterTeamInput.theme body) in
    put (withTeamAndMembers db' t (map (memberRowUpload i) ms)) ;;;
    ret t.

Definition registerTxUpload (body : RegisterTeamInput.t)
           (ms : list TeamMemberInput.t) : Tx Team.t :=
  newTeam <- team_createUpload body ms ;;
  match findLeader ms with
  | Some teamLeader =>
      hashedPassword <- hashPasswordTx defaultPassword ;;
      user_create (TeamMemberInput.fullName teamLeader)
                  (TeamMemberInput.email teamLeader)
                  hashedPassword participant (Some (Team.id newTeam)) ;;;
      ret newTeam
  | None => ret newTeam
  end.

(** The variant: [uploads] is the outcome of the Cloudinary fan-out that
    the handler awaits after the size check.  Its [catch] block answers
    every error with the generic failure. *)
Definition registerTeamUpload (db : Store) (body : RegisterTeamInput.t)
           (uploads : UploadOutcome) : Store * Response :=
  match checkRosterUpload uploads (RegisterTeamInput.members body) with
  | inl r => (db, r)
  | inr ms =>
      match team_findUnique db (RegisterTeamInput.teamName body) with
      | Some _ => (db, teamNameTaken)
      | None =>
          match transaction (registerTxUpload body ms) db with
          | (inr team, db') => (db', registered team)
          | (inl _, db') => (db', registrationFailed)
          end
      end
  end.

End Registration.

(** ** The roster rules, stated without the loop *)

Definition countIf (p : TeamMemberInput.t -> bool)
           (ms : list TeamMemberInput.t) : nat :=
  List.length (filter p ms).

(** What the loop objects to in one member. *)
Definition memberViolation (m : TeamMemberInput.t) : option Violation :=
  if isLeader m && lacksIeee m then Some LEADER_NOT_IEEE_MEMBER
  else if isSchoolStudent m && lacksStandard m
  then Some SCHOOL_STUDENT_MISSING_FIELDS
  else None.

(** The objection to the first member, in roster order, that has one. *)
Fixpoint firstViolation (ms : list TeamMemberInput.t) : option Violation :=
  match ms with
  | [] => None
  | m :: rest =>
      match memberViolation m with
      | Some v => Some v
      | None => firstViolation rest
      end
  end.

(** The order in which the primary handler settles a roster: the size,
    then the first member with an objection, then the three counts. *)
Definition scanThenCount (ms : list TeamMemberInput.t) : option Violation :=
  if negb (List.length ms =? 6)%nat then Some WRONG_ROSTER_SIZE
  else
    match firstViolation ms with
    | Some v => Some v
    | None =>
        if negb (countIf isLeader ms =? 1)%nat then Some LEADER_COUNT_INVALID
        else if (countIf isSchoolStudent ms =? 0)%nat
        then Some SCHOOL_STUDENT_COUNT_INVALID
        else if (countIf isFemale ms =? 0)%nat then Some NO_FEMALE_MEMBER
        else None
    end.

(** The six rules in the order of the specification, first failure
    winning, with "exactly one" school student. *)
Definition rulesInSpecOrder (ms : list TeamMemberInput.t)
  : option Violation :=
  if negb (List.length ms =? 6)%nat then Some WRONG_ROSTER_SIZE
  else if negb (countIf isLeader ms =? 1)%nat then Some LEADER_COUNT_INVALID
  else if existsb (fun m => isLeader m && lacksIeee m) ms
  then Some LEADER_NOT_IEEE_MEMBER
  else if negb (countIf isSchoolStudent ms =? 1)%nat
  then Some SCHOOL_STUDENT_COUNT_INVALID
  else if existsb (fun m => isSchoolStudent m && lacksStandard m) ms
  then Some SCHOOL_STUDENT_MISSING_FIELDS
  else if (countIf isFemale ms =? 0)%nat then Some NO_FEMALE_MEMBER
  else None.

(** A roster of six that satisfies every rule other than the one on the
    number of school students. *)
Definition otherRulesHold (ms : list TeamMemberInput.t) : Prop :=
  List.length ms = 6
  /\ countIf isLeader ms = 1
  /\ (forall m, In m ms -> isLeader m = true -> lacksIeee m = false)
  /\ (forall m, In m ms -> isSchoolStudent m = true -> lacksStandard m = false)
  /\ 1 <= countIf isFemale ms.

(** For the variant, every school student in slot [i] also has its
    uploaded document. *)
Definition documentsResolved (urls : list (nat * string))
           (ms : list TeamMemberInput.t) : Prop :=
  forall i m, nth_error ms i = Some m -> isSchoolStudent m = true ->
              truthyStr (pdfUrlOf urls i) = true.

(** ** The aggregate a registration leaves behind *)

(** The login account provisioned for a leader. *)
Definition leaderAccount (uid tid : nat) (leader : TeamMemberInput.t)
           (hashed : string) : User.t :=
  User.mk uid (TeamMemberInput.fullName leader) (TeamMemberInput.email leader)
          hashed participant (Some tid).

(** [db'] is [db] with the whole aggregate of team [tid] added: the team
    row, one row per roster member, the mentor, the representative and the
    account of the leader under the hash [hashed]. *)
Definition aggregateAdded (db db' : Store) (body : RegisterTeamInput.t)
           (tid : nat) (leader : TeamMemberInput.t) (hashed : string) : Prop :=
  teams db' = teams db ++ [Team.mk tid (RegisterTeamInput.teamName body)
                                   (RegisterTeamInput.theme body)]
  /\ teamMembers db'
     = teamMembers db ++ map (memberRow tid) (RegisterTeamInput.members body)
  /\ facultyMentors db'
     = facultyMentors db ++ [mentorRow tid (RegisterTeamInput.facultyMentor body)]
  /\ communityRepresentatives db'
     = communityRepresentatives db
       ++ [representativeRow tid (RegisterTeamInput.communityRepresentative body)]
  /\ exists uid, users db' = users db ++ [leaderAccount uid tid leader hashed].

(** The store after the transaction of the primary handler has committed
    for a roster whose leader is [leader], with [hashed] the hash of the
    default password. *)
Definition afterRegister (db : Store) (body : RegisterTeamInput.t)
           (leader : TeamMemberInput.t) (hashed : string) : Store :=
  let tid := nextId db in
  let withTeam :=
    withTeamAggregate (withNextId db (S tid))
      (Team.mk tid (RegisterTeamInput.teamName body)
               (RegisterTeamInput.theme body))
      (map (memberRow tid) (RegisterTeamInput.members body))
      (mentorRow tid (RegisterTeamInput.facultyMentor body))
      (representativeRow tid (RegisterTeamInput.communityRepresentative body)) in
  let keyed := withNextId withTeam (S (S tid)) in
  withUsers keyed (users keyed ++ [leaderAccount (S tid) tid leader hashed]).

(** ** Sample data *)

Module Sample.

Definition criterionA : EvaluationCriteria.t :=
  EvaluationCriteria.mk "A" "Innovation" 60 "How new the idea is".
Definition criterionB : EvaluationCriteria.t :=
  EvaluationCriteria.mk "B" "Impact" 40 "What the idea changes".
Definition criterionNeg : EvaluationCriteria.t :=
  EvaluationCriteria.mk "N" "Penalty" (-50) "A criterion of negative weight".

Definition criterion20 : EvaluationCriteria.t :=
  EvaluationCriteria.mk "P" "Pitch" 20 "How the idea is told".
Definition criterion30 : EvaluationCriteria.t :=
  EvaluationCriteria.mk "R" "Reach" 30 "Whom the idea serves".

(** The score 10 for the criterion of negative weight. *)
Definition scoreNeg : list ScoreInput := [mkScore "N" (numberOfZ 10)].

(** The scores 1 and 12 for the criteria of weights 20 and 30, as numbers
    of the code and as rationals. *)
Definition score0112 : list ScoreInput :=
  [mkScore "P" (numberOfZ 1); mkScore "R" (numberOfZ 12)].
Definition exact0112 : list (ScoreOf Q) :=
  [mkScore "P" (1 # 1)%Q; mkScore "R" (12 # 1)%Q].

Definition emptyStore : Store := mkStore [] [] [] [] [] [] [] [] [] 0.

(** One submission and the two criteria of weights 60 and 40. *)
Definition judging : Store :=
  mkStore [] [] [] [] [] ["sub-1"] [criterionA; criterionB] [] [] 0.

Definition score8070 : list ScoreInput :=
  [mkScore "A" (numberOfZ 80); mkScore "B" (numberOfZ 70)].

(** A second opinion on the same two criteria, given in the other
    order. *)
Definition score6090 : list ScoreInput :=
  [mkScore "B" (numberOfZ 90); mkScore "A" (numberOfZ 60)].

Definition evaluate (scores : list ScoreInput) : EvaluationRequest.t :=
  EvaluationRequest.mk (Some "eval-1") (Some "sub-1") (Some scores)
                       (Some "solid work").

Definition scoreUnknown : list ScoreInput :=
  [mkScore "A" (numberOfZ 80); mkScore "gone" (numberOfZ 70)].

Definition scoreTwice : list ScoreInput :=
  [mkScore "A" (numberOfZ 80); mkScore "A" (numberOfZ 70)].

Definition person (name : string) (g : Gender) (r : MemberRole)
           (flag : JsValue) (number standard : option string)
  : TeamMemberInput.t :=
  TeamMemberInput.mk name (name ++ "@example.org")%string g r flag number standard None.

Definition leader : TeamMemberInput.t :=
  person "asha" Female TeamLeader (JsString "Yes") (Some "IEEE123") None.
Definition leaderTrue : TeamMemberInput.t :=
  person "asha" Female TeamLeader (JsBool true) (Some "IEEE123") None.
Definition leaderNoNumber : TeamMemberInput.t :=
  person "asha" Female TeamLeader (JsString "Yes") None None.
Definition pupil : TeamMemberInput.t :=
  person "ravi" Male SchoolStudent JsUndefined None (Some "8th").
Definition pupil2 : TeamMemberInput.t :=
  person "mira" Female SchoolStudent JsUndefined None (Some "9th").
Definition pupilNoStandard : TeamMemberInput.t :=
  person "ravi" Male SchoolStudent JsUndefined None None.
Definition member (name : string) : TeamMemberInput.t :=
  person name Male TeamMember JsUndefined None None.

Definition mentor : MentorInput.t :=
  MentorInput.mk "dr rao" "rao@example.org" "F-17".
Definition representative : RepresentativeInput.t :=
  RepresentativeInput.mk "lata" "lata@example.org" "Ward 4".

Definition team (name : string) (ms : list TeamMemberInput.t)
  : RegisterTeamInput.t :=
  RegisterTeamInput.mk name "Health" ms mentor representative.

Definition roster : list TeamMemberInput.t :=
  [leader; pupil; member "kiran"; member "dev"; member "omar"; member "jay"].

Definition rosterLeaderTrue : list TeamMemberInput.t :=
  [leaderTrue; pupil; member "kiran"; member "dev"; member "omar"; member "jay"].

(** Two school students. *)
Definition rosterTwoPupils : list TeamMemberInput.t :=
  [leader; pupil; pupil2; member "dev"; member "omar"; member "jay"].

(** No school student. *)
Definition rosterNoPupil : list TeamMemberInput.t :=
  [leader; member "sam"; member "kiran"; member "dev"; member "omar";
   member "jay"].

(** A school student without a standard ahead of a single leader without
    a membership number. *)
Definition rosterPupilFirst : list TeamMemberInput.t :=
  [pupilNoStandard; leaderNoNumber; member "kiran"; member "dev";
   member "omar"; member "jay"].

(** A leader without a membership number at the head of the roster. *)
Definition rosterLeaderFirst : list TeamMemberInput.t :=
  [leaderNoNumber; pupilNoStandard; member "kiran"; member "dev";
   member "omar"; member "jay"].

Definition falcons : RegisterTeamInput.t := team "Falcons" roster.


Definition hashOk (plain : string) : option string := Some ("#" ++ plain)%string.
Definition hashFails (plain : string) : option string := None.

Definition pdfs : list (nat * string) :=
  [(1, "https://files.example.org/ravi.pdf");
   (2, "https://files.example.org/mira.pdf")].

(** A store with no team, in which an account holds the email that the
    sample leader registers with. *)
Definition withLeaderAccount : Store :=
  mkStore [] [] [] [] [User.mk 0 "asha" "asha@example.org" "#old"
                               coordinator None]
          [] [] [] [] 1.

End Sample.

(** ** The widths of the columns *)

(** A string is taken as its sequence of characters.  A [VARCHAR(191)]
    column holds at most 191 of them, and an [INTEGER] column a 32-bit
    signed integer; the store refuses a value that does not fit (P2000
    for a string, P2020 for a number).  [TEXT] and [DOUBLE] columns are
    taken to hold every string and every number. *)
Definition fitsVarchar (s : string) : bool :=
  (Z.of_nat (String.length s) <=? 191)%Z.

Definition fitsInteger (z : Z) : bool :=
  (-2147483648 <=? z)%Z && (z <=? 2147483647)%Z.

(** An absent property writes nothing. *)
Definition fitsIfPresent {A} (fits : A -> bool) (v : option A) : bool :=
  match v with
  | Some a => fits a
  | None => true
  end.

(** ** The order of a listing *)

(** A query that passes no [orderBy] returns its rows in an order that
    the engine chooses: an [arrange] stands for that choice, and all that
    is known of it is that it returns the rows it is given. *)
Definition arranges (arrange : forall A : Type, list A -> list A) : Prop :=
  forall (A : Type) (l : list A), Permutation (arrange A l) l.

(** ** The criteria handlers of the evaluator router *)

Definition withEvaluationCriteria (db : Store)
           (cs : list EvaluationCriteria.t) : Store :=
  mkStore (teams db) (teamMembers db) (facultyMentors db)
          (communityRepresentatives db) (users db) (submissions db)
          cs (evaluations db) (evaluationScores db) (nextId db).

(** What a handler of the router sends: [sendSuccess(res, data, message,
    status)], where [message] is [None] when the call passes none, or
    [sendError(res, message, status)]. *)
Inductive Reply (A : Type) :=
| Sent (data : A) (message : option string) (status : HttpStatus)
| Refused (message : string) (status : HttpStatus).

Arguments Sent {A} _ _ _.
Arguments Refused {A} _ _.

Definition isSent {A} (r : Reply A) : bool :=
  match r with
  | Sent _ _ _ => true
  | Refused _ _ => false
  end.

Module CriteriaInput.
(** The fields the criteria handlers destructure from [req.body]; [None]
    when the property is absent. *)
Record t := mk
  { criteria : option string;
    weightage : option Z;
    description : option string }.
End CriteriaInput.

Section CriteriaStore.

Local Open Scope tx_scope.

(** [prisma.evaluationCriteria.create({ data })].  [newId] is the key the
    client generates for the row.  The three columns are required: a
    [data] without one of them is rejected before any statement is sent.
    A [weightage] outside the [INTEGER] column (P2020) and a [criteria]
    wider than its [VARCHAR(191)] column (P2000) are refused; the primary
    key is checked by the store (P2002). *)
Definition evaluationCriteria_create (newId : string)
           (input : CriteriaInput.t) : Tx EvaluationCriteria.t :=
  match CriteriaInput.criteria input, CriteriaInput.weightage input,
        CriteriaInput.description input with
  | Some criteria, Some weightage, Some description =>
      if negb (fitsInteger weightage) then throw (PrismaError "P2020")
      else if negb (fitsVarchar criteria) then throw (PrismaError "P2000")
      else
        db <- get ;;
        if existsb (fun c => EvaluationCriteria.id c =? newId)
                   (evaluationCriteria db)
        then throw (PrismaError "P2002")
        else
          let row :=
            EvaluationCriteria.mk newId criteria weightage description in
          put (withEvaluationCriteria db (evaluationCriteria db ++ [row])) ;;;
          ret row
  | _, _, _ => throw OtherError
  end.

(** The row after [update({ data: { criteria, weightage, description } })]:
    a property that is [undefined] leaves its column as it is. *)
Definition updatedCriteria (input : CriteriaInput.t)
           (c : EvaluationCriteria.t) : EvaluationCriteria.t :=
  EvaluationCriteria.mk
    (EvaluationCriteria.id c)
    (match CriteriaInput.criteria input with
     | Some v => v
     | None => EvaluationCriteria.criteria c
     end)
    (match CriteriaInput.weightage input with
     | Some v => v
     | None => EvaluationCriteria.weightage c
     end)
    (match CriteriaInput.description input with
     | Some v => v
     | None => EvaluationCriteria.description c
     end).

(** [prisma.evaluationCriteria.update({ where: { id }, data })]; P2025
    when no row has the id.  A [weightage] outside the [INTEGER] column
    (P2020) and a [criteria] wider than its [VARCHAR(191)] column (P2000)
    are refused when the row is written. *)
Definition evaluationCriteria_update (cid : string) (input : CriteriaInput.t)
  : Tx EvaluationCriteria.t :=
  fun db =>
    match Scoring.findCriteria (evaluationCriteria db) cid with
    | None => inl (PrismaError "P2025")
    | Some c =>
        if negb (fitsIfPresent fitsInteger (CriteriaInput.weightage input))
        then inl (PrismaError "P2020")
        else if negb (fitsIfPresent fitsVarchar (CriteriaInput.criteria input))
        then inl (PrismaError "P2000")
        else
          inr (updatedCriteria input c,
               withEvaluationCriteria db
                 (map (fun c' => if EvaluationCriteria.id c' =? cid
                                 then updatedCriteria input c' else c')
                      (evaluationCriteria db)))
    end.

(** [prisma.evaluationCriteria.delete({ where: { id } })]; P2025 when no
    row has the id.  The foreign key of [EvaluationScore.criteriaId] is
    ON DELETE RESTRICT: a criterion that a score row refers to is not
    deleted (P2003). *)
Definition evaluationCriteria_delete (cid : string) : Tx unit :=
  fun db =>
    match Scoring.findCriteria (evaluationCriteria db) cid with
    | None => inl (PrismaError "P2025")
    | Some _ =>
        if existsb (fun r => EvaluationScore.criteriaId r =? cid)
                   (evaluationScores db)
        then inl (PrismaError "P2003")
        else inr (tt,
                  withEvaluationCriteria db
                    (filter (fun c => negb (EvaluationCriteria.id c =? cid))
                            (evaluationCriteria db)))
    end.

(** The three handlers.  Each sends one statement, which the store runs
    as a transaction of its own. *)
Definition createEvaluationCriteria (newId : string) (db : Store)
           (input : CriteriaInput.t) : Store * Reply EvaluationCriteria.t :=
  match transaction (evaluationCriteria_create newId input) db with
  | (inr newCriteria, db') =>
      (db', Sent newCriteria (Some "Criteria created successfully") CREATED)
  | (inl _, db') =>
      (db', Refused "Failed to create criteria" INTERNAL_SERVER_ERROR)
  end.

Definition updateEvaluationCriteria (db : Store) (id : string)
           (input : CriteriaInput.t) : Store * Reply EvaluationCriteria.t :=
  match transaction (evaluationCriteria_update id input) db with
  | (inr updatedCriteria, db') =>
      (db', Sent updatedCriteria (Some "Criteria updated successfully") OK)
  | (inl error, db') =>
      if hasCode error "P2025"
      then (db', Refused "Criteria not found" NOT_FOUND)
      else (db', Refused "Failed to update criteria" INTERNAL_SERVER_ERROR)
  end.

Definition deleteEvaluationCriteria (db : Store) (id : string)
  : Store * Reply unit :=
  match transaction (evaluationCriteria_delete id) db with
  | (inr _, db') =>
      (db', Sent tt (Some "Criteria deleted successfully") OK)
  | (inl error, db') =>
      if hasCode error "P2025"
      then (db', Refused "Criteria not found" NOT_FOUND)
      else (db', Refused "Failed to delete criteria" INTERNAL_SERVER_ERROR)
  end.

End CriteriaStore.

(** ** [getEvaluationsBySubmission] *)

Module ScoreWithCriteria.
(** A score row with [include: { criteria: true }]. *)
Record t := mk
  { row : EvaluationScore.t;
    criteria : option EvaluationCriteria.t }.
End ScoreWithCriteria.

Module EvaluationWithScores.
(** An evaluation with [include: { scores: { include: { criteria } } }]. *)
Record t := mk
  { evaluation : Evaluation.t;
    scores : list ScoreWithCriteria.t }.
End EvaluationWithScores.

Definition includeCriteria (db : Store) (r : EvaluationScore.t)
  : ScoreWithCriteria.t :=
  ScoreWithCriteria.mk
    r (Scoring.findCriteria (evaluationCriteria db)
                            (EvaluationScore.criteriaId r)).

Section EvaluationListing.

(** The order in which the engine returns the evaluations, and the scores
    of each of them: the query passes no [orderBy]. *)
Variable arrange : forall A : Type, list A -> list A.

Definition includeScores (db : Store) (e : Evaluation.t)
  : EvaluationWithScores.t :=
  EvaluationWithScores.mk
    e (arrange _ (map (includeCriteria db) (scoresOf db (Evaluation.id e)))).

(** [prisma.evaluation.findMany({ where: { submissionId }, include })] *)
Definition evaluation_findMany (db : Store) (sid : string)
  : list EvaluationWithScores.t :=
  arrange _
    (map (includeScores db)
         (filter (fun e => Evaluation.submissionId e =? sid)
                 (evaluations db))).

Definition getEvaluationsBySubmission (db : Store) (submissionId : string)
  : Reply (list EvaluationWithScores.t) :=
  Sent (evaluation_findMany db submissionId) None OK.

End EvaluationListing.

(** The entries of a listing that one evaluator wrote. *)
Definition writtenBy (uid : string) (l : list EvaluationWithScores.t)
  : list EvaluationWithScores.t :=
  filter (fun x => Evaluation.evaluatorId (EvaluationWithScores.evaluation x)
                   =? uid) l.

(** ** The keys of the evaluation tables *)

Definition scoreKey (r : EvaluationScore.t) : nat * string :=
  (EvaluationScore.evaluationId r, EvaluationScore.criteriaId r).

(** All the constraints of the schema on [EvaluationCriteria],
    [Evaluation] and [EvaluationScore]: [consistent], the primary key of
    a criterion, the foreign key from a score row to its criterion, the
    unique index on [(evaluationId, criteriaId)] and the foreign key from
    an evaluation to its submission. *)
Record keysHold (db : Store) : Prop := mkKeysHold
  { evaluation_keys : consistent db;
    criteria_ids_nodup :
      NoDup (map EvaluationCriteria.id (evaluationCriteria db));
    scores_criteria_fk :
      Forall (fun r => In (EvaluationScore.criteriaId r)
                          (map EvaluationCriteria.id (evaluationCriteria db)))
             (evaluationScores db);
    score_keys_nodup : NoDup (map scoreKey (evaluationScores db));
    evaluations_submission_fk :
      Forall (fun e => In (Evaluation.submissionId e) (submissions db))
             (evaluations db) }.

(** The requests of the evaluator router that write to the store. *)
Inductive EvaluatorWrite :=
| CreateCriteria (newId : string) (input : CriteriaInput.t)
| UpdateCriteria (id : string) (input : CriteriaInput.t)
| DeleteCriteria (id : string)
| SubmitEvaluation (req : EvaluationRequest.t).

(** The store after one request, and after a sequence of them. *)
Definition perform (db : Store) (w : EvaluatorWrite) : Store :=
  match w with
  | CreateCriteria newId input => fst (createEvaluationCriteria newId db input)
  | UpdateCriteria id input => fst (updateEvaluationCriteria db id input)
  | DeleteCriteria id => fst (deleteEvaluationCriteria db id)
  | SubmitEvaluation req => fst (submitEvaluation db req)
  end.

Definition performAll (db : Store) (ws : list EvaluatorWrite) : Store :=
  fold_left perform ws db.

(** ** [authMiddleware] and the evaluator router *)

Module JWTPayload.
(** The claims of a token that the code reads. *)
Record t := mk
  { userId : string;
    role : string }.
End JWTPayload.

Module RequestUser.
(** [req.user] *)
Record t := mk
  { userId : string;
    role : string }.
End RequestUser.

(** The value of a [UserRole], as a token carries it. *)
Definition roleName (r : UserRole) : string :=
  match r with
  | admin => "admin"
  | coordinator => "coordinator"
  | evaluator => "evaluator"
  | participant => "participant"
  | head => "head"
  end.

(** [s.slice(n)] *)
Fixpoint slice (n : nat) (s : string) : string :=
  match n, s with
  | 0, _ => s
  | S n', String _ s' => slice n' s'
  | S _, EmptyString => EmptyString
  end.

(** The statuses the middleware answers with: those above and
    [HttpStatus.FORBIDDEN]. *)
Inductive GateStatus :=
| Status (s : HttpStatus)
| FORBIDDEN.

(** What the middleware does with a request: it answers with [sendError],
    or it sets [req.user] and calls [next()]. *)
Inductive Gate :=
| Denied (message : string) (status : GateStatus)
| Next (user : RequestUser.t).

Section Authentication.

(** [validateToken] of utils/jwt: the verified payload, or [None] when
    [jwt.verify] throws. *)
Variable validateToken : string -> option JWTPayload.t.

(** [authHeader.startsWith('Bearer ') ? authHeader.slice(7) : authHeader] *)
Definition tokenOf (authHeader : string) : string :=
  if prefix "Bearer " authHeader then slice 7 authHeader else authHeader.

(** [allowedRoles.includes(decoded.role)] *)
Definition includesRole (allowedRoles : list UserRole) (role : string)
  : bool :=
  existsb (fun r => roleName r =? role) allowedRoles.

(** [authMiddleware(...allowedRoles)] applied to a request with the given
    [Authorization] header ([None] when the request has none). *)
Definition authMiddleware (allowedRoles : list UserRole)
           (authorization : option string) : Gate :=
  match authorization with
  | None => Denied "Missing token" (Status UNAUTHORIZED)
  | Some authHeader =>
      if authHeader =? ""
      then Denied "Missing token" (Status UNAUTHORIZED)
      else
        let token := tokenOf authHeader in
        if token =? ""
        then Denied "Invalid authorization format" (Status BAD_REQUEST)
        else
          match validateToken token with
          | None => Denied "Invalid or expired token" (Status UNAUTHORIZED)
          | Some decoded =>
              if (0 <? List.length allowedRoles)%nat
                 && negb (includesRole allowedRoles (JWTPayload.role decoded))
              then Denied "Forbidden" FORBIDDEN
              else Next (RequestUser.mk (JWTPayload.userId decoded)
                                        (JWTPayload.role decoded))
          end
  end.

(** What the router sends for a request: the answer of the middleware
    when it stops the request, the answer of the handler otherwise. *)
Inductive Routed (A : Type) :=
| Stopped (message : string) (status : GateStatus)
| Handled (reply : A).

Arguments Stopped {A} _ _.
Arguments Handled {A} _.

Inductive EvaluatorReply :=
| CriteriaReply (r : Reply EvaluationCriteria.t)
| DeletedReply (r : Reply unit)
| EvaluationReply (r : Response).

(** The request of [POST /evaluate] as the handler sees it after the
    middleware has set [req.user]. *)
Definition authenticated (user : RequestUser.t) (req : EvaluationRequest.t)
  : EvaluationRequest.t :=
  EvaluationRequest.mk (Some (RequestUser.userId user))
                       (EvaluationRequest.submissionId req)
                       (EvaluationRequest.scores req)
                       (EvaluationRequest.comments req).

(** The handler that the router picks for a write request. *)
Definition handle (db : Store) (user : RequestUser.t) (w : EvaluatorWrite)
  : Store * EvaluatorReply :=
  match w with
  | CreateCriteria newId input =>
      let (db', r) := createEvaluationCriteria newId db input in
      (db', CriteriaReply r)
  | UpdateCriteria id input =>
      let (db', r) := updateEvaluationCriteria db id input in
      (db', CriteriaReply r)
  | DeleteCriteria id =>
      let (db', r) := deleteEvaluationCriteria db id in
      (db', DeletedReply r)
  | SubmitEvaluation req =>
      let (db', r) := submitEvaluation db (authenticated user req) in
      (db', EvaluationReply r)
  end.

(** The evaluator router: [router.use(authMiddleware('evaluator'))]
    ahead of every route. *)
Definition evaluatorRouter (db : Store) (authorization : option string)
           (w : EvaluatorWrite) : Store * Routed EvaluatorReply :=
  match authMiddleware [evaluator] authorization with
  | Denied message status => (db, Stopped message status)
  | Next user =>
      let (db', r) := handle db user w in
      (db', Handled r)
  end.

End Authentication.

Arguments Stopped {A} _ _.
Arguments Handled {A} _.

(** A header carries a token when it is the token itself or the token
    after the scheme [Bearer]. *)
Definition carries (authorization : option string) (token : string) : Prop :=
  authorization = Some token
  \/ authorization = Some ("Bearer " ++ token)%string.

Module Tokens.
(** A verifier that accepts two tokens: one of an evaluator, one of an
    administrator. *)
Definition verify (token : string) : option JWTPayload.t :=
  if token =? "tok-eval-1" then Some (JWTPayload.mk "eval-1" "evaluator")
  else if token =? "tok-admin" then Some (JWTPayload.mk "root" "admin")
  else None.
End Tokens.

(** ** A registration against the widths of the columns *)

(** The strings of a member that go to [VARCHAR(191)] columns. *)
Definition fitsMember (m : TeamMemberInput.t) : bool :=
  fitsVarchar (TeamMemberInput.fullName m)
  && fitsVarchar (TeamMemberInput.email m)
  && fitsIfPresent fitsVarchar (TeamMemberInput.ieeeNumber m)
  && fitsIfPresent fitsVarchar (TeamMemberInput.schoolStandard m).

(** Every string of the request fits the column it is written to. *)
Definition fitsRegistration (body : RegisterTeamInput.t) : bool :=
  fitsVarchar (RegisterTeamInput.teamName body)
  && fitsVarchar (RegisterTeamInput.theme body)
  && forallb fitsMember (RegisterTeamInput.members body)
  && fitsVarchar (MentorInput.name (RegisterTeamInput.facultyMentor body))
  && fitsVarchar (MentorInput.email (RegisterTeamInput.facultyMentor body))
  && fitsVarchar (MentorInput.facultyId (RegisterTeamInput.facultyMentor body))
  && fitsVarchar (RepresentativeInput.name
                    (RegisterTeamInput.communityRepresentative body))
  && fitsVarchar (RepresentativeInput.email
                    (RegisterTeamInput.communityRepresentative body))
  && fitsVarchar (RepresentativeInput.affiliation
                    (RegisterTeamInput.communityRepresentative body)).

(** The hash that [hashPassword] resolves to fits the [password] column. *)
Definition hashFits (hashPassword : string -> option string) : Prop :=
  forall h, hashPassword defaultPassword = Some h -> fitsVarchar h = true.

(** ** The teams a store holds *)

Definition isLeaderRow (m : TeamMemberRow.t) : bool :=
  match TeamMemberRow.role m with TeamLeader => true | _ => false end.

Definition isSchoolStudentRow (m : TeamMemberRow.t) : bool :=
  match TeamMemberRow.role m with SchoolStudent => true | _ => false end.

Definition isFemaleRow (m : TeamMemberRow.t) : bool :=
  match TeamMemberRow.gender m with Female => true | _ => false end.

(** The rows that refer to a team. *)
Definition membersOf (db : Store) (tid : nat) : list TeamMemberRow.t :=
  filter (fun m => (TeamMemberRow.teamId m =? tid)%nat) (teamMembers db).

Definition mentorsOf (db : Store) (tid : nat) : list FacultyMentor.t :=
  filter (fun f => (FacultyMentor.teamId f =? tid)%nat) (facultyMentors db).

Definition representativesOf (db : Store) (tid : nat)
  : list CommunityRepresentative.t :=
  filter (fun r => (CommunityRepresentative.teamId r =? tid)%nat)
         (communityRepresentatives db).

Definition ofTeam (tid : nat) (u : User.t) : bool :=
  match User.teamId u with
  | Some t => (t =? tid)%nat
  | None => false
  end.

Definition accountsOf (db : Store) (tid : nat) : list User.t :=
  filter (ofTeam tid) (users db).

(** The rules of the competition, read on the rows of a stored team: six
    members; one leader, who has a membership number and whose name and
    email are those of the one account of the team, a participant; at
    least one school student, each with a standard; at least one female
    member; one mentor and one representative. *)
Record eligible (db : Store) (t : Team.t) : Prop := mkEligible
  { six_members : List.length (membersOf db (Team.id t)) = 6;
    one_leader :
      exists ld u,
        filter isLeaderRow (membersOf db (Team.id t)) = [ld]
        /\ truthyStr (TeamMemberRow.ieeeNumber ld) = true
        /\ accountsOf db (Team.id t) = [u]
        /\ User.name u = TeamMemberRow.fullName ld
        /\ User.email u = TeamMemberRow.email ld
        /\ User.role u = participant;
    school_students :
      filter isSchoolStudentRow (membersOf db (Team.id t)) <> []
      /\ Forall (fun m => truthyStr (TeamMemberRow.schoolStandard m) = true)
                (filter isSchoolStudentRow (membersOf db (Team.id t)));
    a_female : filter isFemaleRow (membersOf db (Team.id t)) <> [];
    one_mentor : List.length (mentorsOf db (Team.id t)) = 1;
    one_representative :
      List.length (representativesOf db (Team.id t)) = 1 }.

(** The registry of teams is in order: team names and account emails are
    unique, every stored team is [eligible], and no row has or refers to
    a key that the key generator has yet to hand out. *)
Record registryOk (db : Store) : Prop := mkRegistryOk
  { teams_below : Forall (fun t => Team.id t < nextId db) (teams db);
    members_below :
      Forall (fun m => TeamMemberRow.teamId m < nextId db) (teamMembers db);
    mentors_below :
      Forall (fun f => FacultyMentor.teamId f < nextId db)
             (facultyMentors db);
    representatives_below :
      Forall (fun r => CommunityRepresentative.teamId r < nextId db)
             (communityRepresentatives db);
    accounts_below :
      Forall (fun u => forall t, User.teamId u = Some t -> t < nextId db)
             (users db);
    account_ids_below : Forall (fun u => User.id u < nextId db) (users db);
    names_nodup : NoDup (map Team.teamName (teams db));
    emails_nodup : NoDup (map User.email (users db));
    teams_eligible : Forall (eligible db) (teams db) }.

(** The store after a sequence of registration requests. *)
Definition registerAll (hashPassword : string -> option string)
           (db : Store) (bodies : list RegisterTeamInput.t) : Store :=
  fold_left (fun db body => fst (registerTeam hashPassword db body)) bodies db.

(** ** What the file-upload variant leaves behind *)

(** The members as the loop of the variant leaves them when it runs to
    its end: the school student in slot [i] carries
    [cloudinaryUrls[`schoolIdPdf_${i}`]]. *)
Fixpoint attachDocuments (urls : list (nat * string)) (i : nat)
         (ms : list TeamMemberInput.t) : list TeamMemberInput.t :=
  match ms with
  | [] => []
  | m :: rest =>
      (if isSchoolStudent m then withSchoolIdPdf m (pdfUrlOf urls i) else m)
        :: attachDocuments urls (S i) rest
  end.

(** The store after the transaction of the variant has committed for the
    members [ms], whose leader is [leader]. *)
Definition afterRegisterUpload (db : Store) (body : RegisterTeamInput.t)
           (ms : list TeamMemberInput.t) (leader : TeamMemberInput.t)
           (hashed : string) : Store :=
  let tid := nextId db in
  let withTeam :=
    withTeamAndMembers (withNextId db (S tid))
      (Team.mk tid (RegisterTeamInput.teamName body)
               (RegisterTeamInput.theme body))
      (map (memberRowUpload tid) ms) in
  let keyed := withNextId withTeam (S (S tid)) in
  withUsers keyed (users keyed ++ [leaderAccount (S tid) tid leader hashed]).

(** ** The participant's handlers: the team and its submission *)

Module Submission.
Record t := mk
  { id : string;
    title : option string;
    tagline : option string;
    description : option string;
    problemStatement : option string;
    demoVideoUrl : option string;
    liveLinkUrl : option string;
    codeRepoUrl : option string;
    pptUrl : option string;
    teamId : nat }.
End Submission.

Module SubmissionInput.
(** The fields [createOrUpdateSubmission] destructures from [req.body];
    [None] when the property is absent. *)
Record t := mk
  { title : option string;
    tagline : option string;
    description : option string;
    problemStatement : option string;
    demoVideoUrl : option string;
    liveLinkUrl : option string;
    codeRepoUrl : option string;
    pptUrl : option string }.
End SubmissionInput.

Definition withSubmissions (db : Store) (ids : list string) : Store :=
  mkStore (teams db) (teamMembers db) (facultyMentors db)
          (communityRepresentatives db) (users db) ids
          (evaluationCriteria db) (evaluations db) (evaluationScores db)
          (nextId db).

(** The store together with the rows of [Submission], of which the store
    itself keeps the primary keys only. *)
Record Portal := mkPortal
  { store : Store;
    submissionRows : list Submission.t }.

(** The keys the store keeps are the keys of the rows. *)
Definition coupled (p : Portal) : Prop :=
  submissions (store p) = map Submission.id (submissionRows p).

(** [where: { teamId }] *)
Definition ofTeamId (teamId : nat) (s : Submission.t) : bool :=
  (Submission.teamId s =? teamId)%nat.

(** The row of the [create] branch of the upsert: an absent property
    leaves its column NULL. *)
Definition createdSubmission (newId : string) (teamId : nat)
           (input : SubmissionInput.t) : Submission.t :=
  Submission.mk newId
                (SubmissionInput.title input)
                (SubmissionInput.tagline input)
                (SubmissionInput.description input)
                (SubmissionInput.problemStatement input)
                (SubmissionInput.demoVideoUrl input)
                (SubmissionInput.liveLinkUrl input)
                (SubmissionInput.codeRepoUrl input)
                (SubmissionInput.pptUrl input)
                teamId.

(** [v] when the property is present, the stored value otherwise. *)
Definition orStored (v stored : option string) : option string :=
  match v with
  | Some _ => v
  | None => stored
  end.

(** The row after the [update] branch of the upsert: an absent property
    leaves its column as it is. *)
Definition updatedSubmission (input : SubmissionInput.t) (s : Submission.t)
  : Submission.t :=
  Submission.mk
    (Submission.id s)
    (orStored (SubmissionInput.title input) (Submission.title s))
    (orStored (SubmissionInput.tagline input) (Submission.tagline s))
    (orStored (SubmissionInput.description input) (Submission.description s))
    (orStored (SubmissionInput.problemStatement input)
              (Submission.problemStatement s))
    (orStored (SubmissionInput.demoVideoUrl input) (Submission.demoVideoUrl s))
    (orStored (SubmissionInput.liveLinkUrl input) (Submission.liveLinkUrl s))
    (orStored (SubmissionInput.codeRepoUrl input) (Submission.codeRepoUrl s))
    (orStored (SubmissionInput.pptUrl input) (Submission.pptUrl s))
    (Submission.teamId s).

(** The properties of the request that go to [VARCHAR(191)] columns;
    [description] and [problemStatement] are [TEXT]. *)
Definition fitsSubmission (input : SubmissionInput.t) : bool :=
  fitsIfPresent fitsVarchar (SubmissionInput.title input)
  && fitsIfPresent fitsVarchar (SubmissionInput.tagline input)
  && fitsIfPresent fitsVarchar (SubmissionInput.demoVideoUrl input)
  && fitsIfPresent fitsVarchar (SubmissionInput.liveLinkUrl input)
  && fitsIfPresent fitsVarchar (SubmissionInput.codeRepoUrl input)
  && fitsIfPresent fitsVarchar (SubmissionInput.pptUrl input).

(** [prisma.submission.upsert({ where: { teamId }, update, create })].
    [newId] is the key the client generates for a new row.  Both branches
    write the properties of the request, and the store refuses one that
    is wider than its column (P2000).  On the [create] branch the store
    also checks the foreign key on [teamId] (P2003) and the primary key
    (P2002). *)
Definition submission_upsert (newId : string) (teamId : nat)
           (input : SubmissionInput.t) (p : Portal)
  : JsError + (Submission.t * Portal) :=
  if negb (fitsSubmission input) then inl (PrismaError "P2000")
  else
  match find (ofTeamId teamId) (submissionRows p) with
  | Some existing =>
      inr (updatedSubmission input existing,
           mkPortal (store p)
                    (map (fun s => if ofTeamId teamId s
                                   then updatedSubmission input s else s)
                         (submissionRows p)))
  | None =>
      if negb (existsb (fun t => (Team.id t =? teamId)%nat) (teams (store p)))
      then inl (PrismaError "P2003")
      else if existsb (fun s => Submission.id s =? newId) (submissionRows p)
      then inl (PrismaError "P2002")
      else
        let row := createdSubmission newId teamId input in
        inr (row,
             mkPortal (withSubmissions (store p)
                                       (submissions (store p) ++ [newId]))
                      (submissionRows p ++ [row]))
  end.

(** [prisma.user.findUnique({ where: { id }, select: { teamId: true } })]
    followed by [user?.teamId]. *)
Definition teamIdOf (db : Store) (userId : nat) : option nat :=
  match find (fun u => (User.id u =? userId)%nat) (users db) with
  | Some user => User.teamId user
  | None => None
  end.

(** [createOrUpdateSubmission].  [user] is the key of the account in
    [req.user], [None] when [req.user] is not set. *)
Definition createOrUpdateSubmission (newId : string) (p : Portal)
           (user : option nat) (input : SubmissionInput.t)
  : Portal * Reply Submission.t :=
  match user with
  | None => (p, Refused "User not authenticated" UNAUTHORIZED)
  | Some userId =>
      match teamIdOf (store p) userId with
      | None => (p, Refused "No team associated with this user" NOT_FOUND)
      | Some teamId =>
          match submission_upsert newId teamId input p with
          | inr (submission, p') =>
              (p', Sent submission (Some "Submission saved successfully") OK)
          | inl _ =>
              (p, Refused "Failed to save submission" INTERNAL_SERVER_ERROR)
          end
      end
  end.

(** [getSubmission] *)
Definition getSubmission (p : Portal) (user : option nat)
  : Reply Submission.t :=
  match user with
  | None => Refused "User not authenticated" UNAUTHORIZED
  | Some userId =>
      match teamIdOf (store p) userId with
      | None => Refused "No team associated with this user" NOT_FOUND
      | Some teamId =>
          match find (ofTeamId teamId) (submissionRows p) with
          | Some submission => Sent submission None OK
          | None => Refused "Submission not found" NOT_FOUND
          end
      end
  end.

Module TeamWithRelations.
(** A team with [include: { members, facultyMentor,
    communityRepresentative, submission }]. *)
Record t := mk
  { team : Team.t;
    members : list TeamMemberRow.t;
    facultyMentor : option FacultyMentor.t;
    communityRepresentative : option CommunityRepresentative.t;
    submission : option Submission.t }.
End TeamWithRelations.

Section TeamLookup.

(** The order in which the engine returns the members of the team: the
    [include] passes no [orderBy]. *)
Variable arrange : forall A : Type, list A -> list A.

(** [prisma.team.findUnique({ where: { id }, include })] *)
Definition team_findById (p : Portal) (id : nat)
  : option TeamWithRelations.t :=
  match find (fun t => (Team.id t =? id)%nat) (teams (store p)) with
  | Some team =>
      Some (TeamWithRelations.mk
              team
              (arrange _ (membersOf (store p) id))
              (find (fun f => (FacultyMentor.teamId f =? id)%nat)
                    (facultyMentors (store p)))
              (find (fun r => (CommunityRepresentative.teamId r =? id)%nat)
                    (communityRepresentatives (store p)))
              (find (ofTeamId id) (submissionRows p)))
  | None => None
  end.

(** [getTeamById] *)
Definition getTeamById (p : Portal) (id : nat) : Reply TeamWithRelations.t :=
  match team_findById p id with
  | Some team => Sent team None OK
  | None => Refused "Team not found" NOT_FOUND
  end.

(** [getMyTeam] *)
Definition getMyTeam (p : Portal) (user : option nat)
  : Reply TeamWithRelations.t :=
  match user with
  | None => Refused "User not authenticated" UNAUTHORIZED
  | Some userId =>
      match teamIdOf (store p) userId with
      | None => Refused "No team associated with this user" NOT_FOUND
      | Some teamId =>
          match team_findById p teamId with
          | Some team => Sent team None OK
          | None => Refused "Team not found" NOT_FOUND
          end
      end
  end.

End TeamLookup.

(** The answer that carries a team with the given relations, its members
    in some order. *)
Definition answersTeam (r : Reply TeamWithRelations.t) (team : Team.t)
           (members : list TeamMemberRow.t)
           (mentor : option FacultyMentor.t)
           (representative : option CommunityRepresentative.t)
           (submission : option Submission.t) : Prop :=
  exists listed,
    r = Sent (TeamWithRelations.mk team listed mentor representative
                                   submission) None OK
    /\ Permutation listed members.

(** An engine that returns the newest row first. *)
Definition newestFirst : forall A : Type, list A -> list A :=
  fun A l => rev l.

Module Portals.
Import Sample.

(** A registry with the team of the samples, its leader account, and the
    two criteria; no submission yet. *)
Definition enrolled : Portal :=
  mkPortal (mkStore [Team.mk 0 "Falcons" "Health"] [] [] []
                    [User.mk 1 "asha" "asha@example.org" "#qwert123"
                             participant (Some 0)]
                    [] [criterionA; criterionB] [] [] 2)
           [].

Definition draft : SubmissionInput.t :=
  SubmissionInput.mk (Some "Clean water") (Some "Filters for all") None None
                     None None None None.

Definition revision : SubmissionInput.t :=
  SubmissionInput.mk None (Some "Filters for every village") None None
                     None None (Some "https://code.example.org/water") None.

End Portals.

(** * Properties *)

(** ** The scoring loop against the sums *)

Module ScoringFacts.
Import EvaluationCriteria Scoring.

Lemma known_find {num} cs (s : ScoreOf num) :
  known cs s = match findCriteria cs (criteriaId s) with
               | Some _ => true
               | None => false
               end.
Proof.
  unfold known, findCriteria.
  induction cs as [|c cs IH]; simpl; [reflexivity|].
  destruct (id c =? criteriaId s); simpl; [reflexivity|exact IH].
Qed.

Section WithArithmetic.

Variable A : Arithmetic.t.

(** The two accumulators of the loop, started anywhere, are the sums over
    the matched pairs; no law of arithmetic is used, only the order in
    which the code adds. *)
Lemma accumulate_from cs scores : forall a w,
  fold_left (scoreStep A cs) scores (a, w)
  = (fold_left (Arithmetic.add A) (map (weighted A cs) (matched cs scores)) a,
     (w + totalWeight cs scores)%Z).
Proof.
  unfold totalWeight, matched.
  induction scores as [|s scores IH]; intros a w; simpl.
  - f_equal. unfold Zsum. simpl. lia.
  - unfold scoreStep at 2. rewrite known_find.
    destruct (findCriteria cs (criteriaId s)) as [c|] eqn:Hc.
    + cbn [fst snd]. rewrite IH. cbn [map fold_left Zsum fold_right].
      assert (Hw : weightOf cs s = weightage c)
        by (unfold weightOf; rewrite Hc; reflexivity).
      assert (Hterm : weighted A cs s
                      = Arithmetic.div A
                          (Arithmetic.mul A (score s)
                                          (Arithmetic.ofZ A (weightage c)))
                          (Arithmetic.ofZ A 100))
        by (unfold weighted; rewrite Hw; reflexivity).
      rewrite Hterm, Hw. unfold Zsum. f_equal. lia.
    + apply IH.
Qed.

Lemma accumulate_sums cs scores :
  accumulate A cs scores = (weightedSum A cs scores, totalWeight cs scores).
Proof.
  unfold accumulate. rewrite accumulate_from. reflexivity.
Qed.

Lemma computeTotalScore_guarded cs scores :
  computeTotalScore A cs scores = guardedTotal A cs scores.
Proof.
  unfold computeTotalScore, guardedTotal. rewrite accumulate_sums.
  unfold normalize.
  destruct (Z.ltb_spec 0 (totalWeight cs scores));
    destruct (Z.leb_spec (totalWeight cs scores) 0); try lia; simpl;
    [destruct (totalWeight cs scores =? 100)%Z|]; reflexivity.
Qed.

End WithArithmetic.

Lemma weightOf_nonneg {num} cs (s : ScoreOf num) :
  nonnegWeights cs -> (0 <= weightOf cs s)%Z.
Proof.
  unfold weightOf, findCriteria. intros H.
  case_eq (find (fun c => id c =? criteriaId s) cs); [|lia].
  intros c Hc. apply find_some in Hc. destruct Hc as [Hin _].
  unfold nonnegWeights in H. rewrite Forall_forall in H. auto.
Qed.

Lemma totalWeight_nonneg {num} cs (scores : list (ScoreOf num)) :
  nonnegWeights cs -> (0 <= totalWeight cs scores)%Z.
Proof.
  intros H. unfold totalWeight.
  induction (matched cs scores) as [|s l IH]; simpl; [lia|].
  pose proof (weightOf_nonneg cs s H). lia.
Qed.

Lemma computeTotalScore_spec_nonneg A cs scores :
  nonnegWeights cs -> computeTotalScore A cs scores = specTotal A cs scores.
Proof.
  intros H. rewrite computeTotalScore_guarded.
  unfold guardedTotal, specTotal.
  pose proof (totalWeight_nonneg cs scores H).
  destruct (Z.leb_spec (totalWeight cs scores) 0);
    destruct (Z.eqb_spec (totalWeight cs scores) 0); try lia; reflexivity.
Qed.

(** In exact arithmetic the order of the additions does not matter. *)
Lemma sumInOrder_exact (l : list Q) : (sumInOrder exact l == Qsum l)%Q.
Proof.
  unfold sumInOrder. simpl.
  assert (H : forall a, (fold_left Qplus l a == a + Qsum l)%Q).
  { induction l as [|x l IH]; intros a; simpl.
    - ring.
    - rewrite IH. ring. }
  rewrite H. ring.
Qed.

End ScoringFacts.

(** ** Facts about the store operations *)

Ltac tx_unfold :=
  unfold transaction, bind, get, put, ret, throw, freshId in *.

Lemma createMany_spec rows : forall db,
  match evaluationScore_createMany rows db with
  | inr (_, db') =>
      insertable (evaluations db) (evaluationCriteria db)
                 (evaluationScores db) rows = true
      /\ db' = withEvaluationScores db (evaluationScores db ++ rows)
  | inl _ =>
      insertable (evaluations db) (evaluationCriteria db)
                 (evaluationScores db) rows = false
  end.
Proof.
  induction rows as [|r rows IH]; intros db; simpl.
  - unfold ret. split; [reflexivity|].
    rewrite app_nil_r. destruct db; reflexivity.
  - unfold evaluationScore_insert. tx_unfold.
    destruct (existsb _ (evaluations db)); simpl; [|reflexivity].
    destruct (existsb _ (evaluationCriteria db)); simpl; [|reflexivity].
    destruct (existsb (sameScoreKey r) (evaluationScores db)); simpl;
      [reflexivity|].
    specialize (IH (withEvaluationScores db (evaluationScores db ++ [r]))).
    simpl in IH.
    destruct (evaluationScore_createMany rows _) as [e|[u db']].
    + exact IH.
    + destruct IH as [H1 H2]. split; [exact H1|].
      rewrite H2. unfold withEvaluationScores; simpl.
      rewrite <- app_assoc. reflexivity.
Qed.

Lemma existsb_false_forall {A} (f : A -> bool) l :
  existsb f l = false <-> forall x, In x l -> f x = false.
Proof.
  induction l as [|a l IH]; simpl.
  - split; [intros _ x []|reflexivity].
  - rewrite orb_false_iff, IH. split.
    + intros [Ha Hl] x [<-|Hx]; auto.
    + intros H. split; [apply H; auto|intros x Hx; apply H; auto].
Qed.

Lemma known_existsb cs (s : ScoreInput) :
  Scoring.known cs s
  = existsb (fun c => EvaluationCriteria.id c =? criteriaId s) cs.
Proof. reflexivity. Qed.

(** A batch built from a score set is accepted only if every criterion id
    is known and no criterion id occurs twice. *)
Lemma insertable_scoreRows_inv es cs i (scores : list ScoreInput) :
  forall existing,
  insertable es cs existing (scoreRows i scores) = true ->
  Forall (fun s => Scoring.known cs s = true) scores
  /\ NoDup (map criteriaId scores)
  /\ (forall s r, In s scores -> In r existing ->
        EvaluationScore.evaluationId r = i ->
        EvaluationScore.criteriaId r <> criteriaId s).
Proof.
  induction scores as [|s scores IH]; intros existing H; simpl in *.
  - repeat split; [constructor|constructor|intros s r []].
  - repeat rewrite andb_true_iff in H. destruct H as [[[He Hc] Hk] Hrest].
    destruct (IH _ Hrest) as [IH1 [IH2 IH3]].
    rewrite negb_true_iff, existsb_false_forall in Hk.
    split; [constructor; assumption|]. split.
    + constructor; [|assumption]. intros Hin.
      apply in_map_iff in Hin. destruct Hin as [s' [Heq Hs']].
      apply (IH3 s' (EvaluationScore.mk i (criteriaId s) (score s)));
        [assumption|apply in_or_app; right; left; reflexivity
        |reflexivity|simpl; congruence].
    + intros s' r [<-|Hs'] Hr Hi.
      * specialize (Hk r Hr). unfold sameScoreKey in Hk. simpl in Hk.
        intros Heq. rewrite Hi, Heq, Nat.eqb_refl, String.eqb_refl in Hk.
        discriminate.
      * apply IH3; [assumption|apply in_or_app; left; assumption|assumption].
Qed.

(** Conversely, a batch of known, pairwise distinct criteria for an
    existing evaluation that holds none of them yet is accepted. *)
Lemma insertable_scoreRows es cs i (scores : list ScoreInput) :
  forall existing,
  existsb (fun e => (Evaluation.id e =? i)%nat) es = true ->
  Forall (fun s => Scoring.known cs s = true) scores ->
  NoDup (map criteriaId scores) ->
  (forall s r, In s scores -> In r existing ->
     EvaluationScore.evaluationId r = i ->
     EvaluationScore.criteriaId r <> criteriaId s) ->
  insertable es cs existing (scoreRows i scores) = true.
Proof.
  induction scores as [|s scores IH]; intros existing He Hk Hnd Hfresh;
    simpl; [reflexivity|].
  inversion Hk as [|? ? Hks Hk']; subst.
  inversion Hnd as [|? ? Hnotin Hnd']; subst.
  rewrite He. rewrite known_existsb in Hks. rewrite Hks. simpl.
  assert (Hno : existsb
                  (sameScoreKey (EvaluationScore.mk i (criteriaId s) (score s)))
                  existing = false).
  { apply existsb_false_forall. intros r Hr. unfold sameScoreKey; simpl.
    destruct (Nat.eqb_spec i (EvaluationScore.evaluationId r)) as [Hi|];
      [|reflexivity].
    simpl. apply String.eqb_neq. intros Heq.
    apply (Hfresh s r); [left; reflexivity|assumption|congruence|congruence]. }
  rewrite Hno. simpl. apply IH; try assumption.
  intros s' r Hs' Hr Hi. apply in_app_or in Hr. destruct Hr as [Hr|[<-|[]]].
  - apply Hfresh; [right; assumption|assumption|assumption].
  - simpl. intros Heq. apply Hnotin. rewrite Heq. apply in_map. assumption.
Qed.

Lemma firstWithId_in old es :
  In old es -> exists e0, firstWithId (Evaluation.id old) es = Some e0.
Proof.
  intros Hin. unfold firstWithId.
  destruct (find _ es) as [e0|] eqn:Hf; [eauto|].
  exfalso. apply (find_none _ _ Hf) in Hin.
  rewrite Nat.eqb_refl in Hin. discriminate.
Qed.

Lemma firstWithId_unique old es :
  NoDup (map Evaluation.id es) -> In old es ->
  firstWithId (Evaluation.id old) es = Some old.
Proof.
  unfold firstWithId. induction es as [|e es IH]; intros Hnd Hin; [destruct Hin|].
  simpl in *. inversion Hnd as [|? ? Hnot Hnd']; subst.
  destruct (Nat.eqb_spec (Evaluation.id e) (Evaluation.id old)) as [Heq|Hne].
  - destruct Hin as [->|Hin]; [reflexivity|].
    exfalso. apply Hnot. rewrite Heq. apply in_map. assumption.
  - destruct Hin as [->|Hin]; [congruence|]. apply IH; assumption.
Qed.

Lemma evaluationTx_update sid uid total comments scores db old e0 :
  find (sameKey sid uid) (evaluations db) = Some old ->
  firstWithId (Evaluation.id old) (evaluations db) = Some e0 ->
  let i := Evaluation.id old in
  match evaluationTx sid uid total comments scores db with
  | inr (ev, db') =>
      ev = updated total comments e0
      /\ insertable (updateAll i total comments (evaluations db))
                    (evaluationCriteria db)
                    (removeScoresOf i (evaluationScores db))
                    (scoreRows i scores) = true
      /\ db' = afterUpdate db i total comments scores
  | inl _ =>
      insertable (updateAll i total comments (evaluations db))
                 (evaluationCriteria db)
                 (removeScoresOf i (evaluationScores db))
                 (scoreRows i scores) = false
  end.
Proof.
  intros Hfind Hfirst i. unfold evaluationTx, evaluation_findUnique.
  unfold bind at 1. rewrite Hfind.
  unfold bind at 1. unfold bind at 1.
  unfold evaluationScore_deleteMany, evaluation_update. simpl.
  unfold firstWithId in Hfirst. rewrite Hfirst.
  assert (Hid : Evaluation.id (updated total comments e0) = Evaluation.id old).
  { apply find_some in Hfirst. destruct Hfirst as [_ Hfirst].
    apply Nat.eqb_eq in Hfirst. exact Hfirst. }
  rewrite Hid. unfold bind, ret.
  match goal with
  | |- context [evaluationScore_createMany ?rows ?d] =>
      pose proof (createMany_spec rows d) as Hc;
      destruct (evaluationScore_createMany rows d) as [err|[u db']]
  end.
  - exact Hc.
  - destruct Hc as [H1 H2]. repeat split; assumption.
Qed.

Lemma evaluationTx_create sid uid total comments scores db :
  find (sameKey sid uid) (evaluations db) = None ->
  let e := Evaluation.mk (nextId db) sid uid total comments in
  match evaluationTx sid uid total comments scores db with
  | inr (ev, db') =>
      ev = e
      /\ existsb (String.eqb sid) (submissions db) = true
      /\ insertable (evaluations db ++ [e]) (evaluationCriteria db)
                    (evaluationScores db) (scoreRows (nextId db) scores) = true
      /\ db' = afterCreate db e scores
  | inl _ =>
      existsb (String.eqb sid) (submissions db) = false
      \/ insertable (evaluations db ++ [e]) (evaluationCriteria db)
                    (evaluationScores db) (scoreRows (nextId db) scores) = false
  end.
Proof.
  intros Hfind e. unfold evaluationTx, evaluation_findUnique.
  unfold bind at 1. rewrite Hfind.
  unfold bind at 1. unfold evaluation_create.
  unfold bind at 1. unfold get at 1.
  destruct (existsb (String.eqb sid) (submissions db)) eqn:Hsub; simpl;
    [|left; reflexivity].
  assert (Hex : existsb (sameKey sid uid) (evaluations db) = false).
  { apply existsb_false_forall. intros x Hx. exact (find_none _ _ Hfind x Hx). }
  rewrite Hex. tx_unfold. simpl.
  match goal with
  | |- context [evaluationScore_createMany ?rows ?d] =>
      pose proof (createMany_spec rows d) as Hc;
      destruct (evaluationScore_createMany rows d) as [err|[u db']]
  end.
  - right. exact Hc.
  - destruct Hc as [H1 H2]. repeat split; assumption.
Qed.

Lemma NoDup_snoc {A} (l : list A) (a : A) :
  NoDup l -> ~ In a l -> NoDup (l ++ [a]).
Proof.
  induction l as [|x l IH]; intros Hnd Hnot; simpl.
  - constructor; [intros []|constructor].
  - inversion Hnd; subst. constructor.
    + intros Hin. apply in_app_or in Hin. destruct Hin as [Hin|[->|[]]].
      * contradiction.
      * apply Hnot. left. reflexivity.
    + apply IH; [assumption|]. intros Hin. apply Hnot. right. assumption.
Qed.

Lemma sameKey_evalKey sid uid e :
  sameKey sid uid e = true <-> evalKey e = (sid, uid).
Proof.
  unfold sameKey, evalKey. rewrite andb_true_iff, !String.eqb_eq.
  split; [intros [-> ->]; reflexivity|intros H; inversion H; auto].
Qed.

Lemma updated_id total comments e :
  Evaluation.id (updated total comments e) = Evaluation.id e.
Proof. reflexivity. Qed.

Lemma updated_key total comments e :
  evalKey (updated total comments e) = evalKey e.
Proof. reflexivity. Qed.

Lemma updateAll_ids i total comments es :
  map Evaluation.id (updateAll i total comments es) = map Evaluation.id es.
Proof.
  unfold updateAll. rewrite map_map. apply map_ext.
  intros e. destruct (_ =? _)%nat; reflexivity.
Qed.

Lemma updateAll_keys i total comments es :
  map evalKey (updateAll i total comments es) = map evalKey es.
Proof.
  unfold updateAll. rewrite map_map. apply map_ext.
  intros e. destruct (_ =? _)%nat; reflexivity.
Qed.

(** On a table with a primary key, the update touches the one row. *)
Lemma updateAll_fixed total comments es old :
  NoDup (map Evaluation.id es) -> In old es ->
  updated total comments old = old ->
  updateAll (Evaluation.id old) total comments es = es.
Proof.
  intros Hnd Hin Hfix. unfold updateAll.
  rewrite <- (map_id es) at 2. apply map_ext_in. intros e He.
  destruct (Nat.eqb_spec (Evaluation.id e) (Evaluation.id old)) as [Heq|];
    [|reflexivity].
  assert (e = old) as ->; [|exact Hfix].
  pose proof (firstWithId_unique e es Hnd He) as H1.
  pose proof (firstWithId_unique old es Hnd Hin) as H2.
  rewrite Heq in H1. congruence.
Qed.

Lemma find_sameKey_in sid uid es old :
  find (sameKey sid uid) es = Some old ->
  In old es /\ evalKey old = (sid, uid).
Proof.
  intros H. apply find_some in H. destruct H as [Hin Hk].
  split; [assumption|apply sameKey_evalKey; assumption].
Qed.

(** Under the unique index, the pair selects one row. *)
Lemma filter_sameKey_unique sid uid es old :
  NoDup (map evalKey es) -> In old es -> evalKey old = (sid, uid) ->
  filter (sameKey sid uid) es = [old].
Proof.
  induction es as [|e es IH]; intros Hnd Hin Hk; [destruct Hin|].
  simpl in *. inversion Hnd as [|? ? Hnot Hnd']; subst.
  destruct (sameKey sid uid e) eqn:He.
  - apply sameKey_evalKey in He.
    destruct Hin as [->|Hin].
    + f_equal. destruct (filter (sameKey sid uid) es) as [|x l] eqn:Hf;
        [reflexivity|].
      exfalso. assert (Hx : In x (filter (sameKey sid uid) es))
        by (rewrite Hf; left; reflexivity).
      apply filter_In in Hx. destruct Hx as [Hx1 Hx2].
      apply sameKey_evalKey in Hx2. apply Hnot. rewrite Hk, <- Hx2.
      apply in_map. assumption.
    + exfalso. apply Hnot. rewrite He, <- Hk. apply in_map. assumption.
  - destruct Hin as [->|Hin].
    + apply sameKey_evalKey in Hk. congruence.
    + apply IH; assumption.
Qed.

Lemma find_sameKey_unique sid uid es old :
  NoDup (map evalKey es) -> In old es -> evalKey old = (sid, uid) ->
  find (sameKey sid uid) es = Some old.
Proof.
  intros Hnd Hin Hk.
  pose proof (filter_sameKey_unique sid uid es old Hnd Hin Hk) as Hf.
  destruct (find (sameKey sid uid) es) as [x|] eqn:Hfind.
  - destruct (find_sameKey_in _ _ _ _ Hfind) as [Hx1 Hx2].
    assert (Hx : In x (filter (sameKey sid uid) es))
      by (apply filter_In; split; [assumption|apply sameKey_evalKey; assumption]).
    rewrite Hf in Hx. destruct Hx as [->|[]]. reflexivity.
  - apply (find_none _ _ Hfind) in Hin.
    apply sameKey_evalKey in Hk. congruence.
Qed.

Lemma scoreRows_length i scores : List.length (scoreRows i scores) = List.length scores.
Proof. unfold scoreRows. apply List.length_map. Qed.

Lemma filter_scoreRows_same i scores :
  filter (fun r => (EvaluationScore.evaluationId r =? i)%nat)
         (scoreRows i scores) = scoreRows i scores.
Proof.
  induction scores as [|s scores IH]; simpl; [reflexivity|].
  rewrite Nat.eqb_refl. f_equal. exact IH.
Qed.

Lemma filter_removeScoresOf i rs :
  filter (fun r => (EvaluationScore.evaluationId r =? i)%nat)
         (removeScoresOf i rs) = [].
Proof.
  unfold removeScoresOf. induction rs as [|r rs IH]; simpl; [reflexivity|].
  destruct (Nat.eqb_spec (EvaluationScore.evaluationId r) i) as [Heq|Hne];
    simpl; [exact IH|].
  destruct (Nat.eqb_spec (EvaluationScore.evaluationId r) i); [contradiction|].
  exact IH.
Qed.

Lemma removeScoresOf_length i rs :
 List.length rs
  = List.length (removeScoresOf i rs)
    + List.length (filter (fun r => (EvaluationScore.evaluationId r =? i)%nat) rs).
Proof.
  unfold removeScoresOf. induction rs as [|r rs IH]; simpl; [reflexivity|].
  destruct (EvaluationScore.evaluationId r =? i)%nat; simpl; lia.
Qed.

(** A successful response comes from a committed transaction. *)
Lemma submitEvaluation_success db req :
  isSuccess (snd (submitEvaluation db req)) = true ->
  exists uid sid scores ev db',
    EvaluationRequest.user req = Some uid
    /\ EvaluationRequest.submissionId req = Some sid
    /\ EvaluationRequest.scores req = Some scores
    /\ evaluationTx sid uid
         (Scoring.computeTotalScore js (evaluationCriteria db) scores)
         (EvaluationRequest.comments req) scores db = inr (ev, db')
    /\ submitEvaluation db req = (db', Success (EvaluationData ev) submitted OK).
Proof.
  unfold submitEvaluation, transaction.
  destruct (EvaluationRequest.user req) as [uid|]; [|discriminate].
  destruct (EvaluationRequest.submissionId req) as [sid|]; [|discriminate].
  destruct (EvaluationRequest.scores req) as [scores|]; [|discriminate].
  destruct (sid =? ""); [discriminate|].
  destruct (evaluationTx _ _ _ _ _ db) as [err|[ev db']] eqn:Htx;
    [discriminate|].
  intros _. exists uid, sid, scores, ev, db'.
  split; [reflexivity|]. split; [reflexivity|]. split; [reflexivity|].
  split; [exact Htx|reflexivity].
Qed.

(** Whatever the outcome, a failure leaves the store as it was. *)
Lemma submitEvaluation_failure db req :
  isSuccess (snd (submitEvaluation db req)) = false ->
  fst (submitEvaluation db req) = db.
Proof.
  unfold submitEvaluation, transaction.
  destruct (EvaluationRequest.user req) as [uid|]; [|reflexivity].
  destruct (EvaluationRequest.submissionId req) as [sid|]; [|reflexivity].
  destruct (EvaluationRequest.scores req) as [scores|]; [|reflexivity].
  destruct (sid =? ""); [reflexivity|].
  destruct (evaluationTx _ _ _ _ _ db) as [err|[ev db']]; [reflexivity|].
  discriminate.
Qed.

Lemma updated_idem total comments e :
  updated total comments (updated total comments e) = updated total comments e.
Proof. destruct e, comments; reflexivity. Qed.

Lemma consistent_afterUpdate db old total comments scores :
  consistent db -> In old (evaluations db) ->
  consistent (afterUpdate db (Evaluation.id old) total comments scores).
Proof.
  intros [Hb Hi Hk Hfk] Hin. constructor; simpl.
  - rewrite Forall_forall in *. intros e He. unfold updateAll in He.
    apply in_map_iff in He. destruct He as [e' [<- He']].
    specialize (Hb e' He'). destruct (_ =? _)%nat; exact Hb.
  - rewrite updateAll_ids. exact Hi.
  - rewrite updateAll_keys. exact Hk.
  - rewrite updateAll_ids. apply Forall_app. split.
    + rewrite Forall_forall in *. intros r Hr. unfold removeScoresOf in Hr.
      apply filter_In in Hr. apply Hfk. tauto.
    + rewrite Forall_forall. intros r Hr. unfold scoreRows in Hr.
      apply in_map_iff in Hr. destruct Hr as [s [<- _]]. simpl.
      apply in_map. exact Hin.
Qed.

Lemma consistent_afterCreate db sid uid total comments scores :
  consistent db ->
  find (sameKey sid uid) (evaluations db) = None ->
  consistent (afterCreate db (Evaluation.mk (nextId db) sid uid total comments)
                          scores).
Proof.
  intros [Hb Hi Hk Hfk] Hnone. constructor; simpl.
  - apply Forall_app. split.
    + rewrite Forall_forall in *. intros e He. specialize (Hb e He). lia.
    + constructor; [simpl; lia|constructor].
  - rewrite map_app. simpl. apply NoDup_snoc; [exact Hi|].
    intros Hin. apply in_map_iff in Hin. destruct Hin as [e [He1 He2]].
    rewrite Forall_forall in Hb. specialize (Hb e He2). lia.
  - rewrite map_app. simpl. apply NoDup_snoc; [exact Hk|].
    intros Hin. apply in_map_iff in Hin. destruct Hin as [e [He1 He2]].
    apply (find_none _ _ Hnone) in He2.
    change (evalKey e = (sid, uid)) in He1.
    apply sameKey_evalKey in He1. congruence.
  - rewrite map_app. apply Forall_app. split.
    + rewrite Forall_forall in *. intros r Hr.
      apply in_or_app. left. apply Hfk. exact Hr.
    + rewrite Forall_forall. intros r Hr. unfold scoreRows in Hr.
      apply in_map_iff in Hr. destruct Hr as [s [<- _]]. simpl.
      apply in_or_app. right. left. reflexivity.
Qed.

(** What a committed evaluation transaction leaves behind. *)
Lemma evaluationTx_post sid uid total comments scores db ev db' :
  consistent db ->
  evaluationTx sid uid total comments scores db = inr (ev, db') ->
  consistent db'
  /\ In ev (evaluations db')
  /\ evalKey ev = (sid, uid)
  /\ updated total comments ev = ev
  /\ Evaluation.totalScore ev = total
  /\ evaluationCriteria db' = evaluationCriteria db
  /\ Forall (fun s => Scoring.known (evaluationCriteria db) s = true) scores
  /\ NoDup (map criteriaId scores)
  /\ scoresOf db' (Evaluation.id ev) = scoreRows (Evaluation.id ev) scores.
Proof.
  intros Hc Htx.
  destruct (find (sameKey sid uid) (evaluations db)) as [old|] eqn:Hfind.
  - destruct (find_sameKey_in _ _ _ _ Hfind) as [Hin Hkey].
    pose proof (firstWithId_unique old _ (ids_nodup db Hc) Hin) as Hfirst.
    pose proof (evaluationTx_update sid uid total comments scores db old old
                  Hfind Hfirst) as H.
    simpl in H. rewrite Htx in H. destruct H as [-> [Hins ->]].
    destruct (insertable_scoreRows_inv _ _ _ _ _ Hins) as [Hk [Hnd _]].
    split; [apply consistent_afterUpdate; assumption|].
    split.
    { simpl. unfold updateAll. apply in_map_iff. exists old.
      rewrite Nat.eqb_refl. split; [reflexivity|assumption]. }
    split; [exact Hkey|].
    split; [apply updated_idem|].
    split; [reflexivity|]. split; [reflexivity|].
    split; [exact Hk|]. split; [exact Hnd|].
    unfold scoresOf. simpl. rewrite filter_app, filter_removeScoresOf.
    simpl. apply filter_scoreRows_same.
  - pose proof (evaluationTx_create sid uid total comments scores db Hfind) as H.
    simpl in H. rewrite Htx in H. destruct H as [-> [Hsub [Hins ->]]].
    destruct (insertable_scoreRows_inv _ _ _ _ _ Hins) as [Hk [Hnd _]].
    split; [apply consistent_afterCreate; assumption|].
    split; [simpl; apply in_or_app; right; left; reflexivity|].
    split; [reflexivity|].
    split; [destruct comments; reflexivity|].
    split; [reflexivity|]. split; [reflexivity|].
    split; [exact Hk|]. split; [exact Hnd|].
    unfold scoresOf. simpl. rewrite filter_app, filter_scoreRows_same.
    assert (Hnil : filter
                     (fun r => (EvaluationScore.evaluationId r =? nextId db)%nat)
                     (evaluationScores db) = []).
    { destruct (filter _ (evaluationScores db)) as [|r l] eqn:Hf;
        [reflexivity|].
      exfalso. assert (Hr : In r (filter
                     (fun r => (EvaluationScore.evaluationId r =? nextId db)%nat)
                     (evaluationScores db))) by (rewrite Hf; left; reflexivity).
      apply filter_In in Hr. destruct Hr as [Hr1 Hr2].
      apply Nat.eqb_eq in Hr2.
      pose proof (scores_fk db Hc) as Hfk. rewrite Forall_forall in Hfk.
      specialize (Hfk r Hr1). apply in_map_iff in Hfk.
      destruct Hfk as [e [He1 He2]].
      pose proof (ids_below db Hc) as Hb. rewrite Forall_forall in Hb.
      specialize (Hb e He2). lia. }
    rewrite Hnil. reflexivity.
Qed.

(** Resubmission for a pair that has its row takes the update path and
    commits. *)
Lemma evaluationTx_resubmit sid uid total comments scores db ev :
  consistent db -> In ev (evaluations db) -> evalKey ev = (sid, uid) ->
  Forall (fun s => Scoring.known (evaluationCriteria db) s = true) scores ->
  NoDup (map criteriaId scores) ->
  evaluationTx sid uid total comments scores db
  = inr (updated total comments ev,
         afterUpdate db (Evaluation.id ev) total comments scores).
Proof.
  intros Hc Hin Hkey Hk Hnd.
  pose proof (find_sameKey_unique sid uid _ ev (keys_nodup db Hc) Hin Hkey)
    as Hfind.
  pose proof (firstWithId_unique ev _ (ids_nodup db Hc) Hin) as Hfirst.
  pose proof (evaluationTx_update sid uid total comments scores db ev ev
                Hfind Hfirst) as H.
  simpl in H.
  assert (Hins : insertable
                   (updateAll (Evaluation.id ev) total comments (evaluations db))
                   (evaluationCriteria db)
                   (removeScoresOf (Evaluation.id ev) (evaluationScores db))
                   (scoreRows (Evaluation.id ev) scores) = true).
  { apply insertable_scoreRows; try assumption.
    - apply existsb_exists. exists (updated total comments ev). split.
      + unfold updateAll. apply in_map_iff. exists ev.
        rewrite Nat.eqb_refl. split; [reflexivity|assumption].
      + simpl. apply Nat.eqb_refl.
    - intros s r _ Hr Hi. unfold removeScoresOf in Hr.
      apply filter_In in Hr. destruct Hr as [_ Hr].
      rewrite Hi, Nat.eqb_refl in Hr. discriminate. }
  destruct (evaluationTx sid uid total comments scores db) as [err|[ev' db']].
  - congruence.
  - destruct H as [-> [_ ->]]. reflexivity.
Qed.


(** A committed transaction has inserted a batch the store accepts: every
    criterion id is known and none occurs twice. *)
Lemma evaluationTx_rows_ok sid uid total comments scores db ev db' :
  evaluationTx sid uid total comments scores db = inr (ev, db') ->
  Forall (fun s => Scoring.known (evaluationCriteria db) s = true) scores
  /\ NoDup (map criteriaId scores).
Proof.
  intros Htx.
  destruct (find (sameKey sid uid) (evaluations db)) as [old|] eqn:Hfind.
  - destruct (find_sameKey_in _ _ _ _ Hfind) as [Hin _].
    destruct (firstWithId_in old _ Hin) as [e0 Hfirst].
    pose proof (evaluationTx_update sid uid total comments scores db old e0
                  Hfind Hfirst) as H.
    simpl in H. rewrite Htx in H. destruct H as [_ [Hins _]].
    destruct (insertable_scoreRows_inv _ _ _ _ _ Hins) as [Hk [Hnd _]].
    split; assumption.
  - pose proof (evaluationTx_create sid uid total comments scores db Hfind) as H.
    simpl in H. rewrite Htx in H. destruct H as [_ [_ [Hins _]]].
    destruct (insertable_scoreRows_inv _ _ _ _ _ Hins) as [Hk [Hnd _]].
    split; assumption.
Qed.

(** The handler keeps the tables consistent. *)
Lemma submitEvaluation_consistent db req :
  consistent db -> consistent (fst (submitEvaluation db req)).
Proof.
  intros Hc.
  destruct (isSuccess (snd (submitEvaluation db req))) eqn:Hs.
  - destruct (submitEvaluation_success db req Hs)
      as [uid [sid [scores [ev [db' [_ [_ [_ [Htx Heq]]]]]]]]].
    rewrite Heq. simpl.
    exact (proj1 (evaluationTx_post _ _ _ _ _ _ _ _ Hc Htx)).
  - rewrite (submitEvaluation_failure db req Hs). exact Hc.
Qed.

(** ** Facts about the roster checks *)

Lemma countIf_cons p m ms :
  countIf p (m :: ms) = (if p m then 1 else 0) + countIf p ms.
Proof. unfold countIf. simpl. destruct (p m); reflexivity. Qed.

(** The loop either stops at the first member with an objection or has
    counted leaders, school students and women. *)
Lemma scanMembers_spec ms : forall c,
  scanMembers ms c
  = match firstViolation ms with
    | Some v => inl v
    | None =>
        inr (mkCounts (teamLeaderCount c + countIf isLeader ms)
                      (schoolStudentCount c + countIf isSchoolStudent ms)
                      (femaleCount c + countIf isFemale ms))
    end.
Proof.
  induction ms as [|m ms IH]; intros c.
  - simpl. unfold countIf. simpl. rewrite !Nat.add_0_r.
    destruct c; reflexivity.
  - cbn [scanMembers firstViolation]. unfold memberViolation.
    rewrite !countIf_cons.
    destruct (isLeader m && lacksIeee m); [reflexivity|].
    destruct (isSchoolStudent m && lacksStandard m); [reflexivity|].
    rewrite IH. destruct (firstViolation ms); [reflexivity|].
    cbn [teamLeaderCount schoolStudentCount femaleCount].
    f_equal. f_equal.
    + destruct (isLeader m); lia.
    + destruct (isSchoolStudent m); lia.
    + destruct (isFemale m); lia.
Qed.

Lemma validateRoster_scanThenCount ms : validateRoster ms = scanThenCount ms.
Proof.
  unfold validateRoster, scanThenCount.
  destruct (negb (List.length ms =? 6)%nat); [reflexivity|].
  rewrite scanMembers_spec.
  destruct (firstViolation ms); reflexivity.
Qed.

Lemma firstViolation_none ms :
  firstViolation ms = None <-> forall m, In m ms -> memberViolation m = None.
Proof.
  induction ms as [|m ms IH]; simpl.
  - split; [intros _ x []|reflexivity].
  - destruct (memberViolation m) eqn:Hm.
    + split; [discriminate|]. intros H. rewrite <- Hm. apply H. left; reflexivity.
    + rewrite IH. split.
      * intros H x [<-|Hx]; auto.
      * intros H x Hx. apply H. right; assumption.
Qed.

Lemma memberViolation_none m :
  memberViolation m = None
  <-> (isLeader m = true -> lacksIeee m = false)
      /\ (isSchoolStudent m = true -> lacksStandard m = false).
Proof.
  unfold memberViolation.
  destruct (isLeader m), (lacksIeee m), (isSchoolStudent m), (lacksStandard m);
    simpl; split; try discriminate; try (intros [H1 H2]);
    try (split; intros; congruence); try reflexivity;
    try (specialize (H1 eq_refl); discriminate);
    try (specialize (H2 eq_refl); discriminate).
Qed.

(** An accepted roster. *)
Lemma validateRoster_pass ms :
  validateRoster ms = None ->
  List.length ms = 6
  /\ firstViolation ms = None
  /\ countIf isLeader ms = 1
  /\ 1 <= countIf isSchoolStudent ms
  /\ 1 <= countIf isFemale ms.
Proof.
  rewrite validateRoster_scanThenCount. unfold scanThenCount.
  destruct (Nat.eqb_spec (List.length ms) 6); simpl; [|discriminate].
  destruct (firstViolation ms); [discriminate|].
  destruct (Nat.eqb_spec (countIf isLeader ms) 1); simpl; [|discriminate].
  destruct (Nat.eqb_spec (countIf isSchoolStudent ms) 0); [discriminate|].
  destruct (Nat.eqb_spec (countIf isFemale ms) 0); [discriminate|].
  intros _. repeat split; try assumption; lia.
Qed.

Lemma findLeader_some ms :
  1 <= countIf isLeader ms ->
  exists ld, findLeader ms = Some ld /\ In ld ms /\ isLeader ld = true.
Proof.
  unfold findLeader. induction ms as [|m ms IH]; intros H.
  - unfold countIf in H. simpl in H. lia.
  - rewrite countIf_cons in H. simpl. destruct (isLeader m) eqn:Hm.
    + exists m. repeat split; [left; reflexivity|assumption].
    + destruct (IH H) as [ld [H1 [H2 H3]]]. exists ld.
      repeat split; [assumption|right; assumption|assumption].
Qed.

Lemma countIf_app p l1 l2 : countIf p (l1 ++ l2) = countIf p l1 + countIf p l2.
Proof. unfold countIf. rewrite filter_app, List.length_app. reflexivity. Qed.

Lemma countIf_zero p ms :
  countIf p ms = 0 -> forall m, In m ms -> p m = false.
Proof.
  induction ms as [|x ms IH]; intros H m Hin; [destruct Hin|].
  rewrite countIf_cons in H. destruct (p x) eqn:Hx; [simpl in H; lia|].
  destruct Hin as [<-|Hin]; [assumption|]. apply IH; [simpl in H; lia|assumption].
Qed.

Lemma firstViolation_app_clean pre rest :
  (forall m, In m pre -> memberViolation m = None) ->
  firstViolation (pre ++ rest) = firstViolation rest.
Proof.
  induction pre as [|m pre IH]; intros H; simpl; [reflexivity|].
  rewrite (H m (or_introl eq_refl)). apply IH.
  intros x Hx. apply H. right; assumption.
Qed.

Lemma firstViolation_school pre rest :
  (forall m, In m pre -> isLeader m = false) ->
  (exists m, In m pre /\ isSchoolStudent m = true /\ lacksStandard m = true) ->
  firstViolation (pre ++ rest) = Some SCHOOL_STUDENT_MISSING_FIELDS.
Proof.
  induction pre as [|x pre IH]; intros Hnl [m [Hin [Hs Hl]]]; [destruct Hin|].
  simpl. unfold memberViolation at 1.
  rewrite (Hnl x (or_introl eq_refl)). simpl.
  destruct (isSchoolStudent x && lacksStandard x) eqn:Hx; [reflexivity|].
  apply IH.
  - intros y Hy. apply Hnl. right; assumption.
  - destruct Hin as [<-|Hin].
    + rewrite Hs, Hl in Hx. discriminate.
    + exists m. auto.
Qed.

Lemma otherRulesHold_clean ms :
  otherRulesHold ms -> firstViolation ms = None.
Proof.
  intros [_ [_ [Hl [Hs _]]]]. apply firstViolation_none.
  intros m Hm. apply memberViolation_none. split; auto.
Qed.

(** The loop of the variant on a roster without objections whose school
    students all have their document. *)
Lemma scanMembersUpload_pass urls ms : forall i c,
  firstViolation ms = None ->
  (forall j m, nth_error ms j = Some m -> isSchoolStudent m = true ->
               truthyStr (pdfUrlOf urls (i + j)) = true) ->
  exists ms',
    scanMembersUpload urls i ms c
    = inr (mkCounts (teamLeaderCount c + countIf isLeader ms)
                    (schoolStudentCount c + countIf isSchoolStudent ms)
                    (femaleCount c + countIf isFemale ms), ms').
Proof.
  induction ms as [|m ms IH]; intros i c Hclean Hdocs.
  - exists []. simpl. unfold countIf. simpl. rewrite !Nat.add_0_r.
    destruct c; reflexivity.
  - simpl in Hclean. destruct (memberViolation m) eqn:Hm; [discriminate|].
    unfold memberViolation in Hm.
    destruct (isLeader m && lacksIeee m) eqn:H1; [discriminate|].
    destruct (isSchoolStudent m && lacksStandard m) eqn:H2; [discriminate|].
    cbn [scanMembersUpload]. rewrite H1, H2.
    assert (H3 : isSchoolStudent m && negb (truthyStr (pdfUrlOf urls i)) = false).
    { destruct (isSchoolStudent m) eqn:Hs; [|reflexivity]. simpl.
      specialize (Hdocs 0 m eq_refl Hs). rewrite Nat.add_0_r in Hdocs.
      rewrite Hdocs. reflexivity. }
    rewrite H3.
    match goal with
    | |- context [scanMembersUpload urls (S i) ms ?c'] =>
        destruct (IH (S i) c' Hclean) as [ms' Hms']
    end.
    { intros j x Hj Hx. replace (S i + j) with (i + S j) by lia.
      apply (Hdocs (S j) x); assumption. }
    rewrite Hms'. eexists. f_equal. f_equal.
    rewrite !countIf_cons. cbn [teamLeaderCount schoolStudentCount femaleCount].
    f_equal.
    + destruct (isLeader m); lia.
    + destruct (isSchoolStudent m); lia.
    + destruct (isFemale m); lia.
Qed.

(** ** Facts about the registration transaction *)

Section RegistrationFacts.

Variable hashPassword : string -> option string.

Lemma afterRegister_aggregate db body leader hashed :
  aggregateAdded db (afterRegister db body leader hashed) body (nextId db)
                 leader hashed.
Proof.
  unfold aggregateAdded, afterRegister. simpl.
  repeat split. exists (S (nextId db)). reflexivity.
Qed.

(** The transaction of the primary handler, outcome by outcome. *)
Lemma registerTx_spec body db :
  let name := RegisterTeamInput.teamName body in
  match registerTx hashPassword body db with
  | inr (t, db') =>
      nameHeld db name = false
      /\ t = Team.mk (nextId db) name (RegisterTeamInput.theme body)
      /\ match findLeader (RegisterTeamInput.members body) with
         | Some ld =>
             exists h, hashPassword defaultPassword = Some h
                       /\ db' = afterRegister db body ld h
         | None => True
         end
  | inl e =>
      (nameHeld db name = true /\ e = PrismaError "P2002")
      \/ (nameHeld db name = false
          /\ exists ld, findLeader (RegisterTeamInput.members body) = Some ld
             /\ ((hashPassword defaultPassword = None /\ e = OtherError)
                 \/ (exists h, hashPassword defaultPassword = Some h
                               /\ existsb (fun u => User.email u
                                                    =? TeamMemberInput.email ld)
                                          (users db) = true
                               /\ e = PrismaError "P2002")))
  end.
Proof.
  intros name. unfold registerTx, team_create.
  unfold bind at 1. unfold bind at 1. unfold get at 1.
  fold name. destruct (nameHeld db name) eqn:Hheld.
  - unfold throw. left. split; reflexivity.
  - tx_unfold. simpl.
    destruct (findLeader (RegisterTeamInput.members body)) as [ld|] eqn:Hld.
    + unfold hashPasswordTx.
      destruct (hashPassword defaultPassword) as [h|] eqn:Hh.
      * unfold user_create. tx_unfold. simpl.
        destruct (existsb _ (users db)) eqn:Hmail.
        -- right. split; [reflexivity|]. exists ld. split; [reflexivity|].
           right. exists h. repeat split. exact Hmail.
        -- simpl. repeat split. exists h. split; reflexivity.
      * right. split; [reflexivity|]. exists ld. split; [reflexivity|].
        left. split; reflexivity.
    + simpl. repeat split.
Qed.

(** A registration answers with success only after its transaction has
    committed the whole aggregate. *)
Lemma registerTeamAt_success dbCheck dbTx body db' tid tname msg st :
  registerTeamAt hashPassword dbCheck dbTx body
  = (db', Success (TeamData tid tname) msg st) ->
  validateRoster (RegisterTeamInput.members body) = None
  /\ nameHeld dbTx (RegisterTeamInput.teamName body) = false
  /\ tid = nextId dbTx
  /\ tname = RegisterTeamInput.teamName body
  /\ exists ld h,
       findLeader (RegisterTeamInput.members body) = Some ld
       /\ In ld (RegisterTeamInput.members body)
       /\ isLeader ld = true
       /\ hashPassword defaultPassword = Some h
       /\ db' = afterRegister dbTx body ld h.
Proof.
  unfold registerTeamAt, transaction.
  destruct (validateRoster (RegisterTeamInput.members body)) eqn:Hv;
    [destruct v; discriminate|].
  destruct (team_findUnique dbCheck _); [discriminate|].
  pose proof (registerTx_spec body dbTx) as Hspec. simpl in Hspec.
  destruct (registerTx hashPassword body dbTx) as [e|[t d]].
  - unfold caught. destruct (hasCode e "P2002"); discriminate.
  - intros Heq. unfold registered in Heq. injection Heq as -> <- <- _ _.
    destruct Hspec as [Hheld [-> Hld]].
    destruct (validateRoster_pass _ Hv) as [_ [_ [Hone _]]].
    destruct (findLeader_some (RegisterTeamInput.members body))
      as [ld [Hf [Hin Hisl]]]; [lia|].
    rewrite Hf in Hld. destruct Hld as [h [Hh ->]].
    repeat split; try assumption. exists ld, h. repeat split; assumption.
Qed.

(** Any other answer leaves the store as the transaction found it. *)
Lemma registerTeamAt_failure dbCheck dbTx body :
  isSuccess (snd (registerTeamAt hashPassword dbCheck dbTx body)) = false ->
  fst (registerTeamAt hashPassword dbCheck dbTx body) = dbTx.
Proof.
  unfold registerTeamAt, transaction.
  destruct (validateRoster _); [reflexivity|].
  destruct (team_findUnique dbCheck _); [reflexivity|].
  destruct (registerTx hashPassword body dbTx) as [e|[t d]]; [reflexivity|].
  discriminate.
Qed.

Lemma team_findUnique_nameHeld db name :
  team_findUnique db name = None <-> nameHeld db name = false.
Proof.
  unfold team_findUnique, nameHeld. split.
  - intros H. apply existsb_false_forall. intros t Ht.
    exact (find_none _ _ H t Ht).
  - intros H. destruct (find _ (teams db)) as [t|] eqn:Hf; [|reflexivity].
    apply find_some in Hf. destruct Hf as [Hin Ht].
    rewrite existsb_false_forall in H. rewrite (H t Hin) in Ht. discriminate.
Qed.

Lemma teamsNamed_nameHeld db name :
  nameHeld db name = false -> teamsNamed db name = [].
Proof.
  unfold nameHeld, teamsNamed. intros H.
  rewrite existsb_false_forall in H.
  induction (teams db) as [|t ts IH]; [reflexivity|].
  simpl. rewrite (H t (or_introl eq_refl)). apply IH.
  intros x Hx. apply H. right; assumption.
Qed.

End RegistrationFacts.

(** ** The evaluation tables stay consistent *)

Lemma consistent_emptyStore : consistent Sample.emptyStore.
Proof. constructor; simpl; constructor. Qed.

(** A registration does not touch the evaluation tables and only moves the
    key counter forward. *)
Lemma registerTeamAt_consistent hashPassword dbCheck dbTx body :
  consistent dbTx ->
  consistent (fst (registerTeamAt hashPassword dbCheck dbTx body)).
Proof.
  intros Hc.
  destruct (snd (registerTeamAt hashPassword dbCheck dbTx body))
    as [data msg st|msg st] eqn:Hout.
  - destruct data as [tid tname|ev].
    + assert (Heq : registerTeamAt hashPassword dbCheck dbTx body
                    = (fst (registerTeamAt hashPassword dbCheck dbTx body),
                       Success (TeamData tid tname) msg st)).
      { rewrite <- Hout.
        destruct (registerTeamAt hashPassword dbCheck dbTx body); reflexivity. }
      destruct (registerTeamAt_success _ _ _ _ _ _ _ _ _ Heq)
        as [_ [_ [_ [_ [ld [h [_ [_ [_ [_ ->]]]]]]]]]].
      destruct Hc as [Hb Hi Hk Hfk]. constructor; simpl; try assumption.
      rewrite Forall_forall in *. intros e He. specialize (Hb e He). lia.
    + exfalso. unfold registerTeamAt, transaction in Hout.
      destruct (validateRoster _) as [v|]; [destruct v; discriminate|].
      destruct (team_findUnique dbCheck _); [discriminate|].
      destruct (registerTx hashPassword body dbTx) as [e|[t d]].
      * unfold caught in Hout. simpl in Hout.
        destruct (hasCode e "P2002"); discriminate.
      * discriminate.
  - rewrite registerTeamAt_failure; [exact Hc|]. rewrite Hout. reflexivity.
Qed.

(** ** Calls that commit *)

Lemma existsb_eqb_In (x : string) l :
  existsb (String.eqb x) l = true <-> In x l.
Proof.
  rewrite existsb_exists. split.
  - intros [y [Hy Heq]]. apply String.eqb_eq in Heq. subst. exact Hy.
  - intros H. exists x. split; [exact H|apply String.eqb_refl].
Qed.

Lemma scores_below_counter db :
  consistent db ->
  forall r, In r (evaluationScores db) ->
            EvaluationScore.evaluationId r < nextId db.
Proof.
  intros Hc r Hr.
  pose proof (scores_fk db Hc) as Hfk. rewrite Forall_forall in Hfk.
  specialize (Hfk r Hr). apply in_map_iff in Hfk.
  destruct Hfk as [e [He1 He2]].
  pose proof (ids_below db Hc) as Hb. rewrite Forall_forall in Hb.
  specialize (Hb e He2). lia.
Qed.

(** A first submission for a pair, on an existing submission, with known
    and pairwise distinct criteria, takes the create path and commits. *)
Lemma evaluationTx_first sid uid total comments scores db :
  consistent db ->
  find (sameKey sid uid) (evaluations db) = None ->
  In sid (submissions db) ->
  Forall (fun s => Scoring.known (evaluationCriteria db) s = true) scores ->
  NoDup (map criteriaId scores) ->
  let e := Evaluation.mk (nextId db) sid uid total comments in
  evaluationTx sid uid total comments scores db
  = inr (e, afterCreate db e scores).
Proof.
  intros Hc Hfind Hsub Hk Hnd e.
  pose proof (evaluationTx_create sid uid total comments scores db Hfind) as H.
  simpl in H. fold e in H.
  assert (Hins : insertable (evaluations db ++ [e]) (evaluationCriteria db)
                            (evaluationScores db)
                            (scoreRows (nextId db) scores) = true).
  { apply insertable_scoreRows; try assumption.
    - apply existsb_exists. exists e. split.
      + apply in_or_app. right. left. reflexivity.
      + simpl. apply Nat.eqb_refl.
    - intros s r _ Hr Hi.
      pose proof (scores_below_counter db Hc r Hr). lia. }
  destruct (evaluationTx sid uid total comments scores db) as [err|[ev' db']].
  - destruct H as [H|H]; [|congruence].
    apply existsb_eqb_In in Hsub. congruence.
  - destruct H as [-> [_ [_ ->]]]. reflexivity.
Qed.

Lemma find_sameKey_evaluationsFor db sid uid :
  find (sameKey sid uid) (evaluations db) = None
  <-> evaluationsFor db sid uid = [].
Proof.
  unfold evaluationsFor. split.
  - intros H. induction (evaluations db) as [|e es IH]; [reflexivity|].
    simpl in *. destruct (sameKey sid uid e); [discriminate|]. apply IH, H.
  - intros H. induction (evaluations db) as [|e es IH]; [reflexivity|].
    simpl in *. destruct (sameKey sid uid e); [discriminate|]. apply IH, H.
Qed.

(** * The specification against the code *)

(** ** Scoring *)

(** Two numbers that the comparison of binary64 values tells apart are
    different. *)
Lemma number_neq (a b : number) :
  PrimFloat.eqb a a = true -> PrimFloat.eqb a b = false -> a <> b.
Proof. intros Ha Hab Heq. rewrite <- Heq in Hab. congruence. Qed.

(** C3 (as the code has it).  In the arithmetic of the code, as in any
    other, the total that [submitEvaluation] computes is the weighted sum
    of rawScore * weight / 100 over the pairs whose criterion id is known,
    added up in the order of submission, left as it is when the matched
    weights sum to 100 or to nothing positive, and rescaled by
    * 100 / totalWeight when they sum to a positive number other than 100;
    pairs with an unknown criterion id enter neither sum.  When no
    criterion has a negative weight this is the total of the
    specification. *)
Theorem computeTotalScore_is_guarded_total :
  forall (A : Arithmetic.t) cs (scores : list (ScoreOf (Arithmetic.num A))),
    Scoring.computeTotalScore A cs scores = Scoring.guardedTotal A cs scores
    /\ (Scoring.nonnegWeights cs ->
        Scoring.computeTotalScore A cs scores = Scoring.specTotal A cs scores).
Proof.
  intros A cs scores. split.
  - apply ScoringFacts.computeTotalScore_guarded.
  - apply ScoringFacts.computeTotalScore_spec_nonneg.
Qed.

Lemma computeTotalScore_is_guarded_total_witness :
  Scoring.nonnegWeights [Sample.criterionA; Sample.criterionB]
  /\ Scoring.computeTotalScore js [Sample.criterionA; Sample.criterionB]
                               Sample.scoreUnknown
     = Scoring.specTotal js [Sample.criterionA; Sample.criterionB]
                         Sample.scoreUnknown.
Proof.
  assert (H : Scoring.nonnegWeights [Sample.criterionA; Sample.criterionB]).
  { repeat constructor; simpl; lia. }
  split; [exact H|].
  exact (proj2 (computeTotalScore_is_guarded_total js _ _) H).
Defined.

(** C3 (as stated) fails: with one criterion of weight -50 and the score
    10 for it, the matched weights sum to -50, which is neither 0 nor
    100, yet the code leaves the weighted sum -5 as it is, where the
    stated formula rescales it to 10. *)
Lemma computeTotalScore_negative_weight :
  Scoring.totalWeight [Sample.criterionNeg] Sample.scoreNeg = (-50)%Z
  /\ Scoring.computeTotalScore js [Sample.criterionNeg] Sample.scoreNeg
     = numberOfZ (-5)
  /\ Scoring.specTotal js [Sample.criterionNeg] Sample.scoreNeg
     = numberOfZ 10
  /\ Scoring.computeTotalScore js [Sample.criterionNeg] Sample.scoreNeg
     <> Scoring.specTotal js [Sample.criterionNeg] Sample.scoreNeg.
Proof.
  split; [reflexivity|]. split; [reflexivity|]. split; [reflexivity|].
  apply number_neq; reflexivity.
Qed.

(** C5 (as the code has it).  When the weights of the matched criteria
    sum to 100 the total is the weighted sum itself, in any arithmetic.
    When they sum to 50 the total is (weightedSum * 100) / 50 in the
    arithmetic of the code; in exact arithmetic that is twice the weighted
    sum. *)
Theorem computeTotalScore_round_trip :
  (forall (A : Arithmetic.t) cs (scores : list (ScoreOf (Arithmetic.num A))),
     (Scoring.totalWeight cs scores = 100%Z ->
      Scoring.computeTotalScore A cs scores = Scoring.weightedSum A cs scores)
     /\ (Scoring.totalWeight cs scores = 50%Z ->
         Scoring.computeTotalScore A cs scores
         = Arithmetic.div A
             (Arithmetic.mul A (Scoring.weightedSum A cs scores)
                             (Arithmetic.ofZ A 100))
             (Arithmetic.ofZ A 50)))
  /\ (forall cs (scores : list (ScoreOf Q)),
        Scoring.totalWeight cs scores = 50%Z ->
        (Scoring.computeTotalScore exact cs scores
         == (2 # 1) * Scoring.weightedSum exact cs scores)%Q).
Proof.
  split.
  - intros A cs scores.
    pose proof (ScoringFacts.computeTotalScore_guarded A cs scores) as H.
    unfold Scoring.guardedTotal in H.
    split; intros Hw; rewrite Hw in H; exact H.
  - intros cs scores Hw.
    pose proof (ScoringFacts.computeTotalScore_guarded exact cs scores) as H.
    unfold Scoring.guardedTotal in H.
    change (Arithmetic.num exact) with Q in H.
    rewrite Hw in H. simpl in H. rewrite H. field.
Qed.

Lemma computeTotalScore_round_trip_witness :
  Scoring.computeTotalScore js [Sample.criterionA; Sample.criterionB]
                            Sample.score8070
  = Scoring.weightedSum js [Sample.criterionA; Sample.criterionB]
                        Sample.score8070
  /\ (Scoring.computeTotalScore exact [Sample.criterion20; Sample.criterion30]
                                Sample.exact0112
      == (2 # 1) * Scoring.weightedSum exact
                     [Sample.criterion20; Sample.criterion30]
                     Sample.exact0112)%Q.
Proof.
  split.
  - apply (proj1 (proj1 computeTotalScore_round_trip js _ _)). reflexivity.
  - apply (proj2 computeTotalScore_round_trip). reflexivity.
Defined.

(** C5 (as stated) fails in the arithmetic of the code: with criteria of
    weights 20 and 30 and the scores 1 and 12 the matched weights sum to
    50, the weighted sum is 0.2 + 3.6 = 3.8000000000000003, the total is
    7.6, and twice the weighted sum is 7.6000000000000005. *)
Lemma computeTotalScore_not_exactly_double :
  Scoring.totalWeight [Sample.criterion20; Sample.criterion30]
                      Sample.score0112 = 50%Z
  /\ Scoring.computeTotalScore js [Sample.criterion20; Sample.criterion30]
                               Sample.score0112
     <> PrimFloat.mul (numberOfZ 2)
          (Scoring.weightedSum js [Sample.criterion20; Sample.criterion30]
                               Sample.score0112).
Proof.
  split; [reflexivity|]. apply number_neq; reflexivity.
Qed.

(** ** Evaluation *)

(** C1 (as the code has it).  When the first of two calls in sequence with
    the same evaluator, submission and score set succeeds, the second
    succeeds too and leaves exactly one [Evaluation] row for the pair,
    carrying the computed total, and exactly N [EvaluationScore] rows for
    it, the submitted ones; the second call adds no [Evaluation] row and
    leaves the number of [EvaluationScore] rows as the first call left
    it. *)
Theorem resubmission_replaces :
  forall db uid sid scores comments,
    let req := EvaluationRequest.mk (Some uid) (Some sid) (Some scores)
                                    comments in
    let db1 := fst (submitEvaluation db req) in
    let db2 := fst (submitEvaluation db1 req) in
    consistent db ->
    isSuccess (snd (submitEvaluation db req)) = true ->
    exists ev,
      snd (submitEvaluation db1 req) = Success (EvaluationData ev) submitted OK
      /\ evaluationsFor db2 sid uid = [ev]
      /\ Evaluation.totalScore ev
         = Scoring.computeTotalScore js (evaluationCriteria db) scores
      /\ scoresOf db2 (Evaluation.id ev) = scoreRows (Evaluation.id ev) scores
      /\ List.length (scoresOf db2 (Evaluation.id ev)) = List.length scores
      /\ evaluations db2 = evaluations db1
      /\ List.length (evaluationScores db2)
         = List.length (evaluationScores db1).
Proof.
  intros db uid sid scores comments req db1 db2 Hc Hs.
  destruct (submitEvaluation_success db req Hs)
    as [uid' [sid' [scores' [ev [d1 [Hu [Hsid [Hsc [Htx Heq]]]]]]]]].
  simpl in Hu, Hsid, Hsc.
  injection Hu as <-. injection Hsid as <-. injection Hsc as <-.
  simpl in Htx.
  assert (Hd1 : db1 = d1) by (unfold db1; rewrite Heq; reflexivity).
  destruct (evaluationTx_post _ _ _ _ _ _ _ _ Hc Htx)
    as [Hc1 [Hin [Hkey [Hfix [Htot [Hcrit [Hk [Hnd Hrows]]]]]]]].
  assert (Hne : (sid =? "") = false).
  { unfold submitEvaluation in Heq. simpl in Heq.
    destruct (sid =? ""); [discriminate Heq|reflexivity]. }
  rewrite <- Hcrit in Hk.
  pose proof (evaluationTx_resubmit sid uid
                (Scoring.computeTotalScore js (evaluationCriteria d1) scores)
                comments scores d1 ev Hc1 Hin Hkey Hk Hnd) as Htx2.
  rewrite Hcrit in Htx2. rewrite Hfix in Htx2.
  assert (Hcall2 : submitEvaluation d1 req
                   = (afterUpdate d1 (Evaluation.id ev)
                        (Scoring.computeTotalScore js (evaluationCriteria db)
                                                   scores)
                        comments scores,
                      Success (EvaluationData ev) submitted OK)).
  { unfold submitEvaluation, transaction. simpl. rewrite Hne, Hcrit, Htx2.
    reflexivity. }
  assert (Hevs : evaluations db2 = evaluations d1).
  { unfold db2. rewrite Hd1, Hcall2. simpl.
    apply updateAll_fixed; [exact (ids_nodup d1 Hc1)|exact Hin|exact Hfix]. }
  assert (Hsc2 : scoresOf db2 (Evaluation.id ev)
                 = scoreRows (Evaluation.id ev) scores).
  { unfold db2. rewrite Hd1, Hcall2. unfold scoresOf. simpl.
    rewrite filter_app, filter_removeScoresOf. simpl.
    apply filter_scoreRows_same. }
  exists ev. split; [rewrite Hd1, Hcall2; reflexivity|].
  split.
  { unfold evaluationsFor. rewrite Hevs.
    apply filter_sameKey_unique;
      [exact (keys_nodup d1 Hc1)|exact Hin|exact Hkey]. }
  split; [exact Htot|]. split; [exact Hsc2|].
  split; [rewrite Hsc2; apply scoreRows_length|].
  split; [rewrite Hevs, Hd1; reflexivity|].
  unfold db2. rewrite Hd1, Hcall2. simpl.
  rewrite List.length_app, scoreRows_length.
  rewrite (removeScoresOf_length (Evaluation.id ev) (evaluationScores d1)).
  change (filter _ (evaluationScores d1)) with (scoresOf d1 (Evaluation.id ev)).
  rewrite Hrows, scoreRows_length. reflexivity.
Qed.

Lemma consistent_judging : consistent Sample.judging.
Proof. constructor; simpl; constructor. Qed.

Lemma resubmission_replaces_witness :
  exists ev,
    snd (submitEvaluation
           (fst (submitEvaluation Sample.judging
                                  (Sample.evaluate Sample.score8070)))
           (Sample.evaluate Sample.score8070))
    = Success (EvaluationData ev) submitted OK
    /\ evaluationsFor
         (fst (submitEvaluation
                 (fst (submitEvaluation Sample.judging
                                        (Sample.evaluate Sample.score8070)))
                 (Sample.evaluate Sample.score8070)))
         "sub-1" "eval-1" = [ev]
    /\ List.length
         (scoresOf
            (fst (submitEvaluation
                    (fst (submitEvaluation Sample.judging
                                           (Sample.evaluate Sample.score8070)))
                    (Sample.evaluate Sample.score8070)))
            (Evaluation.id ev)) = 2.
Proof.
  destruct (resubmission_replaces Sample.judging "eval-1" "sub-1"
              Sample.score8070 (Some "solid work")
              consistent_judging eq_refl)
    as [ev [H1 [H2 [_ [_ [H5 _]]]]]].
  exists ev. split; [exact H1|]. split; [exact H2|exact H5].
Defined.

(** C1 (as stated) fails: a score set with a criterion id the store does
    not know makes both calls fail, and no [Evaluation] row exists for the
    pair afterwards, where the specification counts exactly one. *)
Lemma resubmission_unknown_criterion_no_row :
  consistent Sample.judging
  /\ let req := Sample.evaluate Sample.scoreUnknown in
     let db2 := fst (submitEvaluation
                       (fst (submitEvaluation Sample.judging req)) req) in
     evaluationsFor db2 "sub-1" "eval-1" = []
     /\ List.length (evaluationsFor db2 "sub-1" "eval-1") <> 1
     /\ List.length (evaluationScores db2) <> List.length Sample.scoreUnknown.
Proof.
  split; [exact consistent_judging|].
  vm_compute. split; [reflexivity|]. split; discriminate.
Qed.

(** C10.  Every submitted pair becomes a row of the batch that the
    transaction inserts, whether or not its criterion id was matched when
    the total was computed.  A call with a user, a submission and a score
    set of known, pairwise distinct criteria succeeds and leaves, for the
    one evaluation of the pair, exactly the submitted pairs as rows, one
    for one; after any successful call the rows of the evaluation are the
    submitted pairs; and a call whose score set holds a criterion id the
    store does not know, or the same criterion id twice, fails and leaves
    the store as it was. *)
Theorem unknown_or_repeated_criterion_fails :
  forall db req scores,
    EvaluationRequest.scores req = Some scores ->
    (consistent db ->
     forall uid sid,
       EvaluationRequest.user req = Some uid ->
       EvaluationRequest.submissionId req = Some sid ->
       sid <> "" ->
       evaluationsFor db sid uid <> [] \/ In sid (submissions db) ->
       Forall (fun s => Scoring.known (evaluationCriteria db) s = true)
              scores ->
       NoDup (map criteriaId scores) ->
       exists ev,
         snd (submitEvaluation db req)
         = Success (EvaluationData ev) submitted OK
         /\ evaluationsFor (fst (submitEvaluation db req)) sid uid = [ev]
         /\ scoresOf (fst (submitEvaluation db req)) (Evaluation.id ev)
            = scoreRows (Evaluation.id ev) scores
         /\ List.length (scoresOf (fst (submitEvaluation db req))
                                  (Evaluation.id ev))
            = List.length scores)
    /\ (consistent db ->
        forall ev,
          snd (submitEvaluation db req)
          = Success (EvaluationData ev) submitted OK ->
          scoresOf (fst (submitEvaluation db req)) (Evaluation.id ev)
          = scoreRows (Evaluation.id ev) scores)
    /\ ((exists s, In s scores
                   /\ Scoring.known (evaluationCriteria db) s = false)
        \/ ~ NoDup (map criteriaId scores) ->
        isSuccess (snd (submitEvaluation db req)) = false
        /\ fst (submitEvaluation db req) = db).
Proof.
  intros db req scores Hsc. split; [|split].
  - intros Hc uid sid Hu Hsid Hne Hex Hk Hnd.
    assert (Hs : isSuccess (snd (submitEvaluation db req)) = true).
    { unfold submitEvaluation, transaction. rewrite Hu, Hsid, Hsc.
      apply String.eqb_neq in Hne. rewrite Hne.
      destruct (find (sameKey sid uid) (evaluations db)) as [old|] eqn:Hfind.
      - destruct (find_sameKey_in _ _ _ _ Hfind) as [Hin Hkey].
        rewrite (evaluationTx_resubmit sid uid _ _ scores db old
                   Hc Hin Hkey Hk Hnd).
        reflexivity.
      - destruct Hex as [Hex|Hsub].
        + apply find_sameKey_evaluationsFor in Hfind. contradiction.
        + rewrite (evaluationTx_first sid uid _ _ scores db
                     Hc Hfind Hsub Hk Hnd).
          reflexivity. }
    destruct (submitEvaluation_success db req Hs)
      as [uid' [sid' [scores' [ev [db' [Hu' [Hsid' [Hsc' [Htx Heq]]]]]]]]].
    rewrite Hu in Hu'. rewrite Hsid in Hsid'. rewrite Hsc in Hsc'.
    injection Hu' as <-. injection Hsid' as <-. injection Hsc' as <-.
    destruct (evaluationTx_post _ _ _ _ _ _ _ _ Hc Htx)
      as [Hc' [Hin [Hkey [_ [_ [_ [_ [_ Hrows]]]]]]]].
    exists ev. rewrite Heq. simpl.
    split; [reflexivity|]. split; [|split].
    + exact (filter_sameKey_unique sid uid _ ev (keys_nodup db' Hc') Hin Hkey).
    + exact Hrows.
    + rewrite Hrows. apply scoreRows_length.
  - intros Hc ev Hok.
    assert (Hs : isSuccess (snd (submitEvaluation db req)) = true)
      by (rewrite Hok; reflexivity).
    destruct (submitEvaluation_success db req Hs)
      as [uid [sid [scores' [ev' [db' [_ [_ [Hsc' [Htx Heq]]]]]]]]].
    rewrite Hsc in Hsc'. injection Hsc' as <-.
    rewrite Heq in Hok |- *. simpl in Hok |- *. injection Hok as <-.
    exact (proj2 (proj2 (proj2 (proj2 (proj2 (proj2 (proj2 (proj2
             (evaluationTx_post _ _ _ _ _ _ _ _ Hc Htx))))))))).
  - intros Hbad.
    assert (Hfail : isSuccess (snd (submitEvaluation db req)) = false).
    { destruct (isSuccess (snd (submitEvaluation db req))) eqn:Hs;
        [|reflexivity].
      exfalso.
      destruct (submitEvaluation_success db req Hs)
        as [uid [sid [scores' [ev [db' [_ [_ [Hsc' [Htx _]]]]]]]]].
      rewrite Hsc in Hsc'. injection Hsc' as <-.
      destruct (evaluationTx_rows_ok _ _ _ _ _ _ _ _ Htx) as [Hk Hnd].
      destruct Hbad as [[s [Hin Hs']]|Hdup]; [|contradiction].
      rewrite Forall_forall in Hk. rewrite (Hk s Hin) in Hs'. discriminate. }
    split; [exact Hfail|]. apply submitEvaluation_failure. exact Hfail.
Qed.

Lemma unknown_or_repeated_criterion_fails_witness :
  (exists ev,
     snd (submitEvaluation Sample.judging (Sample.evaluate Sample.score8070))
     = Success (EvaluationData ev) submitted OK
     /\ evaluationsFor
          (fst (submitEvaluation Sample.judging
                                 (Sample.evaluate Sample.score8070)))
          "sub-1" "eval-1" = [ev]
     /\ scoresOf
          (fst (submitEvaluation Sample.judging
                                 (Sample.evaluate Sample.score8070)))
          (Evaluation.id ev)
        = [EvaluationScore.mk (Evaluation.id ev) "A" (numberOfZ 80);
           EvaluationScore.mk (Evaluation.id ev) "B" (numberOfZ 70)])
  /\ (isSuccess (snd (submitEvaluation Sample.judging
                                       (Sample.evaluate Sample.scoreUnknown)))
      = false
      /\ fst (submitEvaluation Sample.judging
                               (Sample.evaluate Sample.scoreUnknown))
         = Sample.judging)
  /\ (isSuccess (snd (submitEvaluation Sample.judging
                                       (Sample.evaluate Sample.scoreTwice)))
      = false
      /\ fst (submitEvaluation Sample.judging
                               (Sample.evaluate Sample.scoreTwice))
         = Sample.judging).
Proof.
  split; [|split].
  - destruct (proj1 (unknown_or_repeated_criterion_fails
                       Sample.judging (Sample.evaluate Sample.score8070)
                       Sample.score8070 eq_refl)
                    consistent_judging "eval-1" "sub-1" eq_refl eq_refl)
      as [ev [H1 [H2 [H3 _]]]].
    + discriminate.
    + right. left. reflexivity.
    + repeat constructor.
    + repeat constructor; simpl; intuition discriminate.
    + exists ev. split; [exact H1|]. split; [exact H2|exact H3].
  - apply (proj2 (proj2 (unknown_or_repeated_criterion_fails
                    Sample.judging (Sample.evaluate Sample.scoreUnknown)
                    Sample.scoreUnknown eq_refl))).
    left. exists (mkScore "gone" (numberOfZ 70)).
    split; [right; left; reflexivity|reflexivity].
  - apply (proj2 (proj2 (unknown_or_repeated_criterion_fails
                    Sample.judging (Sample.evaluate Sample.scoreTwice)
                    Sample.scoreTwice eq_refl))).
    right. intros Hnd. inversion Hnd as [|x l Hnot _]. apply Hnot.
    left. reflexivity.
Defined.

(** ** Eligibility *)

(** C4 (as the code has it).  The primary handler checks the size of the
    roster first; it then walks the members in roster order and rejects at
    the first one that is a leader without IEEE membership and number, or
    a school student without a school standard; only a roster that
    survives the walk has its number of leaders, then of school students,
    then of women checked.  So a roster of six with exactly one leader,
    who lacks IEEE membership or number, is rejected with the
    leader-not-IEEE-member error when no school student without a standard
    stands ahead of the leader in the roster, and with the
    school-student-fields error when one does. *)
Theorem roster_checks_in_code_order :
  forall ms,
    validateRoster ms = scanThenCount ms
    /\ (forall pre ld post,
          ms = pre ++ ld :: post ->
          List.length ms = 6 ->
          countIf isLeader ms = 1 ->
          isLeader ld = true ->
          lacksIeee ld = true ->
          ((forall m, In m pre -> isSchoolStudent m = true ->
                      lacksStandard m = false) ->
           validateRoster ms = Some LEADER_NOT_IEEE_MEMBER)
          /\ ((exists m, In m pre /\ isSchoolStudent m = true
                         /\ lacksStandard m = true) ->
              validateRoster ms = Some SCHOOL_STUDENT_MISSING_FIELDS)).
Proof.
  intros ms. split; [apply validateRoster_scanThenCount|].
  intros pre ld post -> Hlen Hone Hld Hlacks.
  assert (Hpre : forall m, In m pre -> isLeader m = false).
  { apply countIf_zero. rewrite countIf_app, countIf_cons, Hld in Hone.
    simpl in Hone. lia. }
  rewrite validateRoster_scanThenCount. unfold scanThenCount.
  rewrite Hlen. simpl. split.
  - intros Hstd. rewrite firstViolation_app_clean.
    + simpl. unfold memberViolation. rewrite Hld, Hlacks. reflexivity.
    + intros m Hm. apply memberViolation_none. split.
      * intros Hl. rewrite (Hpre m Hm) in Hl. discriminate.
      * apply Hstd. exact Hm.
  - intros Hex. rewrite (firstViolation_school pre (ld :: post) Hpre Hex).
    reflexivity.
Qed.

Lemma roster_checks_in_code_order_witness :
  validateRoster Sample.rosterLeaderFirst = Some LEADER_NOT_IEEE_MEMBER
  /\ validateRoster Sample.rosterPupilFirst
     = Some SCHOOL_STUDENT_MISSING_FIELDS.
Proof.
  split.
  - apply (proj2 (roster_checks_in_code_order Sample.rosterLeaderFirst)
                 [] Sample.leaderNoNumber
                 [Sample.pupilNoStandard; Sample.member "kiran";
                  Sample.member "dev"; Sample.member "omar";
                  Sample.member "jay"]
                 eq_refl eq_refl eq_refl eq_refl eq_refl).
    intros m [].
  - apply (proj2 (roster_checks_in_code_order Sample.rosterPupilFirst)
                 [Sample.pupilNoStandard] Sample.leaderNoNumber
                 [Sample.member "kiran"; Sample.member "dev";
                  Sample.member "omar"; Sample.member "jay"]
                 eq_refl eq_refl eq_refl eq_refl eq_refl).
    exists Sample.pupilNoStandard.
    split; [left; reflexivity|split; reflexivity].
Defined.

(** C4 (as stated) fails: in a roster of six whose only leader has no
    IEEE number, a school student without a standard placed ahead of the
    leader gets the school-student-fields error reported, where the rules
    taken in the stated order report the leader. *)
Lemma roster_checks_not_in_spec_order :
  List.length Sample.rosterPupilFirst = 6
  /\ countIf isLeader Sample.rosterPupilFirst = 1
  /\ countIf (fun m => isLeader m && lacksIeee m) Sample.rosterPupilFirst = 1
  /\ rulesInSpecOrder Sample.rosterPupilFirst = Some LEADER_NOT_IEEE_MEMBER
  /\ validateRoster Sample.rosterPupilFirst
     = Some SCHOOL_STUDENT_MISSING_FIELDS
  /\ validateRoster Sample.rosterPupilFirst
     <> rulesInSpecOrder Sample.rosterPupilFirst.
Proof.
  repeat split; try reflexivity. vm_compute. discriminate.
Qed.

(** C7 (as the code has it).  On a roster of six that satisfies every
    other rule, the primary handler accepts one school student or more,
    and rejects a roster without a school student with its
    school-student-count error; the file-upload variant, given the
    document of every school student, accepts exactly one school student
    and rejects a roster with none or with two or more with its own
    school-student-count error. *)
Theorem school_student_count_policies :
  forall ms,
    otherRulesHold ms ->
    (1 <= countIf isSchoolStudent ms -> validateRoster ms = None)
    /\ (countIf isSchoolStudent ms = 0 ->
        validateRoster ms = Some SCHOOL_STUDENT_COUNT_INVALID)
    /\ forall urls,
         documentsResolved urls ms ->
         (countIf isSchoolStudent ms = 1 ->
          exists ms', checkRosterUpload (Uploaded urls) ms = inr ms')
         /\ (countIf isSchoolStudent ms <> 1 ->
             checkRosterUpload (Uploaded urls) ms
             = inl (Failure "Team must have exactly one School Student"
                            BAD_REQUEST)).
Proof.
  intros ms Hok. pose proof (otherRulesHold_clean ms Hok) as Hclean.
  destruct Hok as [Hlen [Hone [_ [_ Hfem]]]].
  split; [|split].
  - intros Hss. rewrite validateRoster_scanThenCount. unfold scanThenCount.
    rewrite Hlen, Hclean, Hone. simpl.
    destruct (Nat.eqb_spec (countIf isSchoolStudent ms) 0); [lia|].
    destruct (Nat.eqb_spec (countIf isFemale ms) 0); [lia|reflexivity].
  - intros Hss. rewrite validateRoster_scanThenCount. unfold scanThenCount.
    rewrite Hlen, Hclean, Hone, Hss. reflexivity.
  - intros urls Hdocs. unfold checkRosterUpload. rewrite Hlen. simpl.
    destruct (scanMembersUpload_pass urls ms 0 noCounts Hclean Hdocs)
      as [ms' Hscan].
    rewrite Hscan. simpl. rewrite Hone. simpl. split.
    + intros Hss. rewrite Hss. simpl.
      destruct (Nat.eqb_spec (countIf isFemale ms) 0); [lia|].
      exists ms'. reflexivity.
    + intros Hss.
      destruct (Nat.eqb_spec (countIf isSchoolStudent ms) 1); [lia|].
      reflexivity.
Qed.

Lemma otherRulesHold_rosterTwoPupils : otherRulesHold Sample.rosterTwoPupils.
Proof.
  unfold otherRulesHold. split; [reflexivity|]. split; [reflexivity|].
  split; [|split].
  - intros m Hm. simpl in Hm.
    repeat (destruct Hm as [<-|Hm];
            [vm_compute; try reflexivity; discriminate|]).
    destruct Hm.
  - intros m Hm. simpl in Hm.
    repeat (destruct Hm as [<-|Hm];
            [vm_compute; try reflexivity; discriminate|]).
    destruct Hm.
  - vm_compute. lia.
Qed.

Lemma documentsResolved_rosterTwoPupils :
  documentsResolved Sample.pdfs Sample.rosterTwoPupils.
Proof.
  intros i m Hi Hs.
  do 6 (destruct i as [|i];
        [simpl in Hi; injection Hi as <-;
         first [reflexivity | vm_compute in Hs; discriminate Hs]|]).
  destruct i; discriminate Hi.
Qed.

Lemma school_student_count_policies_witness :
  validateRoster Sample.rosterTwoPupils = None
  /\ checkRosterUpload (Uploaded Sample.pdfs) Sample.rosterTwoPupils
     = inl (Failure "Team must have exactly one School Student" BAD_REQUEST).
Proof.
  split.
  - apply (proj1 (school_student_count_policies
                    Sample.rosterTwoPupils otherRulesHold_rosterTwoPupils)).
    vm_compute. lia.
  - apply (proj2 (proj2 (school_student_count_policies
                           Sample.rosterTwoPupils
                           otherRulesHold_rosterTwoPupils))
                 Sample.pdfs documentsResolved_rosterTwoPupils).
    vm_compute. discriminate.
Defined.

(** C7 (as stated) fails: the primary handler accepts a roster of six
    with two school students that satisfies every other rule. *)
Lemma two_school_students_accepted :
  otherRulesHold Sample.rosterTwoPupils
  /\ countIf isSchoolStudent Sample.rosterTwoPupils = 2
  /\ validateRoster Sample.rosterTwoPupils = None
  /\ validateRoster Sample.rosterTwoPupils
     <> Some SCHOOL_STUDENT_COUNT_INVALID.
Proof.
  split; [exact otherRulesHold_rosterTwoPupils|].
  repeat split; try reflexivity. vm_compute. discriminate.
Qed.

(** ** Registration *)

Section RegistrationProperties.

Variable hashPassword : string -> option string.

(** C2.  A registration either answers with the id and name of a new team
    and has added the whole aggregate (the team row, one row for each of
    its six members, the mentor, the representative and the account of
    the leader), or answers with a failure and leaves the store as it
    was.  When the failure comes from inside the transaction, no [Team]
    row carries the requested name afterwards; such is the case when the
    password hash fails, after the team and its roster have been created
    and before the account of the leader is. *)
Theorem registration_all_or_nothing :
  forall db body,
    let name := RegisterTeamInput.teamName body in
    let out := registerTeam hashPassword db body in
    ((exists tid ld h,
        snd out = Success (TeamData tid name) "Team registered successfully"
                          CREATED
        /\ List.length (RegisterTeamInput.members body) = 6
        /\ In ld (RegisterTeamInput.members body)
        /\ isLeader ld = true
        /\ aggregateAdded db (fst out) body tid ld h)
     \/ (isSuccess (snd out) = false /\ fst out = db))
    /\ (validateRoster (RegisterTeamInput.members body) = None ->
        nameHeld db name = false ->
        isSuccess (snd out) = false ->
        teamsNamed (fst out) name = [])
    /\ (validateRoster (RegisterTeamInput.members body) = None ->
        nameHeld db name = false ->
        hashPassword defaultPassword = None ->
        snd out = registrationFailed
        /\ fst out = db
        /\ teamsNamed (fst out) name = []).
Proof.
  intros db body name out. split; [|split].
  - destruct (snd out) as [data msg st|msg st] eqn:Hout.
    + left. destruct data as [tid tname|ev].
      * assert (Heq : registerTeamAt hashPassword db db body
                      = (fst out, Success (TeamData tid tname) msg st)).
        { rewrite <- Hout. unfold out, registerTeam.
          destruct (registerTeamAt hashPassword db db body); reflexivity. }
        destruct (registerTeamAt_success _ _ _ _ _ _ _ _ _ Heq)
          as [Hv [_ [-> [-> [ld [h [_ [Hin [Hld [_ Hdb]]]]]]]]]].
        exists (nextId db), ld, h.
        assert (msg = "Team registered successfully" /\ st = CREATED)
          as [-> ->].
        { unfold out, registerTeam, registerTeamAt, transaction in Hout.
          rewrite Hv in Hout.
          destruct (team_findUnique db _); [discriminate|].
          destruct (registerTx hashPassword body db) as [e|[t d]].
          - unfold caught in Hout. simpl in Hout.
            destruct (hasCode e "P2002"); discriminate.
          - simpl in Hout. unfold registered in Hout.
            injection Hout as _ _ <- <-. split; reflexivity. }
        split; [reflexivity|].
        split; [exact (proj1 (validateRoster_pass _ Hv))|].
        split; [exact Hin|]. split; [exact Hld|].
        rewrite Hdb. apply afterRegister_aggregate.
      * exfalso. unfold out, registerTeam, registerTeamAt, transaction in Hout.
        destruct (validateRoster _) as [v|]; [destruct v; discriminate|].
        destruct (team_findUnique db _); [discriminate|].
        destruct (registerTx hashPassword body db) as [e|[t d]].
        -- unfold caught in Hout. simpl in Hout.
           destruct (hasCode e "P2002"); discriminate.
        -- discriminate.
    + right. split; [reflexivity|].
      apply registerTeamAt_failure. fold (registerTeam hashPassword db body).
      fold out. rewrite Hout. reflexivity.
  - intros _ Hfree Hfail.
    unfold out, registerTeam.
    rewrite (registerTeamAt_failure hashPassword db db body Hfail).
    apply teamsNamed_nameHeld. exact Hfree.
  - intros Hv Hfree Hhash.
    assert (Hout : out = (db, registrationFailed)).
    { unfold out, registerTeam, registerTeamAt, transaction. rewrite Hv.
      unfold name in *.
      rewrite (proj2 (team_findUnique_nameHeld db _) Hfree).
      pose proof (registerTx_spec hashPassword body db) as Hspec.
      simpl in Hspec.
      destruct (registerTx hashPassword body db) as [e|[t d]].
      - destruct Hspec as [[Hheld _]|[_ [ld [_ [[_ ->]|[h [Hh _]]]]]]].
        + congruence.
        + reflexivity.
        + congruence.
      - destruct Hspec as [_ [_ Hld]].
        destruct (validateRoster_pass _ Hv) as [_ [_ [Hone _]]].
        destruct (findLeader_some (RegisterTeamInput.members body))
          as [ld [Hf _]]; [lia|].
        rewrite Hf in Hld. destruct Hld as [h [Hh _]]. congruence. }
    rewrite Hout. simpl. repeat split.
    apply teamsNamed_nameHeld. exact Hfree.
Qed.


(** C8.  After a successful registration the [User] table has grown by
    exactly one row: the account of the one roster member tagged leader,
    with that member's name and email, the hash of the default password,
    the role participant and the id of the new team. *)
Theorem leader_account_created :
  forall dbCheck dbTx body db' tid tname,
    registerTeamAt hashPassword dbCheck dbTx body
    = (db', Success (TeamData tid tname) "Team registered successfully"
                    CREATED) ->
    exists ld h uid,
      In ld (RegisterTeamInput.members body)
      /\ isLeader ld = true
      /\ countIf isLeader (RegisterTeamInput.members body) = 1
      /\ hashPassword "qwert123" = Some h
      /\ users db'
         = users dbTx
           ++ [User.mk uid (TeamMemberInput.fullName ld)
                       (TeamMemberInput.email ld) h participant (Some tid)]
      /\ In (Team.mk tid (RegisterTeamInput.teamName body)
                     (RegisterTeamInput.theme body)) (teams db').
Proof.
  intros dbCheck dbTx body db' tid tname Heq.
  destruct (registerTeamAt_success _ _ _ _ _ _ _ _ _ Heq)
    as [Hv [_ [-> [-> [ld [h [_ [Hin [Hld [Hh ->]]]]]]]]]].
  exists ld, h, (S (nextId dbTx)).
  split; [exact Hin|]. split; [exact Hld|].
  split; [exact (proj1 (proj2 (proj2 (validateRoster_pass _ Hv))))|].
  split; [exact Hh|]. split; [reflexivity|].
  simpl. apply in_or_app. right. left. reflexivity.
Qed.

End RegistrationProperties.

Section IeeeFlag.

Variable hashPassword : string -> option string.

(** C9.  The member rows that the primary handler persists carry the
    IEEE-membership flag exactly for the members whose [isIeeeMember] was
    submitted as the string "Yes".  A leader whose [isIeeeMember] was
    submitted as the boolean [true] has passed the eligibility checks and
    is persisted with the flag [false]. *)
Theorem ieee_flag_only_for_yes :
  forall dbCheck dbTx body db' tid tname,
    registerTeamAt hashPassword dbCheck dbTx body
    = (db', Success (TeamData tid tname) "Team registered successfully"
                    CREATED) ->
    teamMembers db'
    = teamMembers dbTx ++ map (memberRow tid) (RegisterTeamInput.members body)
    /\ (forall m,
          In m (RegisterTeamInput.members body) ->
          (TeamMemberRow.isIeeeMember (memberRow tid m) = true
           <-> TeamMemberInput.isIeeeMember m = JsString "Yes"))
    /\ (forall m,
          In m (RegisterTeamInput.members body) ->
          isLeader m = true ->
          TeamMemberInput.isIeeeMember m = JsBool true ->
          lacksIeee m = false
          /\ TeamMemberRow.isIeeeMember (memberRow tid m) = false).
Proof.
  intros dbCheck dbTx body db' tid tname Heq.
  destruct (registerTeamAt_success _ _ _ _ _ _ _ _ _ Heq)
    as [Hv [_ [-> [-> [ld [h [_ [_ [_ [_ ->]]]]]]]]]].
  split; [reflexivity|]. split.
  - intros m _. simpl. unfold isYes.
    destruct (TeamMemberInput.isIeeeMember m) as [| |b|n|s];
      try (split; discriminate).
    rewrite String.eqb_eq. split; [intros ->; reflexivity|].
    intros H. injection H as ->. reflexivity.
  - intros m Hin Hld Hflag. split.
    + destruct (validateRoster_pass _ Hv) as [_ [Hclean _]].
      pose proof (proj1 (firstViolation_none _) Hclean m Hin) as Hm.
      apply memberViolation_none in Hm. apply (proj1 Hm). exact Hld.
    + simpl. rewrite Hflag. reflexivity.
Qed.

End IeeeFlag.

(** ** Registration on sample requests *)

Lemma registration_all_or_nothing_witness :
  snd (registerTeam Sample.hashFails Sample.emptyStore Sample.falcons)
  = registrationFailed
  /\ fst (registerTeam Sample.hashFails Sample.emptyStore Sample.falcons)
     = Sample.emptyStore
  /\ teamsNamed
       (fst (registerTeam Sample.hashFails Sample.emptyStore Sample.falcons))
       "Falcons" = [].
Proof.
  exact (proj2 (proj2 (registration_all_or_nothing
                         Sample.hashFails Sample.emptyStore Sample.falcons))
               eq_refl eq_refl eq_refl).
Defined.



Lemma leader_account_created_witness :
  exists ld h uid,
    In ld Sample.roster
    /\ isLeader ld = true
    /\ countIf isLeader Sample.roster = 1
    /\ Sample.hashOk "qwert123" = Some h
    /\ users (fst (registerTeam Sample.hashOk Sample.emptyStore Sample.falcons))
       = [User.mk uid (TeamMemberInput.fullName ld) (TeamMemberInput.email ld)
                  h participant (Some 0)]
    /\ In (Team.mk 0 "Falcons" "Health")
          (teams (fst (registerTeam Sample.hashOk Sample.emptyStore
                                    Sample.falcons))).
Proof.
  exact (leader_account_created Sample.hashOk Sample.emptyStore
           Sample.emptyStore Sample.falcons
           (fst (registerTeam Sample.hashOk Sample.emptyStore Sample.falcons))
           0 "Falcons" eq_refl).
Defined.

Lemma ieee_flag_only_for_yes_witness :
  lacksIeee Sample.leaderTrue = false
  /\ TeamMemberRow.isIeeeMember (memberRow 0 Sample.leaderTrue) = false.
Proof.
  exact (proj2 (proj2 (ieee_flag_only_for_yes Sample.hashOk Sample.emptyStore
                         Sample.emptyStore
                         (Sample.team "Falcons" Sample.rosterLeaderTrue)
                         (fst (registerTeam Sample.hashOk Sample.emptyStore
                                 (Sample.team "Falcons" Sample.rosterLeaderTrue)))
                         0 "Falcons" eq_refl))
               Sample.leaderTrue (or_introl eq_refl) eq_refl eq_refl).
Defined.

(** * Further properties of the code *)

(** ** More on [submitEvaluation] *)

(** X4.  On consistent tables, [submitEvaluation] succeeds exactly when
    the request carries a user, a non-empty submission id and a score
    array, the pair already has its evaluation or the submission exists,
    every criterion id is known and none occurs twice. *)
Theorem submitEvaluation_succeeds_iff :
  forall db req,
    consistent db ->
    (isSuccess (snd (submitEvaluation db req)) = true
     <-> exists uid sid scores,
           EvaluationRequest.user req = Some uid
           /\ EvaluationRequest.submissionId req = Some sid
           /\ sid <> ""
           /\ EvaluationRequest.scores req = Some scores
           /\ (evaluationsFor db sid uid <> [] \/ In sid (submissions db))
           /\ Forall (fun s => Scoring.known (evaluationCriteria db) s = true)
                     scores
           /\ NoDup (map criteriaId scores)).
Proof.
  intros db req Hc. split.
  - intros Hs.
    destruct (submitEvaluation_success db req Hs)
      as [uid [sid [scores [ev [db' [Hu [Hsid [Hsc [Htx Heq]]]]]]]]].
    exists uid, sid, scores.
    destruct (evaluationTx_rows_ok _ _ _ _ _ _ _ _ Htx) as [Hk Hnd].
    repeat split; try assumption.
    + intros ->. unfold submitEvaluation in Heq.
      rewrite Hu, Hsid, Hsc in Heq. simpl in Heq. discriminate.
    + destruct (find (sameKey sid uid) (evaluations db)) as [old|] eqn:Hfind.
      * left. intros Hnil. apply find_sameKey_evaluationsFor in Hnil.
        congruence.
      * right.
        pose proof (evaluationTx_create sid uid
                      (Scoring.computeTotalScore js (evaluationCriteria db) scores)
                      (EvaluationRequest.comments req) scores db Hfind) as H.
        simpl in H. rewrite Htx in H. destruct H as [_ [Hsub _]].
        apply existsb_eqb_In. exact Hsub.
  - intros [uid [sid [scores [Hu [Hsid [Hne [Hsc [Hex [Hk Hnd]]]]]]]]].
    unfold submitEvaluation, transaction. rewrite Hu, Hsid, Hsc.
    apply String.eqb_neq in Hne. rewrite Hne.
    destruct (find (sameKey sid uid) (evaluations db)) as [old|] eqn:Hfind.
    + destruct (find_sameKey_in _ _ _ _ Hfind) as [Hin Hkey].
      rewrite (evaluationTx_resubmit sid uid _ _ scores db old
                 Hc Hin Hkey Hk Hnd).
      reflexivity.
    + destruct Hex as [Hex|Hsub].
      * apply find_sameKey_evaluationsFor in Hfind. contradiction.
      * rewrite (evaluationTx_first sid uid _ _ scores db Hc Hfind Hsub Hk Hnd).
        reflexivity.
Qed.

Lemma submitEvaluation_succeeds_iff_witness :
  isSuccess (snd (submitEvaluation Sample.judging
                                   (Sample.evaluate Sample.score8070))) = true
  <-> exists uid sid scores,
        EvaluationRequest.user (Sample.evaluate Sample.score8070) = Some uid
        /\ EvaluationRequest.submissionId (Sample.evaluate Sample.score8070)
           = Some sid
        /\ sid <> ""
        /\ EvaluationRequest.scores (Sample.evaluate Sample.score8070)
           = Some scores
        /\ (evaluationsFor Sample.judging sid uid <> []
            \/ In sid (submissions Sample.judging))
        /\ Forall (fun s =>
                     Scoring.known (evaluationCriteria Sample.judging) s = true)
                  scores
        /\ NoDup (map criteriaId scores).
Proof.
  exact (submitEvaluation_succeeds_iff Sample.judging
           (Sample.evaluate Sample.score8070) consistent_judging).
Defined.


(** What a successful call leaves, read off the store. *)
Lemma submitEvaluation_post db req uid sid scores :
  consistent db ->
  EvaluationRequest.user req = Some uid ->
  EvaluationRequest.submissionId req = Some sid ->
  EvaluationRequest.scores req = Some scores ->
  isSuccess (snd (submitEvaluation db req)) = true ->
  exists ev,
    submitEvaluation db req
    = (fst (submitEvaluation db req), Success (EvaluationData ev) submitted OK)
    /\ consistent (fst (submitEvaluation db req))
    /\ In ev (evaluations (fst (submitEvaluation db req)))
    /\ evalKey ev = (sid, uid)
    /\ evaluationCriteria (fst (submitEvaluation db req))
       = evaluationCriteria db
    /\ (sid =? "") = false.
Proof.
  intros Hc Hu Hsid Hsc Hs.
  destruct (submitEvaluation_success db req Hs)
    as [uid' [sid' [scores' [ev [d1 [Hu' [Hsid' [Hsc' [Htx Heq]]]]]]]]].
  rewrite Hu in Hu'. rewrite Hsid in Hsid'. rewrite Hsc in Hsc'.
  injection Hu' as <-. injection Hsid' as <-. injection Hsc' as <-.
  destruct (evaluationTx_post _ _ _ _ _ _ _ _ Hc Htx)
    as [Hc1 [Hin [Hkey [_ [_ [Hcrit _]]]]]].
  exists ev. rewrite Heq. simpl.
  split; [reflexivity|]. split; [exact Hc1|]. split; [exact Hin|].
  split; [exact Hkey|]. split; [exact Hcrit|].
  unfold submitEvaluation in Heq. rewrite Hu, Hsid, Hsc in Heq.
  destruct (sid =? ""); [discriminate Heq|reflexivity].
Qed.

(** X5.  The latest call wins: after a successful call, a second call by
    the same evaluator for the same submission with any other score set of
    known, pairwise distinct criteria succeeds, keeps the id of the
    evaluation, stores the new total, and leaves exactly the new score
    rows for it; a second call without comments keeps the comments of the
    first. *)
Theorem resubmission_latest_wins :
  forall db uid sid scores1 comments1 scores2 comments2,
    let req1 := EvaluationRequest.mk (Some uid) (Some sid) (Some scores1)
                                     comments1 in
    let req2 := EvaluationRequest.mk (Some uid) (Some sid) (Some scores2)
                                     comments2 in
    let db1 := fst (submitEvaluation db req1) in
    let db2 := fst (submitEvaluation db1 req2) in
    consistent db ->
    isSuccess (snd (submitEvaluation db req1)) = true ->
    Forall (fun s => Scoring.known (evaluationCriteria db) s = true) scores2 ->
    NoDup (map criteriaId scores2) ->
    exists ev1 ev2,
      snd (submitEvaluation db req1) = Success (EvaluationData ev1) submitted OK
      /\ snd (submitEvaluation db1 req2)
         = Success (EvaluationData ev2) submitted OK
      /\ Evaluation.id ev2 = Evaluation.id ev1
      /\ evaluationsFor db2 sid uid = [ev2]
      /\ Evaluation.totalScore ev2
         = Scoring.computeTotalScore js (evaluationCriteria db) scores2
      /\ Evaluation.comments ev2
         = match comments2 with
           | Some c => Some c
           | None => Evaluation.comments ev1
           end
      /\ scoresOf db2 (Evaluation.id ev2) = scoreRows (Evaluation.id ev2) scores2.
Proof.
  intros db uid sid scores1 comments1 scores2 comments2 req1 req2 db1 db2
         Hc Hs Hk Hnd.
  destruct (submitEvaluation_post db req1 uid sid scores1 Hc
              eq_refl eq_refl eq_refl Hs)
    as [ev1 [Heq1 [Hc1 [Hin [Hkey [Hcrit Hne]]]]]].
  fold db1 in Heq1, Hc1, Hin, Hcrit.
  rewrite <- Hcrit in Hk.
  pose proof (evaluationTx_resubmit sid uid
                (Scoring.computeTotalScore js (evaluationCriteria db1) scores2)
                comments2 scores2 db1 ev1 Hc1 Hin Hkey Hk Hnd) as Htx2.
  set (total2 := Scoring.computeTotalScore js (evaluationCriteria db1) scores2)
    in *.
  assert (Hcall2 : submitEvaluation db1 req2
                   = (afterUpdate db1 (Evaluation.id ev1) total2 comments2
                                  scores2,
                      Success (EvaluationData (updated total2 comments2 ev1))
                              submitted OK)).
  { unfold submitEvaluation, transaction. simpl. rewrite Hne.
    fold total2. rewrite Htx2. reflexivity. }
  exists ev1, (updated total2 comments2 ev1).
  split; [rewrite Heq1; reflexivity|].
  split; [rewrite Hcall2; reflexivity|].
  split; [reflexivity|].
  split.
  { unfold db2. rewrite Hcall2. unfold evaluationsFor. simpl.
    apply filter_sameKey_unique.
    - rewrite updateAll_keys. exact (keys_nodup db1 Hc1).
    - unfold updateAll. apply in_map_iff. exists ev1.
      rewrite Nat.eqb_refl. split; [reflexivity|exact Hin].
    - exact Hkey. }
  split; [unfold total2; rewrite Hcrit; reflexivity|].
  split; [reflexivity|].
  unfold db2. rewrite Hcall2. unfold scoresOf. simpl.
  rewrite filter_app, filter_removeScoresOf. simpl.
  apply filter_scoreRows_same.
Qed.

Lemma resubmission_latest_wins_witness :
  exists ev1 ev2,
    snd (submitEvaluation Sample.judging (Sample.evaluate Sample.score8070))
    = Success (EvaluationData ev1) submitted OK
    /\ snd (submitEvaluation
              (fst (submitEvaluation Sample.judging
                                     (Sample.evaluate Sample.score8070)))
              (EvaluationRequest.mk (Some "eval-1") (Some "sub-1")
                                    (Some Sample.score6090) None))
       = Success (EvaluationData ev2) submitted OK
    /\ Evaluation.id ev2 = Evaluation.id ev1
    /\ Evaluation.totalScore ev2
       = Scoring.computeTotalScore js [Sample.criterionA; Sample.criterionB]
                                   Sample.score6090
    /\ Evaluation.comments ev2 = Evaluation.comments ev1
    /\ scoresOf
         (fst (submitEvaluation
                 (fst (submitEvaluation Sample.judging
                                        (Sample.evaluate Sample.score8070)))
                 (EvaluationRequest.mk (Some "eval-1") (Some "sub-1")
                                       (Some Sample.score6090) None)))
         (Evaluation.id ev2)
       = [EvaluationScore.mk (Evaluation.id ev2) "B" (numberOfZ 90);
          EvaluationScore.mk (Evaluation.id ev2) "A" (numberOfZ 60)].
Proof.
  destruct (resubmission_latest_wins Sample.judging "eval-1" "sub-1"
              Sample.score8070 (Some "solid work") Sample.score6090 None
              consistent_judging eq_refl)
    as [ev1 [ev2 [H1 [H2 [H3 [_ [H5 [H6 H7]]]]]]]].
  - repeat constructor.
  - repeat constructor; simpl; intuition discriminate.
  - exists ev1, ev2. repeat split; assumption.
Defined.

Lemma filter_updateAll_other sid' uid' i total cm es :
  (forall e, In e es -> evalKey e = (sid', uid') -> Evaluation.id e <> i) ->
  filter (sameKey sid' uid') (updateAll i total cm es)
  = filter (sameKey sid' uid') es.
Proof.
  unfold updateAll. induction es as [|e es IH]; intros H; [reflexivity|].
  simpl.
  assert (IH' : filter (sameKey sid' uid')
                  (map (fun e' => if (Evaluation.id e' =? i)%nat
                                  then updated total cm e' else e') es)
                = filter (sameKey sid' uid') es).
  { apply IH. intros x Hx. apply H. right. exact Hx. }
  destruct (Nat.eqb_spec (Evaluation.id e) i) as [Hid|Hid].
  - change (sameKey sid' uid' (updated total cm e))
      with (sameKey sid' uid' e).
    destruct (sameKey sid' uid' e) eqn:Hke.
    + exfalso. apply sameKey_evalKey in Hke.
      exact (H e (or_introl eq_refl) Hke Hid).
    + exact IH'.
  - destruct (sameKey sid' uid' e); [f_equal|]; exact IH'.
Qed.

Lemma filter_scoreRows_other i j scores :
  i <> j ->
  filter (fun r => (EvaluationScore.evaluationId r =? j)%nat)
         (scoreRows i scores) = [].
Proof.
  intros Hij. induction scores as [|s l IH]; [reflexivity|]. simpl.
  destruct (Nat.eqb_spec i j); [contradiction|]. exact IH.
Qed.

Lemma filter_removeScoresOf_other i j rs :
  i <> j ->
  filter (fun r => (EvaluationScore.evaluationId r =? j)%nat)
         (removeScoresOf i rs)
  = filter (fun r => (EvaluationScore.evaluationId r =? j)%nat) rs.
Proof.
  intros Hij. unfold removeScoresOf.
  induction rs as [|r rs IH]; [reflexivity|]. simpl.
  destruct (Nat.eqb_spec (EvaluationScore.evaluationId r) i) as [Hr|Hr]; simpl.
  - destruct (Nat.eqb_spec (EvaluationScore.evaluationId r) j); [lia|].
    exact IH.
  - destruct (_ =? j)%nat; [f_equal|]; exact IH.
Qed.

Lemma submitEvaluation_others :
  forall db req uid sid sid' uid',
    consistent db ->
    EvaluationRequest.user req = Some uid ->
    EvaluationRequest.submissionId req = Some sid ->
    (sid', uid') <> (sid, uid) ->
    let db' := fst (submitEvaluation db req) in
    evaluationsFor db' sid' uid' = evaluationsFor db sid' uid'
    /\ forall e, In e (evaluationsFor db sid' uid') ->
                 scoresOf db' (Evaluation.id e) = scoresOf db (Evaluation.id e).
Proof.
  intros db req uid sid sid' uid' Hc Hu Hsid Hother db'.
  destruct (isSuccess (snd (submitEvaluation db req))) eqn:Hs.
  2:{ unfold db'. rewrite (submitEvaluation_failure db req Hs).
      split; [reflexivity|intros; reflexivity]. }
  destruct (submitEvaluation_success db req Hs)
    as [uid0 [sid0 [scores [ev [d1 [Hu' [Hsid' [Hsc [Htx Heq]]]]]]]]].
  rewrite Hu in Hu'. rewrite Hsid in Hsid'.
  injection Hu' as <-. injection Hsid' as <-.
  assert (Hd : db' = d1) by (unfold db'; rewrite Heq; reflexivity).
  rewrite Hd. clear Hd db'.
  set (total := Scoring.computeTotalScore js (evaluationCriteria db) scores)
    in *.
  set (cm := EvaluationRequest.comments req) in *.
  assert (Hkey' : forall e, In e (evaluationsFor db sid' uid') ->
                            In e (evaluations db) /\ evalKey e = (sid', uid')).
  { intros e He. unfold evaluationsFor in He. apply filter_In in He.
    destruct He as [He1 He2]. split; [exact He1|].
    apply sameKey_evalKey. exact He2. }
  destruct (find (sameKey sid uid) (evaluations db)) as [old|] eqn:Hfind.
  - destruct (find_sameKey_in _ _ _ _ Hfind) as [Hin Hkey].
    pose proof (firstWithId_unique old _ (ids_nodup db Hc) Hin) as Hfirst.
    pose proof (evaluationTx_update sid uid total cm scores db old old
                  Hfind Hfirst) as H.
    simpl in H. rewrite Htx in H. destruct H as [_ [_ ->]].
    assert (Hdiff : forall e, In e (evaluations db) ->
                              evalKey e = (sid', uid') ->
                              Evaluation.id e <> Evaluation.id old).
    { intros e He Hke Hid.
      pose proof (firstWithId_unique e _ (ids_nodup db Hc) He) as H1.
      rewrite Hid, Hfirst in H1. injection H1 as ->. congruence. }
    split.
    + unfold evaluationsFor. simpl.
      apply filter_updateAll_other. exact Hdiff.
    + intros e He. destruct (Hkey' e He) as [Hine Hke].
      specialize (Hdiff e Hine Hke).
      unfold scoresOf. simpl. rewrite filter_app.
      rewrite filter_scoreRows_other by congruence.
      rewrite app_nil_r. apply filter_removeScoresOf_other. congruence.
  - pose proof (evaluationTx_create sid uid total cm scores db Hfind) as H.
    simpl in H. rewrite Htx in H. destruct H as [_ [_ [_ ->]]].
    split.
    + unfold evaluationsFor. simpl. rewrite filter_app. simpl.
      assert (Hk : sameKey sid' uid'
                     (Evaluation.mk (nextId db) sid uid total cm) = false).
      { destruct (sameKey sid' uid' _) eqn:Hk; [|reflexivity].
        apply sameKey_evalKey in Hk. unfold evalKey in Hk. simpl in Hk.
        congruence. }
      rewrite Hk. apply app_nil_r.
    + intros e He. destruct (Hkey' e He) as [Hine _].
      pose proof (ids_below db Hc) as Hb. rewrite Forall_forall in Hb.
      specialize (Hb e Hine).
      unfold scoresOf. simpl. rewrite filter_app.
      rewrite filter_scoreRows_other by lia. apply app_nil_r.
Qed.

(** X6.  A call does not touch the evaluation of any other (submission,
    evaluator) pair: its row and its score rows are after the call what
    they were before, whether the call succeeds or fails. *)
Theorem other_evaluations_untouched :
  forall db req uid sid sid' uid',
    consistent db ->
    EvaluationRequest.user req = Some uid ->
    EvaluationRequest.submissionId req = Some sid ->
    (sid', uid') <> (sid, uid) ->
    let db' := fst (submitEvaluation db req) in
    evaluationsFor db' sid' uid' = evaluationsFor db sid' uid'
    /\ forall e, In e (evaluationsFor db sid' uid') ->
                 scoresOf db' (Evaluation.id e) = scoresOf db (Evaluation.id e).
Proof. exact submitEvaluation_others. Qed.

Lemma other_evaluations_untouched_witness :
  evaluationsFor
    (fst (submitEvaluation
            (fst (submitEvaluation Sample.judging
                                   (Sample.evaluate Sample.score8070)))
            (EvaluationRequest.mk (Some "eval-2") (Some "sub-1")
                                  (Some Sample.score8070) None)))
    "sub-1" "eval-1"
  = evaluationsFor
      (fst (submitEvaluation Sample.judging (Sample.evaluate Sample.score8070)))
      "sub-1" "eval-1".
Proof.
  refine (proj1 (other_evaluations_untouched
                   (fst (submitEvaluation Sample.judging
                                          (Sample.evaluate Sample.score8070)))
                   (EvaluationRequest.mk (Some "eval-2") (Some "sub-1")
                                         (Some Sample.score8070) None)
                   "eval-2" "sub-1" "sub-1" "eval-1" _ eq_refl eq_refl _)).
  - apply submitEvaluation_consistent. exact consistent_judging.
  - intros H. discriminate H.
Defined.

(** ** The keys of the evaluation tables along the writes of the router *)

Lemma submitEvaluation_store db req :
  consistent db ->
  fst (submitEvaluation db req) = db
  \/ (exists old total cm scores,
        In old (evaluations db)
        /\ insertable (updateAll (Evaluation.id old) total cm (evaluations db))
                      (evaluationCriteria db)
                      (removeScoresOf (Evaluation.id old) (evaluationScores db))
                      (scoreRows (Evaluation.id old) scores) = true
        /\ fst (submitEvaluation db req)
           = afterUpdate db (Evaluation.id old) total cm scores)
  \/ (exists sid uid total cm scores,
        find (sameKey sid uid) (evaluations db) = None
        /\ existsb (String.eqb sid) (submissions db) = true
        /\ insertable
             (evaluations db ++ [Evaluation.mk (nextId db) sid uid total cm])
             (evaluationCriteria db) (evaluationScores db)
             (scoreRows (nextId db) scores) = true
        /\ fst (submitEvaluation db req)
           = afterCreate db (Evaluation.mk (nextId db) sid uid total cm)
                         scores).
Proof.
  intros Hc.
  destruct (isSuccess (snd (submitEvaluation db req))) eqn:Hs.
  2:{ left. apply submitEvaluation_failure. exact Hs. }
  destruct (submitEvaluation_success db req Hs)
    as [uid [sid [scores [ev [d1 [Hu [Hsid [Hsc [Htx Heq]]]]]]]]].
  rewrite Heq. simpl.
  set (total := Scoring.computeTotalScore js (evaluationCriteria db) scores)
    in *.
  set (cm := EvaluationRequest.comments req) in *.
  destruct (find (sameKey sid uid) (evaluations db)) as [old|] eqn:Hfind.
  - right; left.
    destruct (find_sameKey_in _ _ _ _ Hfind) as [Hin Hkey].
    pose proof (firstWithId_unique old _ (ids_nodup db Hc) Hin) as Hfirst.
    pose proof (evaluationTx_update sid uid total cm scores db old old
                  Hfind Hfirst) as H.
    simpl in H. rewrite Htx in H. destruct H as [_ [Hins ->]].
    exists old, total, cm, scores. auto.
  - right; right.
    pose proof (evaluationTx_create sid uid total cm scores db Hfind) as H.
    simpl in H. rewrite Htx in H. destruct H as [_ [Hsub [Hins ->]]].
    exists sid, uid, total, cm, scores. auto.
Qed.

Lemma sameScoreKey_scoreKey r r' :
  sameScoreKey r r' = true <-> scoreKey r = scoreKey r'.
Proof.
  unfold sameScoreKey, scoreKey. rewrite andb_true_iff, Nat.eqb_eq, String.eqb_eq.
  split; [intros [-> ->]; reflexivity|intros H; injection H; auto].
Qed.

Lemma insertable_keys es cs rows : forall existing,
  insertable es cs existing rows = true ->
  NoDup (map scoreKey existing) ->
  NoDup (map scoreKey (existing ++ rows)).
Proof.
  induction rows as [|r rows IH]; intros existing Hins Hnd.
  - rewrite app_nil_r. exact Hnd.
  - simpl in Hins. repeat rewrite andb_true_iff in Hins.
    destruct Hins as [[[_ _] Hfresh] Hrest].
    change (existing ++ r :: rows) with (existing ++ [r] ++ rows).
    rewrite app_assoc. apply IH; [exact Hrest|].
    rewrite map_app. simpl. apply NoDup_snoc; [exact Hnd|].
    intros Hin. apply in_map_iff in Hin. destruct Hin as [r' [Hk Hr']].
    apply negb_true_iff in Hfresh.
    rewrite existsb_false_forall in Hfresh.
    specialize (Hfresh r' Hr').
    assert (sameScoreKey r r' = true)
      by (apply sameScoreKey_scoreKey; symmetry; exact Hk).
    congruence.
Qed.

Lemma insertable_fk es cs rows : forall existing,
  insertable es cs existing rows = true ->
  Forall (fun r => In (EvaluationScore.criteriaId r)
                      (map EvaluationCriteria.id cs)) rows.
Proof.
  induction rows as [|r rows IH]; intros existing Hins; [constructor|].
  simpl in Hins. repeat rewrite andb_true_iff in Hins.
  destruct Hins as [[[_ Hc] _] Hrest].
  constructor; [|exact (IH _ Hrest)].
  apply existsb_exists in Hc. destruct Hc as [c [Hin Heq]].
  apply String.eqb_eq in Heq. rewrite <- Heq. apply in_map. exact Hin.
Qed.

Lemma NoDup_map_filter {A B} (f : A -> B) (p : A -> bool) l :
  NoDup (map f l) -> NoDup (map f (filter p l)).
Proof.
  induction l as [|a l IH]; simpl; intros H; [constructor|].
  inversion H as [|x xs Hnotin Hnd]; subst.
  destruct (p a); simpl; [|exact (IH Hnd)].
  constructor; [|exact (IH Hnd)].
  intros Hin. apply Hnotin. apply in_map_iff in Hin.
  destruct Hin as [y [Hy Hin]]. apply filter_In in Hin.
  apply in_map_iff. exists y. tauto.
Qed.

Lemma keysHold_afterUpdate db old total cm scores :
  keysHold db -> In old (evaluations db) ->
  insertable (updateAll (Evaluation.id old) total cm (evaluations db))
             (evaluationCriteria db)
             (removeScoresOf (Evaluation.id old) (evaluationScores db))
             (scoreRows (Evaluation.id old) scores) = true ->
  keysHold (afterUpdate db (Evaluation.id old) total cm scores).
Proof.
  intros [Hc Hcs Hfk Hsk Hsub] Hin Hins. constructor; simpl.
  - apply consistent_afterUpdate; assumption.
  - exact Hcs.
  - apply Forall_app. split.
    + unfold removeScoresOf. rewrite Forall_forall in *.
      intros r Hr. apply filter_In in Hr. apply Hfk. tauto.
    + exact (insertable_fk _ _ _ _ Hins).
  - apply (insertable_keys _ _ _ _ Hins).
    unfold removeScoresOf. apply NoDup_map_filter. exact Hsk.
  - unfold updateAll. rewrite Forall_forall in *.
    intros e He. apply in_map_iff in He. destruct He as [e' [He' Hin']].
    specialize (Hsub e' Hin'). subst e.
    destruct (Evaluation.id e' =? Evaluation.id old)%nat; exact Hsub.
Qed.

Lemma keysHold_afterCreate db sid uid total cm scores :
  keysHold db ->
  find (sameKey sid uid) (evaluations db) = None ->
  existsb (String.eqb sid) (submissions db) = true ->
  insertable (evaluations db ++ [Evaluation.mk (nextId db) sid uid total cm])
             (evaluationCriteria db) (evaluationScores db)
             (scoreRows (nextId db) scores) = true ->
  keysHold (afterCreate db (Evaluation.mk (nextId db) sid uid total cm) scores).
Proof.
  intros [Hc Hcs Hfk Hsk Hsub] Hfind Hs Hins. constructor; simpl.
  - apply consistent_afterCreate; assumption.
  - exact Hcs.
  - apply Forall_app. split; [exact Hfk|].
    exact (insertable_fk _ _ _ _ Hins).
  - exact (insertable_keys _ _ _ _ Hins Hsk).
  - apply Forall_app. split; [exact Hsub|].
    constructor; [|constructor]. simpl.
    apply existsb_eqb_In. exact Hs.
Qed.

Lemma submitEvaluation_keysHold db req :
  keysHold db -> keysHold (fst (submitEvaluation db req)).
Proof.
  intros Hk.
  destruct (submitEvaluation_store db req (evaluation_keys db Hk))
    as [->|[[old [total [cm [scores [Hin [Hins ->]]]]]]
           |[sid [uid [total [cm [scores [Hfind [Hs [Hins ->]]]]]]]]]].
  - exact Hk.
  - apply keysHold_afterUpdate; assumption.
  - apply keysHold_afterCreate; assumption.
Qed.

Lemma consistent_withEvaluationCriteria db cs :
  consistent db -> consistent (withEvaluationCriteria db cs).
Proof. intros [H1 H2 H3 H4]. constructor; assumption. Qed.

Lemma findCriteria_none cs cid :
  Scoring.findCriteria cs cid = None
  <-> ~ In cid (map EvaluationCriteria.id cs).
Proof.
  unfold Scoring.findCriteria. split.
  - intros H Hin. apply in_map_iff in Hin. destruct Hin as [c [Hid Hin]].
    pose proof (find_none _ _ H c Hin) as Hf. simpl in Hf.
    rewrite Hid, String.eqb_refl in Hf. discriminate.
  - intros H. destruct (find _ cs) as [c|] eqn:Hf; [|reflexivity].
    exfalso. apply find_some in Hf. destruct Hf as [Hin Heq].
    apply String.eqb_eq in Heq. apply H. rewrite <- Heq.
    apply in_map. exact Hin.
Qed.

Lemma existsb_id_In cs cid :
  existsb (fun c => EvaluationCriteria.id c =? cid) cs = true
  <-> In cid (map EvaluationCriteria.id cs).
Proof.
  rewrite existsb_exists, in_map_iff. split.
  - intros [c [Hin Heq]]. apply String.eqb_eq in Heq. exists c. tauto.
  - intros [c [Heq Hin]]. exists c. rewrite Heq, String.eqb_refl. tauto.
Qed.

Lemma createEvaluationCriteria_store newId db input :
  (isSent (snd (createEvaluationCriteria newId db input)) = false
   /\ fst (createEvaluationCriteria newId db input) = db)
  \/ (exists c w d,
        input = CriteriaInput.mk (Some c) (Some w) (Some d)
        /\ ~ In newId (map EvaluationCriteria.id (evaluationCriteria db))
        /\ createEvaluationCriteria newId db input
           = (withEvaluationCriteria db
                (evaluationCriteria db ++ [EvaluationCriteria.mk newId c w d]),
              Sent (EvaluationCriteria.mk newId c w d)
                   (Some "Criteria created successfully") CREATED)).
Proof.
  unfold createEvaluationCriteria, transaction, evaluationCriteria_create.
  destruct input as [[c|] [w|] [d|]]; simpl; try (left; split; reflexivity).
  destruct (negb (fitsInteger w)); [left; split; reflexivity|].
  destruct (negb (fitsVarchar c)); [left; split; reflexivity|].
  unfold bind, get, throw, put, ret. simpl.
  destruct (existsb (fun c' => EvaluationCriteria.id c' =? newId)
                    (evaluationCriteria db)) eqn:Hex; simpl.
  - left. split; reflexivity.
  - right. exists c, w, d. split; [reflexivity|]. split; [|reflexivity].
    intros Hin. apply existsb_id_In in Hin. congruence.
Qed.

Lemma createEvaluationCriteria_keysHold newId db input :
  keysHold db -> keysHold (fst (createEvaluationCriteria newId db input)).
Proof.
  intros Hk.
  destruct (createEvaluationCriteria_store newId db input)
    as [[_ ->]|[c [w [d [_ [Hfresh ->]]]]]]; [exact Hk|].
  destruct Hk as [Hc Hcs Hfk Hsk Hsub]. constructor; simpl.
  - apply consistent_withEvaluationCriteria. exact Hc.
  - rewrite map_app. simpl. apply NoDup_snoc; assumption.
  - rewrite Forall_forall in *. intros r Hr. rewrite map_app.
    apply in_or_app. left. exact (Hfk r Hr).
  - exact Hsk.
  - exact Hsub.
Qed.

Lemma updateEvaluationCriteria_ids db cid input :
  map EvaluationCriteria.id
      (evaluationCriteria (fst (updateEvaluationCriteria db cid input)))
  = map EvaluationCriteria.id (evaluationCriteria db)
  /\ evaluations (fst (updateEvaluationCriteria db cid input)) = evaluations db
  /\ evaluationScores (fst (updateEvaluationCriteria db cid input))
     = evaluationScores db
  /\ submissions (fst (updateEvaluationCriteria db cid input)) = submissions db
  /\ nextId (fst (updateEvaluationCriteria db cid input)) = nextId db.
Proof.
  unfold updateEvaluationCriteria, transaction, evaluationCriteria_update.
  destruct (Scoring.findCriteria (evaluationCriteria db) cid);
    [|simpl; repeat split].
  destruct (negb (fitsIfPresent fitsInteger (CriteriaInput.weightage input)));
    [simpl; repeat split|].
  destruct (negb (fitsIfPresent fitsVarchar (CriteriaInput.criteria input)));
    simpl; repeat split.
  rewrite map_map. apply map_ext.
  intros c. destruct (EvaluationCriteria.id c =? cid); reflexivity.
Qed.

Lemma updateEvaluationCriteria_keysHold db cid input :
  keysHold db -> keysHold (fst (updateEvaluationCriteria db cid input)).
Proof.
  intros [[H1 H2 H3 H4] Hcs Hfk Hsk Hsub].
  destruct (updateEvaluationCriteria_ids db cid input)
    as [Hids [Hev [Hsc [Hsb Hn]]]].
  constructor; [constructor|..]; rewrite ?Hids, ?Hev, ?Hsc, ?Hsb, ?Hn;
    assumption.
Qed.

Lemma deleteEvaluationCriteria_store db cid :
  (isSent (snd (deleteEvaluationCriteria db cid)) = false
   /\ fst (deleteEvaluationCriteria db cid) = db)
  \/ (In cid (map EvaluationCriteria.id (evaluationCriteria db))
      /\ (forall r, In r (evaluationScores db) ->
                    EvaluationScore.criteriaId r <> cid)
      /\ deleteEvaluationCriteria db cid
         = (withEvaluationCriteria db
              (filter (fun c => negb (EvaluationCriteria.id c =? cid))
                      (evaluationCriteria db)),
            Sent tt (Some "Criteria deleted successfully") OK)).
Proof.
  unfold deleteEvaluationCriteria, transaction, evaluationCriteria_delete.
  destruct (Scoring.findCriteria (evaluationCriteria db) cid) as [c|] eqn:Hf.
  2:{ left. split; reflexivity. }
  destruct (existsb _ (evaluationScores db)) eqn:Hex.
  - left. split; reflexivity.
  - right. split; [|split; [|reflexivity]].
    + destruct (in_dec string_dec cid
                       (map EvaluationCriteria.id (evaluationCriteria db)))
        as [Hin|Hnot]; [exact Hin|].
      apply findCriteria_none in Hnot. congruence.
    + intros r Hr Heq. rewrite existsb_false_forall in Hex.
      specialize (Hex r Hr). simpl in Hex.
      rewrite Heq, String.eqb_refl in Hex. discriminate.
Qed.

Lemma deleteEvaluationCriteria_keysHold db cid :
  keysHold db -> keysHold (fst (deleteEvaluationCriteria db cid)).
Proof.
  intros Hk.
  destruct (deleteEvaluationCriteria_store db cid)
    as [[_ ->]|[Hin [Hfree ->]]]; [exact Hk|].
  destruct Hk as [Hc Hcs Hfk Hsk Hsub]. constructor; simpl.
  - apply consistent_withEvaluationCriteria. exact Hc.
  - apply NoDup_map_filter. exact Hcs.
  - rewrite Forall_forall in *. intros r Hr.
    specialize (Hfk r Hr). apply in_map_iff in Hfk.
    destruct Hfk as [c [Hid Hc']]. apply in_map_iff. exists c.
    split; [exact Hid|]. apply filter_In. split; [exact Hc'|].
    apply negb_true_iff. apply String.eqb_neq. rewrite Hid.
    exact (Hfree r Hr).
  - exact Hsk.
  - exact Hsub.
Qed.

Lemma keysHold_judging : keysHold Sample.judging.
Proof.
  constructor; simpl.
  - exact consistent_judging.
  - repeat constructor; simpl; intuition discriminate.
  - constructor.
  - constructor.
  - constructor.
Qed.

(** X7.  The writes of the evaluator router keep the keys of the schema:
    along any sequence of criteria creations, updates and deletions and of
    evaluation submissions, whether they succeed or fail, no two criteria
    share an id, no two evaluations share a (submission, evaluator) pair,
    no two score rows share an (evaluation, criterion) pair, and every
    score row refers to an evaluation and to a criterion that exist. *)
Theorem evaluator_writes_keep_keys :
  forall ws db, keysHold db -> keysHold (performAll db ws).
Proof.
  unfold performAll. induction ws as [|w ws IH]; intros db Hk; [exact Hk|].
  simpl. apply IH. destruct w; simpl.
  - apply createEvaluationCriteria_keysHold. exact Hk.
  - apply updateEvaluationCriteria_keysHold. exact Hk.
  - apply deleteEvaluationCriteria_keysHold. exact Hk.
  - apply submitEvaluation_keysHold. exact Hk.
Qed.

Lemma evaluator_writes_keep_keys_witness :
  keysHold
    (performAll Sample.judging
       [SubmitEvaluation (Sample.evaluate Sample.score8070);
        DeleteCriteria "A";
        CreateCriteria "C" (CriteriaInput.mk (Some "Clarity") (Some 10%Z)
                                             (Some "How clear it is"));
        UpdateCriteria "B" (CriteriaInput.mk None (Some 30%Z) None);
        SubmitEvaluation (Sample.evaluate Sample.scoreTwice)]).
Proof.
  apply (evaluator_writes_keep_keys _ Sample.judging). exact keysHold_judging.
Defined.

(** ** Criteria that evaluations refer to, and listings *)

Lemma findCriteria_id cs cid c :
  Scoring.findCriteria cs cid = Some c ->
  In c cs /\ EvaluationCriteria.id c = cid.
Proof.
  unfold Scoring.findCriteria. intros H. apply find_some in H.
  destruct H as [Hin Heq]. apply String.eqb_eq in Heq. tauto.
Qed.

Lemma known_findCriteria cs (s : ScoreInput) :
  Scoring.known cs s = true ->
  exists c, Scoring.findCriteria cs (criteriaId s) = Some c.
Proof.
  rewrite ScoringFacts.known_find.
  destruct (Scoring.findCriteria cs (criteriaId s)) as [c|];
    [intros _; exists c; reflexivity|discriminate].
Qed.

Lemma submitEvaluation_rows db req scores :
  consistent db ->
  isSuccess (snd (submitEvaluation db req)) = true ->
  EvaluationRequest.scores req = Some scores ->
  exists ev,
    snd (submitEvaluation db req) = Success (EvaluationData ev) submitted OK
    /\ Evaluation.totalScore ev
       = Scoring.computeTotalScore js (evaluationCriteria db) scores
    /\ evaluationCriteria (fst (submitEvaluation db req))
       = evaluationCriteria db
    /\ Forall (fun s => Scoring.known (evaluationCriteria db) s = true) scores
    /\ scoresOf (fst (submitEvaluation db req)) (Evaluation.id ev)
       = scoreRows (Evaluation.id ev) scores.
Proof.
  intros Hc Hs Hsc.
  destruct (submitEvaluation_success db req Hs)
    as [uid [sid [scores' [ev [d1 [Hu [Hsid [Hsc' [Htx Heq]]]]]]]]].
  rewrite Hsc in Hsc'. injection Hsc' as <-.
  destruct (evaluationTx_post _ _ _ _ _ _ _ _ Hc Htx)
    as [_ [_ [_ [_ [Htot [Hcrit [Hknown [_ Hrows]]]]]]]].
  exists ev. rewrite Heq. simpl. auto.
Qed.

(** X8.  A criterion that an evaluation has scored cannot be deleted:
    after a successful [submitEvaluation], [deleteEvaluationCriteria] on
    the criterion of any submitted pair answers 500 "Failed to delete
    criteria" and leaves the store as it is. *)
Theorem scored_criterion_cannot_be_deleted :
  forall db req scores (s : ScoreInput),
    consistent db ->
    isSuccess (snd (submitEvaluation db req)) = true ->
    EvaluationRequest.scores req = Some scores ->
    In s scores ->
    let db' := fst (submitEvaluation db req) in
    deleteEvaluationCriteria db' (criteriaId s)
    = (db', Refused "Failed to delete criteria" INTERNAL_SERVER_ERROR).
Proof.
  intros db req scores s Hc Hs Hsc Hin db'.
  destruct (submitEvaluation_rows db req scores Hc Hs Hsc)
    as [ev [_ [_ [Hcrit [Hknown Hrows]]]]].
  fold db' in Hcrit, Hrows.
  rewrite Forall_forall in Hknown.
  destruct (known_findCriteria _ _ (Hknown s Hin)) as [c Hfind].
  assert (Hrow : In (EvaluationScore.mk (Evaluation.id ev) (criteriaId s)
                                        (score s))
                    (evaluationScores db')).
  { assert (H : In (EvaluationScore.mk (Evaluation.id ev) (criteriaId s)
                                       (score s))
                   (scoresOf db' (Evaluation.id ev))).
    { rewrite Hrows. unfold scoreRows.
      apply (in_map (fun s => EvaluationScore.mk (Evaluation.id ev)
                                                 (criteriaId s) (score s))).
      exact Hin. }
    unfold scoresOf in H. apply filter_In in H. tauto. }
  unfold deleteEvaluationCriteria, transaction, evaluationCriteria_delete.
  rewrite Hcrit, Hfind.
  assert (Hex : existsb (fun r => EvaluationScore.criteriaId r =? criteriaId s)
                        (evaluationScores db') = true).
  { apply existsb_exists. eexists. split; [exact Hrow|].
    simpl. apply String.eqb_refl. }
  rewrite Hex. reflexivity.
Qed.

Lemma scored_criterion_cannot_be_deleted_witness :
  deleteEvaluationCriteria
    (fst (submitEvaluation Sample.judging (Sample.evaluate Sample.score8070)))
    "B"
  = (fst (submitEvaluation Sample.judging (Sample.evaluate Sample.score8070)),
     Refused "Failed to delete criteria" INTERNAL_SERVER_ERROR).
Proof.
  apply (scored_criterion_cannot_be_deleted
           Sample.judging (Sample.evaluate Sample.score8070) Sample.score8070
           (mkScore "B" (numberOfZ 70))).
  - exact consistent_judging.
  - reflexivity.
  - reflexivity.
  - simpl. right. left. reflexivity.
Defined.

Lemma find_app_none {A} (f : A -> bool) l l' :
  find f l = None -> find f (l ++ l') = find f l'.
Proof.
  induction l as [|a l IH]; simpl; [reflexivity|].
  destruct (f a); [discriminate|exact IH].
Qed.

Lemma filter_all {A} (p : A -> bool) l :
  (forall x, In x l -> p x = true) -> filter p l = l.
Proof.
  induction l as [|a l IH]; simpl; intros H; [reflexivity|].
  rewrite (H a (or_introl eq_refl)). f_equal. apply IH.
  intros x Hx. apply H. right. exact Hx.
Qed.

Lemma withEvaluationCriteria_same db cs :
  withEvaluationCriteria (withEvaluationCriteria db cs) (evaluationCriteria db)
  = db.
Proof. destruct db; reflexivity. Qed.

(** X9.  Creating a criterion and deleting it again is a round trip: on
    tables that satisfy the schema's keys, after a successful
    [createEvaluationCriteria] the deletion of the new id succeeds and
    gives back the store as it was before the creation. *)
Theorem create_then_delete_restores :
  forall db newId input,
    keysHold db ->
    isSent (snd (createEvaluationCriteria newId db input)) = true ->
    deleteEvaluationCriteria (fst (createEvaluationCriteria newId db input))
                             newId
    = (db, Sent tt (Some "Criteria deleted successfully") OK).
Proof.
  intros db newId input Hk Hs.
  destruct (createEvaluationCriteria_store newId db input)
    as [[Hf _]|[c [w [d [_ [Hfresh Heq]]]]]]; [congruence|].
  rewrite Heq. simpl.
  unfold deleteEvaluationCriteria, transaction, evaluationCriteria_delete.
  simpl.
  assert (Hfind : Scoring.findCriteria
                    (evaluationCriteria db ++ [EvaluationCriteria.mk newId c w d])
                    newId
                  = Some (EvaluationCriteria.mk newId c w d)).
  { unfold Scoring.findCriteria. rewrite find_app_none.
    - simpl. rewrite String.eqb_refl. reflexivity.
    - apply findCriteria_none. exact Hfresh. }
  rewrite Hfind.
  assert (Hex : existsb (fun r => EvaluationScore.criteriaId r =? newId)
                        (evaluationScores db) = false).
  { apply existsb_false_forall. intros r Hr. apply String.eqb_neq.
    intros Heq'. apply Hfresh. rewrite <- Heq'.
    pose proof (scores_criteria_fk db Hk) as Hfk.
    rewrite Forall_forall in Hfk. exact (Hfk r Hr). }
  rewrite Hex. rewrite filter_app. simpl. rewrite String.eqb_refl. simpl.
  rewrite app_nil_r. rewrite filter_all.
  - rewrite withEvaluationCriteria_same. reflexivity.
  - intros x Hx. apply negb_true_iff. apply String.eqb_neq.
    intros Heq'. apply Hfresh. rewrite <- Heq'. apply in_map. exact Hx.
Qed.

Lemma create_then_delete_restores_witness :
  deleteEvaluationCriteria
    (fst (createEvaluationCriteria
            "C" Sample.judging
            (CriteriaInput.mk (Some "Clarity") (Some 10%Z)
                              (Some "How clear it is"))))
    "C"
  = (Sample.judging, Sent tt (Some "Criteria deleted successfully") OK).
Proof.
  apply (create_then_delete_restores
           Sample.judging "C"
           (CriteriaInput.mk (Some "Clarity") (Some 10%Z)
                             (Some "How clear it is"))).
  - exact keysHold_judging.
  - reflexivity.
Defined.

Lemma filter_map_swap {A B} (f : A -> B) (p : B -> bool) l :
  filter p (map f l) = map f (filter (fun x => p (f x)) l).
Proof.
  induction l as [|a l IH]; simpl; [reflexivity|].
  destruct (p (f a)); simpl; rewrite IH; reflexivity.
Qed.

Lemma filter_filter {A} (p q : A -> bool) l :
  filter p (filter q l) = filter (fun x => q x && p x) l.
Proof.
  induction l as [|a l IH]; simpl; [reflexivity|].
  destruct (q a); simpl; [destruct (p a)|]; rewrite IH; reflexivity.
Qed.

Lemma Permutation_filter_same {A} (p : A -> bool) l l' :
  Permutation l l' -> Permutation (filter p l) (filter p l').
Proof.
  induction 1 as [|x l l' _ IH|x y l|l l' l'' _ IH1 _ IH2]; simpl.
  - constructor.
  - destruct (p x); [constructor|]; exact IH.
  - destruct (p x), (p y); try apply Permutation_refl. constructor.
  - eapply Permutation_trans; eassumption.
Qed.

Lemma arranges_newestFirst : arranges newestFirst.
Proof. intros A l. apply Permutation_sym, Permutation_rev. Qed.

Lemma writtenBy_findMany arrange db sid uid :
  arranges arrange ->
  Permutation (writtenBy uid (evaluation_findMany arrange db sid))
              (map (includeScores arrange db) (evaluationsFor db sid uid)).
Proof.
  intros Harr. unfold writtenBy, evaluation_findMany, evaluationsFor.
  eapply Permutation_trans.
  - apply Permutation_filter_same. apply Harr.
  - rewrite filter_map_swap. simpl. rewrite filter_filter.
    apply Permutation_refl.
Qed.

(** X10.  An evaluation can be read back: after a successful
    [submitEvaluation] by an evaluator for a submission,
    [getEvaluationsBySubmission] for that submission lists, in whatever
    order the engine returns its rows, exactly one evaluation written by
    that evaluator; it is the evaluation of the reply, its total is the
    total of the submitted scores, and its scores are the submitted
    pairs, in some order, each with the criterion it refers to. *)
Theorem evaluation_listed_after_submit :
  forall arrange db req uid sid scores,
    arranges arrange ->
    consistent db ->
    EvaluationRequest.user req = Some uid ->
    EvaluationRequest.submissionId req = Some sid ->
    EvaluationRequest.scores req = Some scores ->
    isSuccess (snd (submitEvaluation db req)) = true ->
    let db' := fst (submitEvaluation db req) in
    exists ev listing listed,
      snd (submitEvaluation db req) = Success (EvaluationData ev) submitted OK
      /\ getEvaluationsBySubmission arrange db' sid = Sent listing None OK
      /\ writtenBy uid listing = [EvaluationWithScores.mk ev listed]
      /\ Permutation listed
                     (map (includeCriteria db)
                          (scoreRows (Evaluation.id ev) scores))
      /\ Evaluation.totalScore ev
         = Scoring.computeTotalScore js (evaluationCriteria db) scores
      /\ Forall (fun x =>
                   exists c,
                     ScoreWithCriteria.criteria x = Some c
                     /\ EvaluationCriteria.id c
                        = EvaluationScore.criteriaId (ScoreWithCriteria.row x))
                listed.
Proof.
  intros arrange db req uid sid scores Harr Hc Hu Hsid Hsc Hs db'.
  destruct (submitEvaluation_post db req uid sid scores Hc Hu Hsid Hsc Hs)
    as [ev [Heq [Hc' [Hin [Hkey [Hcrit _]]]]]].
  destruct (submitEvaluation_rows db req scores Hc Hs Hsc)
    as [ev' [Heq' [Htot [_ [Hknown Hrows]]]]].
  rewrite Heq in Heq'. simpl in Heq'. injection Heq' as <-.
  fold db' in Hc', Hin, Hcrit, Hrows.
  set (listed := arrange _ (map (includeCriteria db')
                                (scoresOf db' (Evaluation.id ev)))).
  assert (Hlisted : Permutation listed
                      (map (includeCriteria db)
                           (scoreRows (Evaluation.id ev) scores))).
  { unfold listed. eapply Permutation_trans; [apply Harr|].
    rewrite Hrows.
    assert (E : map (includeCriteria db') (scoreRows (Evaluation.id ev) scores)
                = map (includeCriteria db)
                      (scoreRows (Evaluation.id ev) scores)).
    { apply map_ext. intros r. unfold includeCriteria. rewrite Hcrit.
      reflexivity. }
    rewrite E. apply Permutation_refl. }
  exists ev, (evaluation_findMany arrange db' sid), listed.
  split; [rewrite Heq; reflexivity|].
  split; [reflexivity|].
  split; [|split; [exact Hlisted|split; [exact Htot|]]].
  - pose proof (writtenBy_findMany arrange db' sid uid Harr) as Hp.
    unfold evaluationsFor in Hp.
    rewrite (filter_sameKey_unique sid uid _ ev (keys_nodup db' Hc') Hin Hkey)
      in Hp.
    simpl in Hp. apply Permutation_sym in Hp.
    apply Permutation_length_1_inv in Hp. exact Hp.
  - apply (Permutation_Forall (Permutation_sym Hlisted)).
    rewrite Forall_forall. intros x Hx. apply in_map_iff in Hx.
    destruct Hx as [r [<- Hr]]. unfold scoreRows in Hr.
    apply in_map_iff in Hr. destruct Hr as [s [<- Hsin]].
    rewrite Forall_forall in Hknown.
    destruct (known_findCriteria _ _ (Hknown s Hsin)) as [c Hfind].
    exists c. simpl. split; [exact Hfind|].
    apply findCriteria_id in Hfind. tauto.
Qed.

Lemma evaluation_listed_after_submit_witness :
  exists ev listing listed,
    snd (submitEvaluation Sample.judging (Sample.evaluate Sample.score8070))
    = Success (EvaluationData ev) submitted OK
    /\ getEvaluationsBySubmission
         newestFirst
         (fst (submitEvaluation Sample.judging
                                (Sample.evaluate Sample.score8070)))
         "sub-1"
       = Sent listing None OK
    /\ writtenBy "eval-1" listing = [EvaluationWithScores.mk ev listed]
    /\ Permutation listed
                   (map (includeCriteria Sample.judging)
                        (scoreRows (Evaluation.id ev) Sample.score8070)).
Proof.
  destruct (evaluation_listed_after_submit
              newestFirst Sample.judging (Sample.evaluate Sample.score8070)
              "eval-1" "sub-1" Sample.score8070
              arranges_newestFirst consistent_judging
              eq_refl eq_refl eq_refl eq_refl)
    as [ev [listing [listed [H1 [H2 [H3 [H4 _]]]]]]].
  exists ev, listing, listed. auto.
Defined.

(** ** The middleware in front of the evaluator's handlers *)

Lemma prefix_slice p : forall s,
  prefix p s = true -> s = (p ++ slice (String.length p) s)%string.
Proof.
  induction p as [|a p IH]; intros s H; [reflexivity|].
  destruct s as [|b s]; [discriminate|]. simpl in H.
  destruct (Ascii.ascii_dec a b) as [->|]; [|discriminate].
  simpl. f_equal. apply IH. exact H.
Qed.

Lemma carries_tokenOf authHeader :
  carries (Some authHeader) (tokenOf authHeader).
Proof.
  unfold carries, tokenOf.
  destruct (prefix "Bearer " authHeader) eqn:Hp; [right|left; reflexivity].
  f_equal. exact (prefix_slice "Bearer " authHeader Hp).
Qed.

Lemma authMiddleware_next validateToken roles authorization user :
  authMiddleware validateToken roles authorization = Next user ->
  exists token p,
    carries authorization token
    /\ token <> ""
    /\ validateToken token = Some p
    /\ user = RequestUser.mk (JWTPayload.userId p) (JWTPayload.role p)
    /\ (roles = [] \/ includesRole roles (JWTPayload.role p) = true).
Proof.
  unfold authMiddleware.
  destruct authorization as [h|]; [|discriminate].
  destruct (h =? ""); [discriminate|].
  destruct (tokenOf h =? "") eqn:Ht; [discriminate|].
  destruct (validateToken (tokenOf h)) as [p|] eqn:Hv; [|discriminate].
  destruct roles as [|r roles].
  - simpl. intros H. injection H as <-. exists (tokenOf h), p.
    split; [apply carries_tokenOf|].
    split; [apply String.eqb_neq; exact Ht|]. auto.
  - destruct (includesRole (r :: roles) (JWTPayload.role p)) eqn:Hr;
      [|discriminate].
    simpl. intros H. injection H as <-. exists (tokenOf h), p.
    split; [apply carries_tokenOf|].
    split; [apply String.eqb_neq; exact Ht|]. auto.
Qed.

Lemma submitEvaluation_authenticated db req uid :
  EvaluationRequest.user req = Some uid ->
  snd (submitEvaluation db req)
  <> Failure "User not authenticated" UNAUTHORIZED.
Proof.
  intros Hu. unfold submitEvaluation. rewrite Hu.
  destruct (EvaluationRequest.submissionId req) as [sid|];
    [|simpl; discriminate].
  destruct (EvaluationRequest.scores req) as [scores|];
    [|simpl; discriminate].
  destruct (sid =? ""); [simpl; discriminate|].
  cbv zeta.
  destruct (transaction _ db) as [[e|ev] d]; simpl; discriminate.
Qed.

Lemma submitEvaluation_other_evaluator db req uid0 :
  consistent db ->
  EvaluationRequest.user req = Some uid0 ->
  forall sid uid, uid <> uid0 ->
    evaluationsFor (fst (submitEvaluation db req)) sid uid
    = evaluationsFor db sid uid.
Proof.
  intros Hc Hu sid uid Hne.
  destruct (EvaluationRequest.submissionId req) as [sid0|] eqn:Hsid.
  - apply (submitEvaluation_others db req uid0 sid0 sid uid Hc Hu Hsid).
    congruence.
  - unfold submitEvaluation. rewrite Hu, Hsid. reflexivity.
Qed.

Lemma handle_evaluations db user w sid uid :
  consistent db ->
  uid <> RequestUser.userId user ->
  evaluationsFor (fst (handle db user w)) sid uid = evaluationsFor db sid uid.
Proof.
  intros Hc Hne. destruct w as [newId input|cid input|cid|req]; simpl.
  - destruct (createEvaluationCriteria newId db input) as [db' r] eqn:He.
    simpl.
    destruct (createEvaluationCriteria_store newId db input)
      as [[_ H]|[c [w [d [_ [_ H]]]]]]; rewrite He in H; simpl in H.
    + rewrite H. reflexivity.
    + injection H as -> _. reflexivity.
  - destruct (updateEvaluationCriteria db cid input) as [db' r] eqn:He.
    simpl.
    destruct (updateEvaluationCriteria_ids db cid input) as [_ [H _]].
    rewrite He in H. simpl in H. unfold evaluationsFor. rewrite H.
    reflexivity.
  - destruct (deleteEvaluationCriteria db cid) as [db' r] eqn:He. simpl.
    destruct (deleteEvaluationCriteria_store db cid)
      as [[_ H]|[_ [_ H]]]; rewrite He in H; simpl in H.
    + rewrite H. reflexivity.
    + injection H as -> _. reflexivity.
  - destruct (submitEvaluation db (authenticated user req)) as [db' r] eqn:He.
    simpl.
    pose proof (submitEvaluation_other_evaluator
                  db (authenticated user req) (RequestUser.userId user)
                  Hc eq_refl sid uid Hne) as H.
    rewrite He in H. exact H.
Qed.

Lemma handle_never_unauthenticated db user w :
  snd (handle db user w)
  <> EvaluationReply (Failure "User not authenticated" UNAUTHORIZED).
Proof.
  destruct w as [newId input|cid input|cid|req]; simpl.
  - destruct (createEvaluationCriteria newId db input). simpl. discriminate.
  - destruct (updateEvaluationCriteria db cid input). simpl. discriminate.
  - destruct (deleteEvaluationCriteria db cid). simpl. discriminate.
  - destruct (submitEvaluation db (authenticated user req)) as [db' r] eqn:He.
    simpl. intros H. injection H as H.
    apply (submitEvaluation_authenticated
             db (authenticated user req) (RequestUser.userId user) eq_refl).
    rewrite He. exact H.
Qed.

(** X11.  Behind [authMiddleware('evaluator')] the handlers of the
    evaluator router are reached only by a verified token of an evaluator:
    the router never sends the handler's "User not authenticated"; a
    request changes the store only if its header carries a token that
    verifies with the role "evaluator"; and it changes the evaluations of
    an evaluator only if that token is a token of this evaluator. *)
Theorem evaluator_route_guards :
  forall validateToken db authorization w,
    consistent db ->
    let out := evaluatorRouter validateToken db authorization w in
    snd out
    <> Handled (EvaluationReply (Failure "User not authenticated" UNAUTHORIZED))
    /\ (fst out <> db ->
        exists token p,
          carries authorization token
          /\ validateToken token = Some p
          /\ JWTPayload.role p = "evaluator")
    /\ (forall sid uid,
          evaluationsFor (fst out) sid uid <> evaluationsFor db sid uid ->
          exists token p,
            carries authorization token
            /\ validateToken token = Some p
            /\ JWTPayload.role p = "evaluator"
            /\ JWTPayload.userId p = uid).
Proof.
  intros validateToken db authorization w Hc out. unfold out, evaluatorRouter.
  destruct (authMiddleware validateToken [evaluator] authorization)
    as [m s|user] eqn:Hg.
  - simpl. split; [discriminate|].
    split; [intros H; exfalso; apply H; reflexivity|].
    intros sid uid H. exfalso. apply H. reflexivity.
  - destruct (authMiddleware_next _ _ _ _ Hg)
      as [token [p [Hcar [_ [Hv [Hu Hrole]]]]]].
    assert (Hev : JWTPayload.role p = "evaluator").
    { destruct Hrole as [Hnil|Hin]; [discriminate|].
      change (("evaluator" =? JWTPayload.role p) || false = true) in Hin.
      rewrite orb_false_r in Hin. apply String.eqb_eq in Hin.
      symmetry. exact Hin. }
    pose proof (handle_never_unauthenticated db user w) as Hnever.
    pose proof (handle_evaluations db user w) as Hothers.
    destruct (handle db user w) as [db' r]. simpl in *.
    split; [intros H; injection H as H; exact (Hnever H)|].
    split; [intros _; exists token, p; auto|].
    intros sid uid Hne. exists token, p.
    split; [exact Hcar|]. split; [exact Hv|]. split; [exact Hev|].
    destruct (string_dec uid (JWTPayload.userId p)) as [->|Hd];
      [reflexivity|].
    exfalso. apply Hne. apply Hothers; [exact Hc|].
    rewrite Hu. simpl. exact Hd.
Qed.

Lemma evaluator_route_guards_witness :
  snd (evaluatorRouter Tokens.verify Sample.judging
                       (Some "Bearer tok-eval-1")
                       (SubmitEvaluation (Sample.evaluate Sample.score8070)))
  <> Handled (EvaluationReply (Failure "User not authenticated" UNAUTHORIZED)).
Proof.
  exact (proj1 (evaluator_route_guards
                  Tokens.verify Sample.judging (Some "Bearer tok-eval-1")
                  (SubmitEvaluation (Sample.evaluate Sample.score8070))
                  consistent_judging)).
Defined.

(** X12.  The scheme of the [Authorization] header is optional: a
    non-empty token that does not itself begin with "Bearer " is treated
    by [authMiddleware] in the same way whether the header is the bare
    token or "Bearer " followed by the token. *)
Theorem bearer_scheme_is_optional :
  forall validateToken roles token,
    token <> "" ->
    prefix "Bearer " token = false ->
    authMiddleware validateToken roles (Some ("Bearer " ++ token)%string)
    = authMiddleware validateToken roles (Some token).
Proof.
  intros validateToken roles token Hne Hp. unfold authMiddleware, tokenOf.
  rewrite Hp.
  assert (Hpre : prefix "Bearer " ("Bearer " ++ token)%string = true).
  { simpl. destruct token; reflexivity. }
  rewrite Hpre. simpl.
  apply String.eqb_neq in Hne. rewrite Hne. reflexivity.
Qed.

Lemma bearer_scheme_is_optional_witness :
  authMiddleware Tokens.verify [evaluator] (Some "Bearer tok-eval-1")
  = authMiddleware Tokens.verify [evaluator] (Some "tok-eval-1").
Proof.
  apply (bearer_scheme_is_optional Tokens.verify [evaluator] "tok-eval-1").
  - discriminate.
  - reflexivity.
Defined.

(** ** Which registrations succeed *)

Lemma registerTx_eq hashPassword body db :
  registerTx hashPassword body db
  = let name := RegisterTeamInput.teamName body in
    let tid := nextId db in
    let t := Team.mk tid name (RegisterTeamInput.theme body) in
    if nameHeld db name then inl (PrismaError "P2002")
    else
      match findLeader (RegisterTeamInput.members body) with
      | Some ld =>
          match hashPassword defaultPassword with
          | Some h =>
              if existsb (fun u => User.email u =? TeamMemberInput.email ld)
                         (users db)
              then inl (PrismaError "P2002")
              else inr (t, afterRegister db body ld h)
          | None => inl OtherError
          end
      | None =>
          inr (t,
               withTeamAggregate
                 (withNextId db (S tid)) t
                 (map (memberRow tid) (RegisterTeamInput.members body))
                 (mentorRow tid (RegisterTeamInput.facultyMentor body))
                 (representativeRow
                    tid (RegisterTeamInput.communityRepresentative body)))
      end.
Proof.
  unfold registerTx, team_create.
  unfold bind at 1. unfold bind at 1. unfold get at 1. cbv zeta.
  destruct (nameHeld db (RegisterTeamInput.teamName body)); [reflexivity|].
  tx_unfold. simpl.
  destruct (findLeader (RegisterTeamInput.members body)) as [ld|];
    [|reflexivity].
  unfold hashPasswordTx.
  destruct (hashPassword defaultPassword) as [h|]; [|reflexivity].
  unfold user_create. tx_unfold. simpl.
  destruct (existsb _ (users db)); reflexivity.
Qed.

Lemma validateRoster_leader ms :
  validateRoster ms = None ->
  exists ld, findLeader ms = Some ld /\ In ld ms /\ isLeader ld = true.
Proof.
  intros Hv. destruct (validateRoster_pass _ Hv) as [_ [_ [Hone _]]].
  apply findLeader_some. lia.
Qed.

(** X13.  The store refuses a string wider than its column, so the
    statement is for requests all of whose strings fit, and for a hash
    that fits: for these, [registerTeam] answers success exactly when the
    roster passes the checks, no team holds the name, [hashPassword]
    resolves and no account holds the email of the leader. *)
Theorem registerTeam_succeeds_iff :
  forall hashPassword db body,
    fitsRegistration body = true ->
    hashFits hashPassword ->
    (isSuccess (snd (registerTeam hashPassword db body)) = true
     <-> validateRoster (RegisterTeamInput.members body) = None
         /\ nameHeld db (RegisterTeamInput.teamName body) = false
         /\ (exists h, hashPassword defaultPassword = Some h)
         /\ (forall ld,
               findLeader (RegisterTeamInput.members body) = Some ld ->
               existsb (fun u => User.email u =? TeamMemberInput.email ld)
                       (users db) = false)).
Proof.
  intros hashPassword db body _ _.
  unfold registerTeam, registerTeamAt, transaction.
  rewrite registerTx_eq. cbv zeta.
  destruct (validateRoster (RegisterTeamInput.members body)) as [v|] eqn:Hv.
  { split; [destruct v; discriminate|intros [H _]; discriminate]. }
  destruct (validateRoster_leader _ Hv) as [ld [Hld _]].
  destruct (team_findUnique db (RegisterTeamInput.teamName body)) as [t|] eqn:Hf.
  { split; [discriminate|]. intros [_ [Hheld _]].
    apply team_findUnique_nameHeld in Hheld. congruence. }
  apply team_findUnique_nameHeld in Hf. rewrite Hf, Hld.
  destruct (hashPassword defaultPassword) as [h|].
  - destruct (existsb _ (users db)) eqn:Hmail.
    + split; [discriminate|]. intros [_ [_ [_ H]]].
      specialize (H ld eq_refl). congruence.
    + split; [|reflexivity]. intros _.
      split; [reflexivity|]. split; [reflexivity|].
      split; [exists h; reflexivity|].
      intros ld' H'. injection H' as <-. exact Hmail.
  - split; [discriminate|]. intros [_ [_ [[h Hh] _]]]. discriminate.
Qed.

Lemma hashFits_hashOk : hashFits Sample.hashOk.
Proof. intros h H. injection H as <-. reflexivity. Qed.

Lemma registerTeam_succeeds_iff_witness :
  isSuccess (snd (registerTeam Sample.hashOk Sample.emptyStore Sample.falcons))
  = true.
Proof.
  apply (proj2 (registerTeam_succeeds_iff
                  Sample.hashOk Sample.emptyStore Sample.falcons
                  eq_refl hashFits_hashOk)).
  split; [reflexivity|]. split; [reflexivity|].
  split; [exists "#qwert123"; reflexivity|].
  intros ld _. reflexivity.
Defined.

(** X14.  For a request all of whose strings fit their columns, and a
    hash that fits: a registration whose leader's email already has an
    account is answered with the conflict of a taken team name, 409 "Team
    name already exists", although no team holds the name; nothing is
    persisted. *)
Theorem leader_email_taken_reported_as_name_conflict :
  forall hashPassword db body ld,
    fitsRegistration body = true ->
    hashFits hashPassword ->
    validateRoster (RegisterTeamInput.members body) = None ->
    nameHeld db (RegisterTeamInput.teamName body) = false ->
    hashPassword defaultPassword <> None ->
    findLeader (RegisterTeamInput.members body) = Some ld ->
    existsb (fun u => User.email u =? TeamMemberInput.email ld) (users db)
    = true ->
    registerTeam hashPassword db body
    = (db, Failure "Team name already exists" CONFLICT)
    /\ teamsNamed db (RegisterTeamInput.teamName body) = [].
Proof.
  intros hashPassword db body ld _ _ Hv Hheld Hh Hld Hmail.
  split; [|apply teamsNamed_nameHeld; exact Hheld].
  unfold registerTeam, registerTeamAt, transaction.
  rewrite registerTx_eq. cbv zeta. rewrite Hv.
  apply team_findUnique_nameHeld in Hheld as Hf. rewrite Hf, Hheld, Hld.
  destruct (hashPassword defaultPassword) as [h|]; [|congruence].
  rewrite Hmail. reflexivity.
Qed.

Lemma leader_email_taken_reported_as_name_conflict_witness :
  registerTeam Sample.hashOk Sample.withLeaderAccount Sample.falcons
  = (Sample.withLeaderAccount, Failure "Team name already exists" CONFLICT)
  /\ teamsNamed Sample.withLeaderAccount "Falcons" = [].
Proof.
  apply (leader_email_taken_reported_as_name_conflict
           Sample.hashOk Sample.withLeaderAccount Sample.falcons Sample.leader).
  - reflexivity.
  - exact hashFits_hashOk.
  - reflexivity.
  - reflexivity.
  - discriminate.
  - reflexivity.
  - reflexivity.
Defined.

(** ** The registry of teams along registrations *)

Lemma registerTeam_store hashPassword db body :
  fst (registerTeam hashPassword db body) = db
  \/ exists ld h,
       validateRoster (RegisterTeamInput.members body) = None
       /\ nameHeld db (RegisterTeamInput.teamName body) = false
       /\ findLeader (RegisterTeamInput.members body) = Some ld
       /\ existsb (fun u => User.email u =? TeamMemberInput.email ld)
                  (users db) = false
       /\ fst (registerTeam hashPassword db body)
          = afterRegister db body ld h.
Proof.
  unfold registerTeam, registerTeamAt, transaction.
  rewrite registerTx_eq. cbv zeta.
  destruct (validateRoster (RegisterTeamInput.members body)) as [v|] eqn:Hv;
    [left; reflexivity|].
  destruct (validateRoster_leader _ Hv) as [ld [Hld _]].
  destruct (team_findUnique db (RegisterTeamInput.teamName body)) as [t|] eqn:Hf;
    [left; reflexivity|].
  apply team_findUnique_nameHeld in Hf. rewrite Hf, Hld.
  destruct (hashPassword defaultPassword) as [h|]; [|left; reflexivity].
  destruct (existsb _ (users db)) eqn:Hmail; [left; reflexivity|].
  right. exists ld, h. auto.
Qed.

Lemma filter_none {A} (p : A -> bool) l :
  (forall x, In x l -> p x = false) -> filter p l = [].
Proof.
  induction l as [|a l IH]; simpl; intros H; [reflexivity|].
  rewrite (H a (or_introl eq_refl)). apply IH.
  intros x Hx. apply H. right. exact Hx.
Qed.

Lemma filter_single {A} (p : A -> bool) l x :
  List.length (filter p l) = 1 -> find p l = Some x -> filter p l = [x].
Proof.
  induction l as [|a l IH]; simpl; [discriminate|].
  destruct (p a).
  - simpl. intros Hlen Hf. injection Hf as <-.
    destruct (filter p l); [reflexivity|discriminate].
  - exact IH.
Qed.

Lemma filter_nonempty {A} (p : A -> bool) l :
  1 <= List.length (filter p l) -> filter p l <> [].
Proof. destruct (filter p l); simpl; [lia|discriminate]. Qed.

Lemma filter_memberRows (p : TeamMemberRow.t -> bool)
      (q : TeamMemberInput.t -> bool) tid ms :
  (forall m, p (memberRow tid m) = q m) ->
  filter p (map (memberRow tid) ms) = map (memberRow tid) (filter q ms).
Proof.
  intros H. rewrite filter_map_swap. f_equal. apply filter_ext.
  exact H.
Qed.

Lemma eligible_ext db db' t :
  membersOf db' (Team.id t) = membersOf db (Team.id t) ->
  mentorsOf db' (Team.id t) = mentorsOf db (Team.id t) ->
  representativesOf db' (Team.id t) = representativesOf db (Team.id t) ->
  accountsOf db' (Team.id t) = accountsOf db (Team.id t) ->
  eligible db t -> eligible db' t.
Proof.
  intros Hm Hf Hr Ha [H1 H2 H3 H4 H5 H6].
  constructor; rewrite ?Hm, ?Hf, ?Hr, ?Ha; assumption.
Qed.

Lemma afterRegister_old db body ld h tid :
  tid < nextId db ->
  membersOf (afterRegister db body ld h) tid = membersOf db tid
  /\ mentorsOf (afterRegister db body ld h) tid = mentorsOf db tid
  /\ representativesOf (afterRegister db body ld h) tid
     = representativesOf db tid
  /\ accountsOf (afterRegister db body ld h) tid = accountsOf db tid.
Proof.
  intros Hlt.
  assert (Hne : (nextId db =? tid)%nat = false)
    by (apply Nat.eqb_neq; lia).
  unfold membersOf, mentorsOf, representativesOf, accountsOf, afterRegister.
  simpl. rewrite !filter_app. simpl. unfold ofTeam. simpl. rewrite Hne.
  rewrite !app_nil_r. split; [|auto].
  rewrite <- (app_nil_r (filter _ (teamMembers db))) at 2. f_equal.
  apply filter_none. intros x Hx. apply in_map_iff in Hx.
  destruct Hx as [m [<- _]]. simpl. exact Hne.
Qed.

Lemma afterRegister_new db body ld h :
  registryOk db ->
  let db' := afterRegister db body ld h in
  membersOf db' (nextId db)
  = map (memberRow (nextId db)) (RegisterTeamInput.members body)
  /\ mentorsOf db' (nextId db)
     = [mentorRow (nextId db) (RegisterTeamInput.facultyMentor body)]
  /\ representativesOf db' (nextId db)
     = [representativeRow (nextId db)
                          (RegisterTeamInput.communityRepresentative body)]
  /\ accountsOf db' (nextId db)
     = [leaderAccount (S (nextId db)) (nextId db) ld h].
Proof.
  intros [Ht Hm Hf Hr Ha _ _ _ _] db'. unfold db'.
  unfold membersOf, mentorsOf, representativesOf, accountsOf, afterRegister.
  simpl. rewrite !filter_app. simpl. unfold ofTeam at 2. simpl.
  rewrite Nat.eqb_refl.
  rewrite Forall_forall in Hm, Hf, Hr, Ha.
  rewrite (filter_none _ (teamMembers db)),
          (filter_none _ (facultyMentors db)),
          (filter_none _ (communityRepresentatives db)),
          (filter_none _ (users db)).
  - simpl. split; [|auto]. apply filter_all. intros x Hx.
    apply in_map_iff in Hx. destruct Hx as [m [<- _]]. simpl.
    apply Nat.eqb_refl.
  - intros u Hu. unfold ofTeam. destruct (User.teamId u) as [t|] eqn:Htid;
      [|reflexivity].
    apply Nat.eqb_neq. specialize (Ha u Hu t Htid). lia.
  - intros r Hr'. apply Nat.eqb_neq. specialize (Hr r Hr'). lia.
  - intros f Hf'. apply Nat.eqb_neq. specialize (Hf f Hf'). lia.
  - intros m Hm'. apply Nat.eqb_neq. specialize (Hm m Hm'). lia.
Qed.

Lemma nameHeld_In db name :
  nameHeld db name = false -> ~ In name (map Team.teamName (teams db)).
Proof.
  unfold nameHeld. intros H Hin. apply in_map_iff in Hin.
  destruct Hin as [t [Heq Hin]]. rewrite existsb_false_forall in H.
  specialize (H t Hin). simpl in H. rewrite Heq, String.eqb_refl in H.
  discriminate.
Qed.

Lemma eligible_new db body ld h :
  registryOk db ->
  validateRoster (RegisterTeamInput.members body) = None ->
  findLeader (RegisterTeamInput.members body) = Some ld ->
  eligible (afterRegister db body ld h)
           (Team.mk (nextId db) (RegisterTeamInput.teamName body)
                    (RegisterTeamInput.theme body)).
Proof.
  intros Hok Hv Hld.
  destruct (afterRegister_new db body ld h Hok) as [Hm [Hf [Hr Ha]]].
  destruct (validateRoster_pass _ Hv) as [Hsix [Hclean [Hone [Hschool Hfem]]]].
  rewrite firstViolation_none in Hclean.
  set (ms := RegisterTeamInput.members body) in *.
  set (tid := nextId db) in *.
  assert (HL : filter isLeaderRow (map (memberRow tid) ms)
               = map (memberRow tid) (filter isLeader ms))
    by (apply filter_memberRows; reflexivity).
  assert (HS : filter isSchoolStudentRow (map (memberRow tid) ms)
               = map (memberRow tid) (filter isSchoolStudent ms))
    by (apply filter_memberRows; reflexivity).
  assert (HF : filter isFemaleRow (map (memberRow tid) ms)
               = map (memberRow tid) (filter isFemale ms))
    by (apply filter_memberRows; reflexivity).
  constructor; simpl; rewrite ?Hm, ?Hf, ?Hr, ?Ha.
  - rewrite List.length_map. exact Hsix.
  - exists (memberRow tid ld), (leaderAccount (S tid) tid ld h).
    rewrite HL. rewrite (filter_single isLeader ms ld Hone Hld).
    split; [reflexivity|]. split; [|auto].
    simpl. unfold findLeader in Hld. apply find_some in Hld.
    destruct Hld as [Hin Hisl].
    pose proof (Hclean ld Hin) as Hmv.
    apply memberViolation_none in Hmv. destruct Hmv as [Hie _].
    specialize (Hie Hisl). unfold lacksIeee in Hie.
    apply orb_false_iff in Hie. destruct Hie as [_ Hn].
    apply negb_false_iff in Hn. exact Hn.
  - rewrite HS. split.
    + intros Hnil. apply map_eq_nil in Hnil.
      unfold countIf in Hschool. rewrite Hnil in Hschool. simpl in Hschool.
      lia.
    + rewrite Forall_forall. intros r Hr'. apply in_map_iff in Hr'.
      destruct Hr' as [m [<- Hin]]. apply filter_In in Hin.
      destruct Hin as [Hin Hss]. simpl.
      pose proof (Hclean m Hin) as Hmv.
      apply memberViolation_none in Hmv. destruct Hmv as [_ Hst].
      specialize (Hst Hss). unfold lacksStandard in Hst.
      apply negb_false_iff in Hst. exact Hst.
  - rewrite HF. intros Hnil. apply map_eq_nil in Hnil.
    unfold countIf in Hfem. rewrite Hnil in Hfem. simpl in Hfem. lia.
  - reflexivity.
  - reflexivity.
Qed.

Lemma registryOk_afterRegister db body ld h :
  registryOk db ->
  validateRoster (RegisterTeamInput.members body) = None ->
  nameHeld db (RegisterTeamInput.teamName body) = false ->
  findLeader (RegisterTeamInput.members body) = Some ld ->
  existsb (fun u => User.email u =? TeamMemberInput.email ld) (users db)
  = false ->
  registryOk (afterRegister db body ld h).
Proof.
  intros Hok Hv Hheld Hld Hmail.
  pose proof (eligible_new db body ld h Hok Hv Hld) as Hnew.
  pose proof (afterRegister_old db body ld h) as Hold.
  destruct Hok as [Ht Hm Hf Hr Ha Hai Hn He Hel].
  constructor; simpl.
  - apply Forall_app. split.
    + rewrite Forall_forall in *. intros t Hin. specialize (Ht t Hin). lia.
    + constructor; [simpl; lia|constructor].
  - apply Forall_app. split.
    + rewrite Forall_forall in *. intros m Hin. specialize (Hm m Hin). lia.
    + rewrite Forall_forall. intros r Hin. apply in_map_iff in Hin.
      destruct Hin as [m [<- _]]. simpl. lia.
  - apply Forall_app. split.
    + rewrite Forall_forall in *. intros f Hin. specialize (Hf f Hin). lia.
    + constructor; [simpl; lia|constructor].
  - apply Forall_app. split.
    + rewrite Forall_forall in *. intros r Hin. specialize (Hr r Hin). lia.
    + constructor; [simpl; lia|constructor].
  - apply Forall_app. split.
    + rewrite Forall_forall in *. intros u Hin t Htid.
      specialize (Ha u Hin t Htid). lia.
    + constructor; [|constructor]. simpl. intros t Htid.
      injection Htid as <-. lia.
  - apply Forall_app. split.
    + rewrite Forall_forall in *. intros u Hin. specialize (Hai u Hin). lia.
    + constructor; [simpl; lia|constructor].
  - rewrite map_app. simpl. apply NoDup_snoc; [exact Hn|].
    apply nameHeld_In. exact Hheld.
  - rewrite map_app. simpl. apply NoDup_snoc; [exact He|].
    intros Hin. apply in_map_iff in Hin. destruct Hin as [u [Heq Hin]].
    rewrite existsb_false_forall in Hmail. specialize (Hmail u Hin).
    simpl in Hmail. rewrite Heq, String.eqb_refl in Hmail. discriminate.
  - apply Forall_app. split.
    + rewrite Forall_forall in *. intros t Hin.
      destruct (Hold (Team.id t) (Ht t Hin)) as [E1 [E2 [E3 E4]]].
      apply (eligible_ext db); try assumption. exact (Hel t Hin).
    + constructor; [exact Hnew|constructor].
Qed.

Lemma registerTeam_registryOk hashPassword db body :
  registryOk db -> registryOk (fst (registerTeam hashPassword db body)).
Proof.
  intros Hok.
  destruct (registerTeam_store hashPassword db body)
    as [->|[ld [h [Hv [Hheld [Hld [Hmail ->]]]]]]]; [exact Hok|].
  apply registryOk_afterRegister; assumption.
Qed.

Lemma registryOk_emptyStore : registryOk Sample.emptyStore.
Proof. constructor; simpl; constructor. Qed.

(** X15.  Registrations keep the registry of teams in order: along any
    sequence of [registerTeam] requests, accepted or rejected, team names
    and account emails stay unique and every stored team satisfies the
    rules on its stored rows: six members, one leader with a membership
    number and the team's one participant account under the leader's name
    and email, at least one school student, each with a standard, at
    least one female member, one mentor and one representative. *)
Theorem registrations_keep_registry :
  forall hashPassword bodies db,
    registryOk db -> registryOk (registerAll hashPassword db bodies).
Proof.
  intros hashPassword. unfold registerAll.
  induction bodies as [|body bodies IH]; intros db Hok; [exact Hok|].
  simpl. apply IH. apply registerTeam_registryOk. exact Hok.
Qed.

Lemma registrations_keep_registry_witness :
  registryOk
    (registerAll Sample.hashOk Sample.emptyStore
                 [Sample.falcons; Sample.falcons;
                  Sample.team "Hawks" Sample.rosterNoPupil]).
Proof.
  apply (registrations_keep_registry Sample.hashOk _ Sample.emptyStore).
  exact registryOk_emptyStore.
Defined.

(** ** The file-upload variant of [registerTeam] *)

Lemma registerTxUpload_eq hashPassword body ms db :
  registerTxUpload hashPassword body ms db
  = let name := RegisterTeamInput.teamName body in
    let tid := nextId db in
    let t := Team.mk tid name (RegisterTeamInput.theme body) in
    if nameHeld db name then inl (PrismaError "P2002")
    else
      match findLeader ms with
      | Some ld =>
          match hashPassword defaultPassword with
          | Some h =>
              if existsb (fun u => User.email u =? TeamMemberInput.email ld)
                         (users db)
              then inl (PrismaError "P2002")
              else inr (t, afterRegisterUpload db body ms ld h)
          | None => inl OtherError
          end
      | None =>
          inr (t,
               withTeamAndMembers (withNextId db (S tid)) t
                                  (map (memberRowUpload tid) ms))
      end.
Proof.
  unfold registerTxUpload, team_createUpload.
  unfold bind at 1. unfold bind at 1. unfold get at 1. cbv zeta.
  destruct (nameHeld db (RegisterTeamInput.teamName body)); [reflexivity|].
  tx_unfold. simpl.
  destruct (findLeader ms) as [ld|]; [|reflexivity].
  unfold hashPasswordTx.
  destruct (hashPassword defaultPassword) as [h|]; [|reflexivity].
  unfold user_create. tx_unfold. simpl.
  destruct (existsb _ (users db)); reflexivity.
Qed.

Lemma scanMembersUpload_inr urls ms : forall i c c' ms',
  scanMembersUpload urls i ms c = inr (c', ms') ->
  ms' = attachDocuments urls i ms
  /\ (forall j m, nth_error ms j = Some m -> isSchoolStudent m = true ->
                  truthyStr (pdfUrlOf urls (i + j)) = true)
  /\ c' = mkCounts (teamLeaderCount c + countIf isLeader ms)
                   (schoolStudentCount c + countIf isSchoolStudent ms)
                   (femaleCount c + countIf isFemale ms).
Proof.
  induction ms as [|m rest IH]; intros i c c' ms' H.
  - simpl in H. injection H as <- <-. split; [reflexivity|]. split.
    + intros [|j] m' Hn; discriminate.
    + destruct c. unfold countIf. simpl. f_equal; lia.
  - cbn [scanMembersUpload] in H.
    destruct (isLeader m && lacksIeee m); [discriminate|].
    destruct (isSchoolStudent m && lacksStandard m); [discriminate|].
    destruct (isSchoolStudent m && negb (truthyStr (pdfUrlOf urls i))) eqn:Hdoc;
      [discriminate|].
    match type of H with
    | context [scanMembersUpload urls (S i) rest ?c0] =>
        destruct (scanMembersUpload urls (S i) rest c0) as [v|[c1 rest']] eqn:Hrest
    end; [discriminate|].
    injection H as <- <-.
    destruct (IH _ _ _ _ Hrest) as [-> [Hdocs ->]].
    split; [reflexivity|]. split.
    + intros [|j] m' Hn Hss.
      * simpl in Hn. injection Hn as <-. rewrite Hss in Hdoc. simpl in Hdoc.
        apply negb_false_iff in Hdoc. rewrite Nat.add_0_r. exact Hdoc.
      * simpl in Hn. replace (i + S j) with (S i + j) by lia.
        exact (Hdocs j m' Hn Hss).
    + rewrite !countIf_cons. simpl.
      destruct (isLeader m), (isSchoolStudent m), (isFemale m); simpl;
        f_equal; lia.
Qed.

Lemma checkRosterUpload_inr uploads ms ms' :
  checkRosterUpload uploads ms = inr ms' ->
  exists urls,
    uploads = Uploaded urls
    /\ ms' = attachDocuments urls 0 ms
    /\ documentsResolved urls ms
    /\ 1 <= countIf isLeader ms.
Proof.
  unfold checkRosterUpload.
  destruct (negb (List.length ms =? 6)%nat); [discriminate|].
  destruct uploads as [|urls]; [discriminate|].
  destruct (scanMembersUpload urls 0 ms noCounts) as [v|[c ms0]] eqn:Hscan;
    [discriminate|].
  destruct (scanMembersUpload_inr _ _ _ _ _ _ Hscan) as [-> [Hdocs ->]].
  simpl.
  destruct (negb (countIf isLeader ms =? 1)%nat) eqn:Hl; [discriminate|].
  destruct (negb (countIf isSchoolStudent ms =? 1)%nat); [discriminate|].
  destruct (countIf isFemale ms =? 0)%nat; [discriminate|].
  intros H. injection H as <-. exists urls.
  split; [reflexivity|]. split; [reflexivity|]. split.
  - exact Hdocs.
  - apply negb_false_iff, Nat.eqb_eq in Hl. lia.
Qed.

Lemma findLeader_attachDocuments urls ms : forall i,
  findLeader (attachDocuments urls i ms) = findLeader ms.
Proof.
  unfold findLeader. induction ms as [|m rest IH]; intros i; [reflexivity|].
  simpl. destruct (isSchoolStudent m) eqn:Hss.
  - assert (Hl : isLeader m = false).
    { unfold isLeader, isSchoolStudent in *.
      destruct (TeamMemberInput.role m); congruence. }
    assert (Hl' : isLeader (withSchoolIdPdf m (pdfUrlOf urls i)) = false)
      by exact Hl.
    rewrite Hl, Hl'. apply IH.
  - destruct (isLeader m); [reflexivity|apply IH].
Qed.

Lemma registerTeamUpload_store hashPassword db body uploads :
  (isSuccess (snd (registerTeamUpload hashPassword db body uploads)) = false
   /\ fst (registerTeamUpload hashPassword db body uploads) = db)
  \/ exists urls ld h,
       uploads = Uploaded urls
       /\ documentsResolved urls (RegisterTeamInput.members body)
       /\ findLeader (RegisterTeamInput.members body) = Some ld
       /\ hashPassword defaultPassword = Some h
       /\ registerTeamUpload hashPassword db body uploads
          = (afterRegisterUpload
               db body
               (attachDocuments urls 0 (RegisterTeamInput.members body)) ld h,
             registered (Team.mk (nextId db) (RegisterTeamInput.teamName body)
                                 (RegisterTeamInput.theme body))).
Proof.
  unfold registerTeamUpload, transaction.
  destruct (checkRosterUpload uploads (RegisterTeamInput.members body))
    as [r|ms'] eqn:Hcheck.
  { left. unfold checkRosterUpload in Hcheck.
    destruct (negb (List.length (RegisterTeamInput.members body) =? 6)%nat).
    - injection Hcheck as <-. split; reflexivity.
    - destruct uploads as [|urls].
      + injection Hcheck as <-. split; reflexivity.
      + destruct (scanMembersUpload urls 0 _ noCounts) as [v|[c ms0]].
        * injection Hcheck as <-. destruct v; split; reflexivity.
        * destruct (negb (teamLeaderCount c =? 1)%nat);
            [injection Hcheck as <-; split; reflexivity|].
          destruct (negb (schoolStudentCount c =? 1)%nat);
            [injection Hcheck as <-; split; reflexivity|].
          destruct (femaleCount c =? 0)%nat;
            [injection Hcheck as <-; split; reflexivity|discriminate]. }
  destruct (checkRosterUpload_inr _ _ _ Hcheck) as [urls [-> [-> [Hdocs Hone]]]].
  destruct (team_findUnique db (RegisterTeamInput.teamName body)) as [t|] eqn:Hf;
    [left; split; reflexivity|].
  apply team_findUnique_nameHeld in Hf.
  rewrite registerTxUpload_eq. cbv zeta. rewrite Hf.
  rewrite findLeader_attachDocuments.
  destruct (findLeader_some _ Hone) as [ld [Hld _]]. rewrite Hld.
  destruct (hashPassword defaultPassword) as [h|];
    [|left; split; reflexivity].
  destruct (existsb _ (users db)); [left; split; reflexivity|].
  right. exists urls, ld, h. auto.
Qed.

Lemma truthyStr_orNull s : truthyStr (orNull s) = truthyStr s.
Proof.
  destruct s as [s|]; [|reflexivity]. simpl.
  destruct (s =? "") eqn:H; simpl; [reflexivity|]. rewrite H. reflexivity.
Qed.

Lemma attachDocuments_nth urls ms : forall i j m,
  nth_error ms j = Some m ->
  nth_error (attachDocuments urls i ms) j
  = Some (if isSchoolStudent m
          then withSchoolIdPdf m (pdfUrlOf urls (i + j)) else m).
Proof.
  induction ms as [|m0 rest IH]; intros i [|j] m Hn; try discriminate.
  - simpl in Hn. injection Hn as <-. simpl. rewrite Nat.add_0_r. reflexivity.
  - simpl in Hn. simpl. replace (i + S j) with (S i + j) by lia.
    apply IH. exact Hn.
Qed.

(** X16.  What the file-upload variant stores on success: the team, one
    row per member in roster order, where the row of a school student in
    slot i carries the URL uploaded as schoolIdPdf_i, and the account of
    the leader; the mentor and the representative of the request are not
    stored. *)
Theorem upload_variant_stores_documents_not_mentor :
  forall hashPassword db body uploads,
    isSuccess (snd (registerTeamUpload hashPassword db body uploads)) = true ->
    let db' := fst (registerTeamUpload hashPassword db body uploads) in
    let tid := nextId db in
    exists urls ld h,
      uploads = Uploaded urls
      /\ findLeader (RegisterTeamInput.members body) = Some ld
      /\ hashPassword defaultPassword = Some h
      /\ teams db' = teams db ++ [Team.mk tid (RegisterTeamInput.teamName body)
                                          (RegisterTeamInput.theme body)]
      /\ teamMembers db'
         = teamMembers db
           ++ map (memberRowUpload tid)
                  (attachDocuments urls 0 (RegisterTeamInput.members body))
      /\ (forall i m,
            nth_error (RegisterTeamInput.members body) i = Some m ->
            isSchoolStudent m = true ->
            exists url,
              pdfUrlOf urls i = Some url /\ url <> ""
              /\ nth_error (map (memberRowUpload tid)
                                (attachDocuments
                                   urls 0 (RegisterTeamInput.members body))) i
                 = Some (memberRowUpload tid (withSchoolIdPdf m (Some url)))
              /\ TeamMemberRow.schoolIdPdf
                   (memberRowUpload tid (withSchoolIdPdf m (Some url)))
                 = Some url)
      /\ facultyMentors db' = facultyMentors db
      /\ communityRepresentatives db' = communityRepresentatives db
      /\ users db' = users db ++ [leaderAccount (S tid) tid ld h].
Proof.
  intros hashPassword db body uploads Hs db' tid.
  destruct (registerTeamUpload_store hashPassword db body uploads)
    as [[Hf _]|[urls [ld [h [Hup [Hdocs [Hld [Hh Heq]]]]]]]]; [congruence|].
  unfold db'. rewrite Heq. simpl.
  exists urls, ld, h.
  split; [exact Hup|]. split; [exact Hld|]. split; [exact Hh|].
  split; [reflexivity|]. split; [reflexivity|].
  split; [|auto].
  intros i m Hn Hss. specialize (Hdocs i m Hn Hss).
  destruct (pdfUrlOf urls i) as [url|] eqn:Hurl; [|discriminate].
  simpl in Hdocs. apply negb_true_iff in Hdocs.
  exists url. split; [reflexivity|].
  split; [apply String.eqb_neq; exact Hdocs|]. split.
  - rewrite nth_error_map.
    rewrite (attachDocuments_nth urls _ 0 i m Hn). simpl.
    rewrite Hss, Hurl. reflexivity.
  - simpl. rewrite Hdocs. reflexivity.
Qed.

Lemma upload_variant_stores_documents_not_mentor_witness :
  exists urls ld h,
    Uploaded Sample.pdfs = Uploaded urls
    /\ findLeader Sample.roster = Some ld
    /\ Sample.hashOk defaultPassword = Some h
    /\ facultyMentors
         (fst (registerTeamUpload Sample.hashOk Sample.emptyStore
                                  Sample.falcons (Uploaded Sample.pdfs)))
       = [].
Proof.
  destruct (upload_variant_stores_documents_not_mentor
              Sample.hashOk Sample.emptyStore Sample.falcons
              (Uploaded Sample.pdfs) eq_refl)
    as [urls [ld [h [H1 [H2 [H3 [_ [_ [_ [H4 _]]]]]]]]]].
  exists urls, ld, h. auto.
Defined.

(** X17.  The variant is all-or-nothing, and it has one answer for every
    error of the store: when it does not answer success the store is as it
    was; a registration whose leader's email already has an account is
    answered 500 "Failed to register team". *)
Theorem upload_variant_failure :
  forall hashPassword db body uploads,
    (isSuccess (snd (registerTeamUpload hashPassword db body uploads)) = false ->
     fst (registerTeamUpload hashPassword db body uploads) = db)
    /\ (forall ms ld,
          checkRosterUpload uploads (RegisterTeamInput.members body) = inr ms ->
          nameHeld db (RegisterTeamInput.teamName body) = false ->
          hashPassword defaultPassword <> None ->
          findLeader ms = Some ld ->
          existsb (fun u => User.email u =? TeamMemberInput.email ld)
                  (users db) = true ->
          registerTeamUpload hashPassword db body uploads
          = (db, Failure "Failed to register team" INTERNAL_SERVER_ERROR)).
Proof.
  intros hashPassword db body uploads. split.
  - intros Hs.
    destruct (registerTeamUpload_store hashPassword db body uploads)
      as [[_ H]|[urls [ld [h [_ [_ [_ [_ Heq]]]]]]]]; [exact H|].
    rewrite Heq in Hs. discriminate.
  - intros ms ld Hcheck Hheld Hh Hld Hmail.
    unfold registerTeamUpload, transaction. rewrite Hcheck.
    apply team_findUnique_nameHeld in Hheld as Hf. rewrite Hf.
    rewrite registerTxUpload_eq. cbv zeta. rewrite Hheld, Hld.
    destruct (hashPassword defaultPassword) as [h|]; [|congruence].
    rewrite Hmail. reflexivity.
Qed.

Lemma upload_variant_failure_witness :
  registerTeamUpload Sample.hashOk Sample.withLeaderAccount Sample.falcons
                     (Uploaded Sample.pdfs)
  = (Sample.withLeaderAccount,
     Failure "Failed to register team" INTERNAL_SERVER_ERROR).
Proof.
  apply (proj2 (upload_variant_failure
                  Sample.hashOk Sample.withLeaderAccount Sample.falcons
                  (Uploaded Sample.pdfs))
               (attachDocuments Sample.pdfs 0 Sample.roster) Sample.leader).
  - reflexivity.
  - reflexivity.
  - discriminate.
  - reflexivity.
  - reflexivity.
Defined.

(** ** Saving and reading a submission *)

Lemma find_updated_submission tid input rows x :
  find (ofTeamId tid) rows = Some x ->
  find (ofTeamId tid)
       (map (fun s => if ofTeamId tid s then updatedSubmission input s else s)
            rows)
  = Some (updatedSubmission input x).
Proof.
  induction rows as [|r rows IH]; simpl; [discriminate|].
  destruct (ofTeamId tid r) eqn:Hr.
  - intros H. injection H as <-. simpl.
    change (ofTeamId tid (updatedSubmission input r)) with (ofTeamId tid r).
    rewrite Hr. reflexivity.
  - simpl. rewrite Hr. exact IH.
Qed.

Lemma submission_upsert_found newId tid input p x :
  fitsSubmission input = true ->
  find (ofTeamId tid) (submissionRows p) = Some x ->
  submission_upsert newId tid input p
  = inr (updatedSubmission input x,
         mkPortal (store p)
                  (map (fun s => if ofTeamId tid s
                                 then updatedSubmission input s else s)
                       (submissionRows p))).
Proof.
  intros Hfits H. unfold submission_upsert. rewrite Hfits, H. reflexivity.
Qed.

Lemma submission_upsert_too_wide newId tid input p :
  fitsSubmission input = false ->
  submission_upsert newId tid input p = inl (PrismaError "P2000").
Proof. intros H. unfold submission_upsert. rewrite H. reflexivity. Qed.

Lemma createOrUpdateSubmission_sent newId p user input :
  isSent (snd (createOrUpdateSubmission newId p user input)) = true ->
  exists uid tid row,
    user = Some uid
    /\ fitsSubmission input = true
    /\ teamIdOf (store p) uid = Some tid
    /\ createOrUpdateSubmission newId p user input
       = (fst (createOrUpdateSubmission newId p user input),
          Sent row (Some "Submission saved successfully") OK)
    /\ teamIdOf (store (fst (createOrUpdateSubmission newId p user input))) uid
       = Some tid
    /\ find (ofTeamId tid)
            (submissionRows (fst (createOrUpdateSubmission newId p user input)))
       = Some row
    /\ ((exists x, find (ofTeamId tid) (submissionRows p) = Some x
                   /\ row = updatedSubmission input x
                   /\ fst (createOrUpdateSubmission newId p user input)
                      = mkPortal (store p)
                          (map (fun s => if ofTeamId tid s
                                         then updatedSubmission input s else s)
                               (submissionRows p)))
        \/ (find (ofTeamId tid) (submissionRows p) = None
            /\ row = createdSubmission newId tid input
            /\ fst (createOrUpdateSubmission newId p user input)
               = mkPortal (withSubmissions (store p)
                                           (submissions (store p) ++ [newId]))
                          (submissionRows p ++ [row]))).
Proof.
  unfold createOrUpdateSubmission.
  destruct user as [uid|]; [|discriminate].
  destruct (teamIdOf (store p) uid) as [tid|] eqn:Ht; [|discriminate].
  unfold submission_upsert.
  destruct (fitsSubmission input) eqn:Hfits; [|discriminate].
  cbn [negb].
  destruct (find (ofTeamId tid) (submissionRows p)) as [x|] eqn:Hf.
  - intros _. exists uid, tid, (updatedSubmission input x). simpl.
    split; [reflexivity|]. split; [reflexivity|]. split; [exact Ht|].
    split; [reflexivity|].
    split; [exact Ht|]. split; [apply find_updated_submission; exact Hf|].
    left. exists x. auto.
  - destruct (negb (existsb _ (teams (store p)))); [discriminate|].
    destruct (existsb _ (submissionRows p)); [discriminate|].
    intros _. exists uid, tid, (createdSubmission newId tid input). simpl.
    split; [reflexivity|]. split; [reflexivity|]. split; [exact Ht|].
    split; [reflexivity|].
    split; [exact Ht|]. split.
    + rewrite find_app_none by exact Hf. simpl. unfold ofTeamId. simpl.
      rewrite Nat.eqb_refl. reflexivity.
    + right. auto.
Qed.

(** X18.  Saving is an upsert that merges: after a save that succeeded, a
    second save by the same user whose properties fit their columns
    succeeds, adds no row and stores the first row with each property of
    the second request written over it and each absent property kept, and
    [getSubmission] reads back what each save stored; a second save with
    a property wider than its column is answered 500 "Failed to save
    submission" and changes nothing. *)
Theorem second_save_merges :
  forall newId1 newId2 p user input1 input2,
    let out1 := createOrUpdateSubmission newId1 p user input1 in
    let out2 := createOrUpdateSubmission newId2 (fst out1) user input2 in
    isSent (snd out1) = true ->
    (fitsSubmission input2 = true ->
     exists row1,
       snd out1 = Sent row1 (Some "Submission saved successfully") OK
       /\ getSubmission (fst out1) user = Sent row1 None OK
       /\ snd out2 = Sent (updatedSubmission input2 row1)
                          (Some "Submission saved successfully") OK
       /\ getSubmission (fst out2) user
          = Sent (updatedSubmission input2 row1) None OK
       /\ List.length (submissionRows (fst out2))
          = List.length (submissionRows (fst out1)))
    /\ (fitsSubmission input2 = false ->
        out2 = (fst out1,
                Refused "Failed to save submission" INTERNAL_SERVER_ERROR)).
Proof.
  intros newId1 newId2 p user input1 input2 out1 out2 Hs.
  destruct (createOrUpdateSubmission_sent newId1 p user input1 Hs)
    as [uid [tid [row1 [-> [_ [_ [Heq [Ht1 [Hf1 _]]]]]]]]].
  fold out1 in Heq, Ht1, Hf1.
  split.
  - intros Hfits.
    exists row1. split; [rewrite Heq; reflexivity|].
    split.
    { unfold getSubmission. rewrite Ht1, Hf1. reflexivity. }
    assert (Hout2 : out2
                    = (mkPortal (store (fst out1))
                         (map (fun s => if ofTeamId tid s
                                        then updatedSubmission input2 s else s)
                              (submissionRows (fst out1))),
                       Sent (updatedSubmission input2 row1)
                            (Some "Submission saved successfully") OK)).
    { unfold out2, createOrUpdateSubmission. rewrite Ht1.
      rewrite (submission_upsert_found newId2 tid input2 (fst out1) row1
                 Hfits Hf1).
      reflexivity. }
    rewrite Hout2. simpl. split; [reflexivity|]. split.
    + unfold getSubmission. simpl. rewrite Ht1.
      rewrite (find_updated_submission tid input2 _ row1 Hf1). reflexivity.
    + apply List.length_map.
  - intros Hwide. unfold out2, createOrUpdateSubmission. rewrite Ht1.
    rewrite (submission_upsert_too_wide newId2 tid input2 (fst out1) Hwide).
    reflexivity.
Qed.

Lemma second_save_merges_witness :
  exists row1,
    snd (createOrUpdateSubmission "sub-7" Portals.enrolled (Some 1)
                                  Portals.draft)
    = Sent row1 (Some "Submission saved successfully") OK
    /\ snd (createOrUpdateSubmission
              "sub-8"
              (fst (createOrUpdateSubmission "sub-7" Portals.enrolled
                                             (Some 1) Portals.draft))
              (Some 1) Portals.revision)
       = Sent (Submission.mk
                 "sub-7" (Some "Clean water")
                 (Some "Filters for every village") None None None None
                 (Some "https://code.example.org/water") None 0)
              (Some "Submission saved successfully") OK.
Proof.
  destruct (proj1 (second_save_merges
                     "sub-7" "sub-8" Portals.enrolled (Some 1)
                     Portals.draft Portals.revision eq_refl) eq_refl)
    as [row1 [H1 [_ [H2 _]]]].
  exists row1. split; [exact H1|].
  rewrite H2. simpl in H1. injection H1 as <-. reflexivity.
Defined.

(** ** From registration to evaluation *)

Lemma find_app_last {A} (f : A -> bool) l x :
  (forall y, In y l -> f y = false) -> f x = true ->
  find f (l ++ [x]) = Some x.
Proof.
  intros Hl Hx. rewrite find_app_none.
  - simpl. rewrite Hx. reflexivity.
  - destruct (find f l) as [y|] eqn:Hf; [|reflexivity].
    apply find_some in Hf. destruct Hf as [Hin Hy].
    rewrite (Hl y Hin) in Hy. discriminate.
Qed.

Lemma registerTeam_registered hashPassword db body :
  isSuccess (snd (registerTeam hashPassword db body)) = true ->
  exists ld h,
    registerTeam hashPassword db body
    = (afterRegister db body ld h,
       Success (TeamData (nextId db) (RegisterTeamInput.teamName body))
               "Team registered successfully" CREATED).
Proof.
  intros Hs.
  destruct (snd (registerTeam hashPassword db body))
    as [[tid' tname|ev] msg st|msg st] eqn:Hout; try discriminate.
  - assert (Heq : registerTeam hashPassword db body
                  = (fst (registerTeam hashPassword db body),
                     Success (TeamData tid' tname) msg st)).
    { rewrite <- Hout.
      destruct (registerTeam hashPassword db body); reflexivity. }
    pose proof Heq as Heq'. unfold registerTeam in Heq'.
    destruct (registerTeamAt_success _ _ _ _ _ _ _ _ _ Heq')
      as [_ [_ [-> [-> [ld [h [_ [_ [_ [_ Hdb]]]]]]]]]].
    exists ld, h. rewrite Heq. unfold registerTeam. rewrite Hdb.
    f_equal. unfold registerTeam, registerTeamAt, transaction in Hout.
    destruct (validateRoster _) as [v|]; [destruct v; discriminate|].
    destruct (team_findUnique db _); [discriminate|].
    destruct (registerTx hashPassword body db) as [e|[t d]].
    + unfold caught in Hout. simpl in Hout.
      destruct (hasCode e "P2002"); discriminate.
    + simpl in Hout. unfold registered in Hout.
      injection Hout as _ _ <- <-. reflexivity.
  - exfalso. unfold registerTeam, registerTeamAt, transaction in Hout.
    destruct (validateRoster _) as [v|]; [destruct v; discriminate|].
    destruct (team_findUnique db _); [discriminate|].
    destruct (registerTx hashPassword body db) as [e|[t d]].
    + unfold caught in Hout. simpl in Hout.
      destruct (hasCode e "P2002"); discriminate.
    + discriminate.
Qed.

Lemma team_findById_registered arrange db body ld h rows :
  registryOk db ->
  let tid := nextId db in
  team_findById arrange (mkPortal (afterRegister db body ld h) rows) tid
  = Some (TeamWithRelations.mk
            (Team.mk tid (RegisterTeamInput.teamName body)
                     (RegisterTeamInput.theme body))
            (arrange _ (map (memberRow tid) (RegisterTeamInput.members body)))
            (Some (mentorRow tid (RegisterTeamInput.facultyMentor body)))
            (Some (representativeRow
                     tid (RegisterTeamInput.communityRepresentative body)))
            (find (ofTeamId tid) rows)).
Proof.
  intros Hok tid.
  destruct (afterRegister_new db body ld h Hok) as [Hm [Hf [Hr Ha]]].
  fold tid in Hm, Hf, Hr, Ha.
  destruct Hok as [Ht Hmb Hfb Hrb Hab Hai _ _ _].
  rewrite Forall_forall in Ht, Hfb, Hrb.
  unfold team_findById. simpl store. rewrite Hm.
  assert (H1 : find (fun t => (Team.id t =? tid)%nat)
                    (teams (afterRegister db body ld h))
               = Some (Team.mk tid (RegisterTeamInput.teamName body)
                               (RegisterTeamInput.theme body))).
  { simpl. apply find_app_last; [|simpl; apply Nat.eqb_refl].
    intros t Hin. apply Nat.eqb_neq. specialize (Ht t Hin). unfold tid. lia. }
  assert (H2 : find (fun f => (FacultyMentor.teamId f =? tid)%nat)
                    (facultyMentors (afterRegister db body ld h))
               = Some (mentorRow tid (RegisterTeamInput.facultyMentor body))).
  { simpl. apply find_app_last; [|simpl; apply Nat.eqb_refl].
    intros f Hin. apply Nat.eqb_neq. specialize (Hfb f Hin). unfold tid. lia. }
  assert (H3 : find (fun r => (CommunityRepresentative.teamId r =? tid)%nat)
                    (communityRepresentatives (afterRegister db body ld h))
               = Some (representativeRow
                         tid (RegisterTeamInput.communityRepresentative body))).
  { simpl. apply find_app_last; [|simpl; apply Nat.eqb_refl].
    intros r Hin. apply Nat.eqb_neq. specialize (Hrb r Hin). unfold tid. lia. }
  rewrite H1, H2, H3. reflexivity.
Qed.

(** X19.  A registered team can be read back: after a successful
    [registerTeam] on a registry in order, [getTeamById] for the id of the
    reply answers with the team, the mentor and the representative of the
    request, and the member rows of the roster in whatever order the
    engine returns them; [getMyTeam] for the account of the leader
    answers with the same team. *)
Theorem registered_team_can_be_read :
  forall hashPassword arrange1 arrange2 db body rows,
    arranges arrange1 ->
    arranges arrange2 ->
    registryOk db ->
    isSuccess (snd (registerTeam hashPassword db body)) = true ->
    let p' := mkPortal (fst (registerTeam hashPassword db body)) rows in
    let tid := nextId db in
    let team := Team.mk tid (RegisterTeamInput.teamName body)
                        (RegisterTeamInput.theme body) in
    let members := map (memberRow tid) (RegisterTeamInput.members body) in
    let mentor := mentorRow tid (RegisterTeamInput.facultyMentor body) in
    let representative :=
      representativeRow tid (RegisterTeamInput.communityRepresentative body) in
    snd (registerTeam hashPassword db body)
    = Success (TeamData tid (RegisterTeamInput.teamName body))
              "Team registered successfully" CREATED
    /\ answersTeam (getTeamById arrange1 p' tid) team members
                   (Some mentor) (Some representative)
                   (find (ofTeamId tid) rows)
    /\ exists leaderId,
         In leaderId (map User.id (accountsOf (store p') tid))
         /\ answersTeam (getMyTeam arrange2 p' (Some leaderId)) team members
                        (Some mentor) (Some representative)
                        (find (ofTeamId tid) rows).
Proof.
  intros hashPassword arrange1 arrange2 db body rows Harr1 Harr2 Hok Hs
         p' tid team members mentor representative.
  destruct (registerTeam_registered hashPassword db body Hs) as [ld [h Heq]].
  unfold p'. rewrite Heq. simpl fst. simpl snd.
  split; [reflexivity|].
  pose proof (team_findById_registered arrange1 db body ld h rows Hok) as H1.
  pose proof (team_findById_registered arrange2 db body ld h rows Hok) as H2.
  cbv zeta in H1, H2. fold tid in H1, H2.
  destruct (afterRegister_new db body ld h Hok) as [_ [_ [_ Ha]]].
  fold tid in Ha.
  split.
  - unfold answersTeam, getTeamById. rewrite H1.
    eexists. split; [reflexivity|]. apply Harr1.
  - exists (S tid). simpl store. rewrite Ha. split; [simpl; auto|].
    assert (Hu : teamIdOf (afterRegister db body ld h) (S tid) = Some tid).
    { unfold teamIdOf. simpl users.
      rewrite (find_app_last _ _ (leaderAccount (S tid) tid ld h)).
      - reflexivity.
      - intros u Hin. apply Nat.eqb_neq.
        pose proof (account_ids_below db Hok) as Hai.
        rewrite Forall_forall in Hai. specialize (Hai u Hin).
        unfold tid. lia.
      - simpl. apply Nat.eqb_refl. }
    unfold answersTeam, getMyTeam. simpl store. rewrite Hu, H2.
    eexists. split; [reflexivity|]. apply Harr2.
Qed.

Lemma registered_team_can_be_read_witness :
  answersTeam
    (getTeamById
       newestFirst
       (mkPortal (fst (registerTeam Sample.hashOk Sample.emptyStore
                                    Sample.falcons)) [])
       0)
    (Team.mk 0 "Falcons" "Health")
    (map (memberRow 0) Sample.roster)
    (Some (mentorRow 0 Sample.mentor))
    (Some (representativeRow 0 Sample.representative))
    None.
Proof.
  exact (proj1 (proj2 (registered_team_can_be_read
                         Sample.hashOk newestFirst newestFirst
                         Sample.emptyStore Sample.falcons []
                         arranges_newestFirst arranges_newestFirst
                         registryOk_emptyStore eq_refl))).
Defined.

Lemma consistent_withSubmissions db ids :
  consistent db -> consistent (withSubmissions db ids).
Proof. intros [H1 H2 H3 H4]. constructor; assumption. Qed.

Lemma submitEvaluation_accepts db uid sid scores comments :
  consistent db ->
  sid <> "" ->
  In sid (submissions db) ->
  Forall (fun s => Scoring.known (evaluationCriteria db) s = true) scores ->
  NoDup (map criteriaId scores) ->
  isSuccess
    (snd (submitEvaluation
            db (EvaluationRequest.mk (Some uid) (Some sid) (Some scores)
                                     comments)))
  = true.
Proof.
  intros Hc Hne Hsub Hk Hnd.
  unfold submitEvaluation, transaction. simpl.
  apply String.eqb_neq in Hne. rewrite Hne.
  destruct (find (sameKey sid uid) (evaluations db)) as [old|] eqn:Hfind.
  - destruct (find_sameKey_in _ _ _ _ Hfind) as [Hin Hkey].
    rewrite (evaluationTx_resubmit sid uid _ _ scores db old
               Hc Hin Hkey Hk Hnd).
    reflexivity.
  - rewrite (evaluationTx_first sid uid _ _ scores db Hc Hfind Hsub Hk Hnd).
    reflexivity.
Qed.

(** X20.  A saved submission can be evaluated: after a save that
    succeeded, the keys the store keeps are still the keys of the rows,
    and [submitEvaluation] for the id of the saved row, by any evaluator,
    with scores for known and pairwise distinct criteria, succeeds. *)
Theorem saved_submission_can_be_evaluated :
  forall newId p user input evaluatorId scores comments,
    let out := createOrUpdateSubmission newId p user input in
    coupled p ->
    consistent (store p) ->
    forall row message status,
      snd out = Sent row message status ->
      Submission.id row <> "" ->
      Forall (fun s => Scoring.known (evaluationCriteria (store p)) s = true)
             scores ->
      NoDup (map criteriaId scores) ->
      coupled (fst out)
      /\ isSuccess
           (snd (submitEvaluation
                   (store (fst out))
                   (EvaluationRequest.mk (Some evaluatorId)
                                         (Some (Submission.id row))
                                         (Some scores) comments)))
         = true.
Proof.
  intros newId p user input evaluatorId scores comments out Hcoupled Hc
         row message status Hout Hne Hk Hnd.
  assert (Hs : isSent (snd out) = true) by (rewrite Hout; reflexivity).
  destruct (createOrUpdateSubmission_sent newId p user input Hs)
    as [uid [tid [row' [_ [_ [_ [Heq [_ [Hfind Hcases]]]]]]]]].
  fold out in Heq, Hfind, Hcases.
  rewrite Heq in Hout. simpl in Hout. injection Hout as -> _ _.
  unfold coupled in *.
  destruct Hcases as [[x [Hx [Hrow Hp]]]|[_ [Hrow Hp]]]; rewrite Hp; simpl.
  - split.
    + rewrite Hcoupled, map_map. apply map_ext. intros s.
      destruct (ofTeamId tid s); reflexivity.
    + apply submitEvaluation_accepts; try assumption.
      rewrite Hcoupled. apply find_some in Hx. destruct Hx as [Hin _].
      rewrite Hrow. simpl. apply in_map. exact Hin.
  - split.
    + rewrite map_app, Hcoupled, Hrow. reflexivity.
    + apply submitEvaluation_accepts; try assumption.
      * apply consistent_withSubmissions. exact Hc.
      * simpl. apply in_or_app. right. rewrite Hrow. simpl. auto.
Qed.

Lemma saved_submission_can_be_evaluated_witness :
  isSuccess
    (snd (submitEvaluation
            (store (fst (createOrUpdateSubmission
                           "sub-7" Portals.enrolled (Some 1) Portals.draft)))
            (EvaluationRequest.mk (Some "eval-1") (Some "sub-7")
                                  (Some Sample.score8070) None)))
  = true.
Proof.
  refine (proj2 (saved_submission_can_be_evaluated
                   "sub-7" Portals.enrolled (Some 1) Portals.draft
                   "eval-1" Sample.score8070 None
                   eq_refl _
                   (createdSubmission "sub-7" 0 Portals.draft)
                   (Some "Submission saved successfully") OK
                   eq_refl _ _ _)).
  - constructor; simpl; constructor.
  - discriminate.
  - repeat constructor.
  - repeat constructor; simpl; intuition discriminate.
Defined.

(** ** Criteria that change under stored evaluations *)

Lemma findCriteria_map (f : EvaluationCriteria.t -> EvaluationCriteria.t)
      cs k :
  (forall c, EvaluationCriteria.id (f c) = EvaluationCriteria.id c) ->
  Scoring.findCriteria (map f cs) k
  = match Scoring.findCriteria cs k with
    | Some c => Some (f c)
    | None => None
    end.
Proof.
  intros Hid. unfold Scoring.findCriteria.
  induction cs as [|c cs IH]; simpl; [reflexivity|].
  rewrite Hid. destruct (EvaluationCriteria.id c =? k); [reflexivity|exact IH].
Qed.

Lemma updateEvaluationCriteria_sent db cid input :
  isSent (snd (updateEvaluationCriteria db cid input)) = true ->
  exists c,
    Scoring.findCriteria (evaluationCriteria db) cid = Some c
    /\ fitsIfPresent fitsInteger (CriteriaInput.weightage input) = true
    /\ fitsIfPresent fitsVarchar (CriteriaInput.criteria input) = true
    /\ snd (updateEvaluationCriteria db cid input)
       = Sent (updatedCriteria input c) (Some "Criteria updated successfully")
              OK
    /\ Scoring.findCriteria
         (evaluationCriteria (fst (updateEvaluationCriteria db cid input))) cid
       = Some (updatedCriteria input c).
Proof.
  unfold updateEvaluationCriteria, transaction, evaluationCriteria_update.
  destruct (Scoring.findCriteria (evaluationCriteria db) cid) as [c|] eqn:Hf;
    [|simpl; discriminate].
  destruct (fitsIfPresent fitsInteger (CriteriaInput.weightage input));
    [|simpl; discriminate].
  destruct (fitsIfPresent fitsVarchar (CriteriaInput.criteria input));
    [|simpl; discriminate].
  simpl. intros _. exists c. repeat split.
  rewrite (findCriteria_map
             (fun c' => if EvaluationCriteria.id c' =? cid
                        then updatedCriteria input c' else c')).
  - rewrite Hf. apply findCriteria_id in Hf. destruct Hf as [_ Hid].
    rewrite Hid, String.eqb_refl. reflexivity.
  - intros c'. destruct (EvaluationCriteria.id c' =? cid); reflexivity.
Qed.

Lemma evaluation_findMany_in arrange db sid x :
  arranges arrange ->
  In x (evaluation_findMany arrange db sid) ->
  exists e,
    In e (evaluations db)
    /\ x = includeScores arrange db e.
Proof.
  intros Harr Hx. unfold evaluation_findMany in Hx.
  apply (Permutation_in _ (Harr _ _)) in Hx.
  apply in_map_iff in Hx. destruct Hx as [e [<- He]].
  apply filter_In in He. exists e. tauto.
Qed.

(** X21.  Editing a criterion recomputes nothing: after
    [updateEvaluationCriteria], whatever it answers,
    [getEvaluationsBySubmission] lists the same evaluations with the same
    stored totals, and with each of them the same score rows, as before;
    when the update succeeds, a listed score of the edited criterion is
    shown with the criterion as edited. *)
Theorem criteria_update_keeps_stored_totals :
  forall arrange1 arrange2 db cid input sid,
    arranges arrange1 ->
    arranges arrange2 ->
    let db' := fst (updateEvaluationCriteria db cid input) in
    Permutation
      (map EvaluationWithScores.evaluation
           (evaluation_findMany arrange2 db' sid))
      (map EvaluationWithScores.evaluation
           (evaluation_findMany arrange1 db sid))
    /\ (forall x,
          In x (evaluation_findMany arrange2 db' sid) ->
          Permutation
            (map ScoreWithCriteria.row (EvaluationWithScores.scores x))
            (scoresOf db (Evaluation.id (EvaluationWithScores.evaluation x))))
    /\ (isSent (snd (updateEvaluationCriteria db cid input)) = true ->
        forall x sc,
          In x (evaluation_findMany arrange2 db' sid) ->
          In sc (EvaluationWithScores.scores x) ->
          EvaluationScore.criteriaId (ScoreWithCriteria.row sc) = cid ->
          exists c,
            Scoring.findCriteria (evaluationCriteria db) cid = Some c
            /\ ScoreWithCriteria.criteria sc = Some (updatedCriteria input c)).
Proof.
  intros arrange1 arrange2 db cid input sid Harr1 Harr2 db'.
  destruct (updateEvaluationCriteria_ids db cid input)
    as [_ [Hev [Hsc _]]].
  fold db' in Hev, Hsc.
  split; [|split].
  - unfold evaluation_findMany. rewrite Hev.
    eapply Permutation_trans;
      [apply Permutation_map; apply Harr2|].
    eapply Permutation_trans;
      [|apply Permutation_sym; apply Permutation_map; apply Harr1].
    rewrite !map_map. simpl. apply Permutation_refl.
  - intros x Hx.
    destruct (evaluation_findMany_in arrange2 db' sid x Harr2 Hx)
      as [e [_ ->]].
    simpl. eapply Permutation_trans;
      [apply Permutation_map; apply Harr2|].
    rewrite map_map. simpl. rewrite map_id.
    unfold scoresOf. rewrite Hsc. apply Permutation_refl.
  - intros Hs x sc Hx Hscx Hcid.
    destruct (updateEvaluationCriteria_sent db cid input Hs)
      as [c [Hf [_ [_ [_ Hf']]]]].
    fold db' in Hf'.
    destruct (evaluation_findMany_in arrange2 db' sid x Harr2 Hx)
      as [e [_ ->]].
    simpl in Hscx. apply (Permutation_in _ (Harr2 _ _)) in Hscx.
    apply in_map_iff in Hscx. destruct Hscx as [r [<- _]].
    simpl in Hcid. exists c. split; [exact Hf|].
    unfold includeCriteria. simpl. rewrite Hcid. exact Hf'.
Qed.

Lemma criteria_update_keeps_stored_totals_witness :
  Permutation
    (map EvaluationWithScores.evaluation
         (evaluation_findMany
            newestFirst
            (fst (updateEvaluationCriteria
                    (fst (submitEvaluation Sample.judging
                                           (Sample.evaluate Sample.score8070)))
                    "B" (CriteriaInput.mk None (Some 30%Z) None)))
            "sub-1"))
    (map EvaluationWithScores.evaluation
         (evaluation_findMany
            newestFirst
            (fst (submitEvaluation Sample.judging
                                   (Sample.evaluate Sample.score8070)))
            "sub-1")).
Proof.
  exact (proj1 (criteria_update_keeps_stored_totals
                  newestFirst newestFirst
                  (fst (submitEvaluation Sample.judging
                                         (Sample.evaluate Sample.score8070)))
                  "B" (CriteriaInput.mk None (Some 30%Z) None) "sub-1"
                  arranges_newestFirst arranges_newestFirst)).
Defined.
